(** * Convolve / langgraph-service: ingestion and reasoning workflows

    A shallow embedding of the Python service under
    [src/langgraph-service]: the two agents' heuristics
    ([agents/ingestion.py], [agents/other_agents.py]), the two workflow
    graphs ([workflows/knowledge_workflow.py],
    [workflows/reasoning_workflow.py]) and their [run] wrappers.

    Conventions of the embedding.
    - A Python [str] is a [string]; an [ascii] stands for the code point
      of the same number, so the model covers text whose code points are
      below 256.
    - A Python [float] is an exact rational ([Q]); the only float
      operations of the modelled code are [1.0 - n * 0.2], [max] and one
      division of two list lengths. The three confidences of
      [validate_content] are computed in binary64 as well.
    - A raised exception is the string [str(e)] that the run wrapper
      records; a computation that may raise returns [Exc A].
    - A [TypedDict] state is a record; a key that a step adds and that
      the type does not declare is an [option] field, [None] while the
      key is absent.
    - The external services (text splitter, embedding model, language
      model, vector store, graph store, wall clock) are the fields of
      the class [Services], over an abstract world that they read and
      change.
    - The graph engine is the LangGraph library, which the repository
      uses and does not contain; [StateGraph.drive] follows the
      specification's account of it: the state a step returns is, whole,
      the state its successor receives. *)

From Stdlib Require Import String Ascii List DecimalString QArith Qminmax Lia.
From Stdlib Require Import PrimFloat.
From stdpp Require Import gmap strings list.

Open Scope string_scope.
Open Scope list_scope.

Set Warnings "-clear-no-such-hyp,-inexact-float".

(** ** Exceptions *)

Definition exn := string.

Inductive Exc (A : Type) : Type :=
| Return (a : A)
| Raise (e : exn).
Arguments Return {A} a.
Arguments Raise {A} e.

Definition exc_bind {A B} (c : Exc A) (k : A -> Exc B) : Exc B :=
  match c with
  | Return a => k a
  | Raise e => Raise e
  end.

(** ** Python's [str] methods used by the service *)

Module Py.

(** [c.isspace()] on code points below 256. *)
Definition is_space (c : ascii) : bool :=
  let n := nat_of_ascii c in
  ((9 <=? n)%nat && (n <=? 13)%nat)
  || ((28 <=? n)%nat && (n <=? 32)%nat)
  || (n =? 133)%nat || (n =? 160)%nat.

(** [c.lower()] on code points below 256: A-Z and the accented
    capitals U+00C0..U+00DE (the sign U+00D7 apart) move up by 32. *)
Definition lower_char (c : ascii) : ascii :=
  let n := nat_of_ascii c in
  if ((65 <=? n)%nat && (n <=? 90)%nat)
     || ((192 <=? n)%nat && (n <=? 222)%nat && negb (n =? 215)%nat)
  then ascii_of_nat (n + 32)
  else c.

Fixpoint lower (s : string) : string :=
  match s with
  | EmptyString => EmptyString
  | String c r => String (lower_char c) (lower r)
  end.

Fixpoint lstrip_chars (l : list ascii) : list ascii :=
  match l with
  | c :: r => if is_space c then lstrip_chars r else l
  | [] => []
  end.

(** [s.strip()] *)
Definition strip (s : string) : string :=
  string_of_list_ascii
    (rev (lstrip_chars (rev (lstrip_chars (list_ascii_of_string s))))).

(** [s.split()]: the maximal runs of non-whitespace characters, in
    order; [tok] is the run being read. *)
Fixpoint split_from (tok : string) (s : string) : list string :=
  match s with
  | EmptyString =>
      match tok with EmptyString => [] | _ => [tok] end
  | String c r =>
      if is_space c
      then match tok with
           | EmptyString => split_from EmptyString r
           | _ => tok :: split_from EmptyString r
           end
      else split_from (tok +:+ String c EmptyString) r
  end.

Definition split (s : string) : list string := split_from EmptyString s.

(** [s.count(c)] for a one-character [c]. *)
Fixpoint count (c : ascii) (s : string) : nat :=
  match s with
  | EmptyString => 0
  | String d r => (if Ascii.eqb c d then 1 else 0) + count c r
  end.

(** [sub in s] *)
Fixpoint contains (sub s : string) : bool :=
  String.prefix sub s
  || match s with
     | EmptyString => false
     | String _ r => contains sub r
     end.

(** [sep.join(l)] *)
Definition join (sep : string) (l : list string) : string :=
  String.concat sep l.

(** [max(a, b)] on floats: the first argument unless the second is
    strictly greater. *)
Definition max (a b : Q) : Q := if Qle_bool b a then a else b.

(** [max(l, default=d)] on strings: the first greatest element in the
    order of [str], which compares code points from the left. *)
Definition max_str (l : list string) (default : string) : string :=
  match l with
  | [] => default
  | x :: r => fold_left (fun m y => if String.ltb m y then y else m) r x
  end.

(** [set(l)] *)
Definition set (l : list string) : gset string := list_to_set l.

End Py.

(** ** Computations that read and change the outside world *)

Section WorldMonad.
Context {World : Type}.

Definition M (A : Type) : Type := World -> Exc A * World.

Definition ret {A} (a : A) : M A := fun w => (Return a, w).

Definition raise {A} (e : exn) : M A := fun w => (Raise e, w).

Definition bind {A B} (c : M A) (k : A -> M B) : M B :=
  fun w =>
    match c w with
    | (Return a, w') => k a w'
    | (Raise e, w') => (Raise e, w')
    end.

Definition lift {A} (c : Exc A) : M A := fun w => (c, w).

(** [for x in l: body], the body changing the loop's local state. *)
Fixpoint for_each {A S} (l : list A) (body : A -> S -> M S) (s : S) : M S :=
  match l with
  | [] => ret s
  | x :: r => bind (body x s) (for_each r body)
  end.
End WorldMonad.
Arguments M World A : clear implicits.

Notation "'let*' x ':=' c 'in' k" := (bind c (fun x => k))
  (at level 10, x name, c at level 100, k at level 200).
Notation "'let!' x ':=' c 'in' k" := (exc_bind c (fun x => k))
  (at level 10, x name, c at level 100, k at level 200).

(** [for x in l: body] for a body that can only raise. *)
Fixpoint exc_for_each {A S} (l : list A) (body : A -> S -> Exc S) (s : S)
  : Exc S :=
  match l with
  | [] => Return s
  | x :: r => let! s' := body x s in exc_for_each r body s'
  end.

(** ** [models/state.py] *)

(** The values a metadata or property mapping holds. *)
#[warnings="-register-all"] Inductive PyVal :=
| VNone
| VStr (s : string)
| VInt (n : Z)
| VFloat (q : Q)
| VDict (d : list (string * PyVal)).

(** A [Dict[str, Any]] in insertion order. *)
Definition Dict := list (string * PyVal).

Definition dict_lookup (k : string) (d : Dict) : option PyVal :=
  match List.find (fun kv => String.eqb (fst kv) k) d with
  | Some kv => Some (snd kv)
  | None => None
  end.

(** [d[k] = v]: an existing key keeps its place. *)
Fixpoint dict_set (k : string) (v : PyVal) (d : Dict) : Dict :=
  match d with
  | [] => [(k, v)]
  | (k', v') :: r =>
      if String.eqb k' k then (k, v) :: r else (k', v') :: dict_set k v r
  end.

(** [d.get(k, default)] read into a field declared [str]. Python
    returns the value held, whatever its type; [get_str] is that value
    when the entry is absent or a [str], and only then: a value of
    another type is outside the typed model, where it reads as the
    default, whereas the program keeps it and fails when it later calls
    a [str] method on it. A statement that depends on what such a field
    holds is made for typed payloads ([typed_entry]). *)
Definition get_str (k : string) (default : string) (d : Dict) : string :=
  match dict_lookup k d with
  | Some (VStr s) => s
  | _ => default
  end.

Definition Vec := list Q.

Definition str_of_nat (n : nat) : string :=
  NilZero.string_of_uint (Nat.to_uint n).

Module KnowledgeNode.
Record t := {
  id : string;
  content : string;
  embedding : option Vec;
  metadata : Dict;
  confidence : Q;
  created_at : string;
  updated_at : string
}.
End KnowledgeNode.

Module KnowledgeEdge.
Record t := {
  from_id : string;
  to_id : string;
  type : string;
  properties : Dict;
  confidence : Q
}.
End KnowledgeEdge.

(** Base state of all workflows; [status] is one of ["running"],
    ["completed"], ["failed"]. *)
Module WorkflowState.
Record t := {
  workflow_id : string;
  status : string;
  current_step : string;
  start_time : string;
  end_time : option string;
  error : option string
}.

Definition with_status (v : string) (s : t) : t :=
  {| workflow_id := workflow_id s; status := v;
     current_step := current_step s; start_time := start_time s;
     end_time := end_time s; error := error s |}.

Definition with_current_step (v : string) (s : t) : t :=
  {| workflow_id := workflow_id s; status := status s;
     current_step := v; start_time := start_time s;
     end_time := end_time s; error := error s |}.

Definition with_end_time (v : option string) (s : t) : t :=
  {| workflow_id := workflow_id s; status := status s;
     current_step := current_step s; start_time := start_time s;
     end_time := v; error := error s |}.

Definition with_error (v : option string) (s : t) : t :=
  {| workflow_id := workflow_id s; status := status s;
     current_step := current_step s; start_time := start_time s;
     end_time := end_time s; error := v |}.
End WorkflowState.

Module ValidationResult.
Record t := {
  is_valid : bool;
  confidence : Q;
  issues : list string;
  suggestions : list string
}.
End ValidationResult.

Module ContradictionAnalysis.
Record t := {
  has_contradiction : bool;
  conflicting_nodes : list string;
  severity : string;
  resolution_suggestions : list string
}.
End ContradictionAnalysis.

(** The mapping [analyze_alignment] returns. *)
Module AlignmentResult.
Record alignment := {
  new_node : string;
  existing_node : string;
  similarity : Q;
  relationship_type : string
}.
Record t := {
  alignments : list alignment;
  new_relationships : list KnowledgeEdge.t;
  integration_confidence : Q
}.
End AlignmentResult.

(** The [existing_graph] mapping the agents receive; a key is [None]
    when the caller's literal does not have it. *)
Module ExistingGraph.
Record t (B : Type) := {
  nodes : option (list B);
  similar_nodes : option (list B)
}.
Arguments nodes {B} _.
Arguments similar_nodes {B} _.
End ExistingGraph.

(** A gap record and the mapping [identify_gaps] returns. *)
Module Gap.
Record t := {
  type : string;
  description : string;
  severity : string
}.
End Gap.

Module GapAnalysis.
Record t := {
  gaps : list Gap.t;
  coverage_score : Q;
  research_suggestions : list string
}.
End GapAnalysis.

(** One hit of [QdrantClient.search_similar]. *)
Module VectorHit.
Record t := {
  id : string;
  score : Q;
  metadata : Dict
}.
End VectorHit.

(** [dict(record["node"])]: the properties of a graph node that the
    service reads, each [None] when the node does not have the key. *)
Module GraphNode.
Record t := {
  id : option string;
  content : option string;
  metadata : option Dict;
  created_at : option string;
  updated_at : option string
}.
End GraphNode.

(** One row of [Neo4jClient.search_nodes]. *)
Module GraphHit.
Record t := {
  node : GraphNode.t;
  score : Q
}.
End GraphHit.

(** State of the ingestion workflow. The fields after [graph_updated]
    are the keys the steps add to the mapping: [validation_result],
    [embeddings_data], [alignment_result], [contradiction_result],
    [embeddings_stored]. *)
Module KnowledgeIngestionState.
Record t := {
  base : WorkflowState.t;
  content : string;
  source : option string;
  metadata : Dict;
  nodes_created : list string;
  edges_created : list string;
  embedding_generated : bool;
  graph_updated : bool;
  validation_result : option ValidationResult.t;
  embeddings_data : option (list (string * Vec * KnowledgeNode.t));
  alignment_result : option AlignmentResult.t;
  contradiction_result : option ContradictionAnalysis.t;
  embeddings_stored : option bool
}.

Definition with_base (v : WorkflowState.t) (s : t) : t :=
  {| base := v; content := content s; source := source s;
     metadata := metadata s; nodes_created := nodes_created s;
     edges_created := edges_created s;
     embedding_generated := embedding_generated s;
     graph_updated := graph_updated s;
     validation_result := validation_result s;
     embeddings_data := embeddings_data s;
     alignment_result := alignment_result s;
     contradiction_result := contradiction_result s;
     embeddings_stored := embeddings_stored s |}.

Definition with_nodes_created (v : list string) (s : t) : t :=
  {| base := base s; content := content s; source := source s;
     metadata := metadata s; nodes_created := v;
     edges_created := edges_created s;
     embedding_generated := embedding_generated s;
     graph_updated := graph_updated s;
     validation_result := validation_result s;
     embeddings_data := embeddings_data s;
     alignment_result := alignment_result s;
     contradiction_result := contradiction_result s;
     embeddings_stored := embeddings_stored s |}.

Definition with_edges_created (v : list string) (s : t) : t :=
  {| base := base s; content := content s; source := source s;
     metadata := metadata s; nodes_created := nodes_created s;
     edges_created := v; embedding_generated := embedding_generated s;
     graph_updated := graph_updated s;
     validation_result := validation_result s;
     embeddings_data := embeddings_data s;
     alignment_result := alignment_result s;
     contradiction_result := contradiction_result s;
     embeddings_stored := embeddings_stored s |}.

Definition with_embedding_generated (v : bool) (s : t) : t :=
  {| base := base s; content := content s; source := source s;
     metadata := metadata s; nodes_created := nodes_created s;
     edges_created := edges_created s; embedding_generated := v;
     graph_updated := graph_updated s;
     validation_result := validation_result s;
     embeddings_data := embeddings_data s;
     alignment_result := alignment_result s;
     contradiction_result := contradiction_result s;
     embeddings_stored := embeddings_stored s |}.

Definition with_graph_updated (v : bool) (s : t) : t :=
  {| base := base s; content := content s; source := source s;
     metadata := metadata s; nodes_created := nodes_created s;
     edges_created := edges_created s;
     embedding_generated := embedding_generated s; graph_updated := v;
     validation_result := validation_result s;
     embeddings_data := embeddings_data s;
     alignment_result := alignment_result s;
     contradiction_result := contradiction_result s;
     embeddings_stored := embeddings_stored s |}.

Definition with_validation_result (v : option ValidationResult.t) (s : t) : t :=
  {| base := base s; content := content s; source := source s;
     metadata := metadata s; nodes_created := nodes_created s;
     edges_created := edges_created s;
     embedding_generated := embedding_generated s;
     graph_updated := graph_updated s; validation_result := v;
     embeddings_data := embeddings_data s;
     alignment_result := alignment_result s;
     contradiction_result := contradiction_result s;
     embeddings_stored := embeddings_stored s |}.

Definition with_embeddings_data
    (v : option (list (string * Vec * KnowledgeNode.t))) (s : t) : t :=
  {| base := base s; content := content s; source := source s;
     metadata := metadata s; nodes_created := nodes_created s;
     edges_created := edges_created s;
     embedding_generated := embedding_generated s;
     graph_updated := graph_updated s;
     validation_result := validation_result s; embeddings_data := v;
     alignment_result := alignment_result s;
     contradiction_result := contradiction_result s;
     embeddings_stored := embeddings_stored s |}.

Definition with_alignment_result (v : option AlignmentResult.t) (s : t) : t :=
  {| base := base s; content := content s; source := source s;
     metadata := metadata s; nodes_created := nodes_created s;
     edges_created := edges_created s;
     embedding_generated := embedding_generated s;
     graph_updated := graph_updated s;
     validation_result := validation_result s;
     embeddings_data := embeddings_data s; alignment_result := v;
     contradiction_result := contradiction_result s;
     embeddings_stored := embeddings_stored s |}.

Definition with_contradiction_result (v : option ContradictionAnalysis.t)
    (s : t) : t :=
  {| base := base s; content := content s; source := source s;
     metadata := metadata s; nodes_created := nodes_created s;
     edges_created := edges_created s;
     embedding_generated := embedding_generated s;
     graph_updated := graph_updated s;
     validation_result := validation_result s;
     embeddings_data := embeddings_data s;
     alignment_result := alignment_result s; contradiction_result := v;
     embeddings_stored := embeddings_stored s |}.

Definition with_embeddings_stored (v : option bool) (s : t) : t :=
  {| base := base s; content := content s; source := source s;
     metadata := metadata s; nodes_created := nodes_created s;
     edges_created := edges_created s;
     embedding_generated := embedding_generated s;
     graph_updated := graph_updated s;
     validation_result := validation_result s;
     embeddings_data := embeddings_data s;
     alignment_result := alignment_result s;
     contradiction_result := contradiction_result s;
     embeddings_stored := v |}.

End KnowledgeIngestionState.

(** State of the reasoning workflow. The fields after
    [contradictions_found] are the keys the steps add: [query_analysis],
    [vector_results], [graph_results], [contradiction_analysis],
    [reasoning_text], [gap_analysis]. *)
Module ReasoningWorkflowState.
Record t := {
  base : WorkflowState.t;
  query : string;
  context : Dict;
  retrieved_nodes : list KnowledgeNode.t;
  reasoning_path : list string;
  answer : option string;
  confidence : Q;
  contradictions_found : list string;
  query_analysis : option string;
  vector_results : option (list VectorHit.t);
  graph_results : option (list GraphHit.t);
  contradiction_analysis : option ContradictionAnalysis.t;
  reasoning_text : option string;
  gap_analysis : option GapAnalysis.t
}.

Definition with_base (v : WorkflowState.t) (s : t) : t :=
  {| base := v; query := query s; context := context s;
     retrieved_nodes := retrieved_nodes s;
     reasoning_path := reasoning_path s; answer := answer s;
     confidence := confidence s;
     contradictions_found := contradictions_found s;
     query_analysis := query_analysis s;
     vector_results := vector_results s; graph_results := graph_results s;
     contradiction_analysis := contradiction_analysis s;
     reasoning_text := reasoning_text s; gap_analysis := gap_analysis s |}.

Definition with_retrieved_nodes (v : list KnowledgeNode.t) (s : t) : t :=
  {| base := base s; query := query s; context := context s;
     retrieved_nodes := v; reasoning_path := reasoning_path s;
     answer := answer s; confidence := confidence s;
     contradictions_found := contradictions_found s;
     query_analysis := query_analysis s;
     vector_results := vector_results s; graph_results := graph_results s;
     contradiction_analysis := contradiction_analysis s;
     reasoning_text := reasoning_text s; gap_analysis := gap_analysis s |}.

Definition with_reasoning_path (v : list string) (s : t) : t :=
  {| base := base s; query := query s; context := context s;
     retrieved_nodes := retrieved_nodes s; reasoning_path := v;
     answer := answer s; confidence := confidence s;
     contradictions_found := contradictions_found s;
     query_analysis := query_analysis s;
     vector_results := vector_results s; graph_results := graph_results s;
     contradiction_analysis := contradiction_analysis s;
     reasoning_text := reasoning_text s; gap_analysis := gap_analysis s |}.

Definition with_answer (v : option string) (s : t) : t :=
  {| base := base s; query := query s; context := context s;
     retrieved_nodes := retrieved_nodes s;
     reasoning_path := reasoning_path s; answer := v;
     confidence := confidence s;
     contradictions_found := contradictions_found s;
     query_analysis := query_analysis s;
     vector_results := vector_results s; graph_results := graph_results s;
     contradiction_analysis := contradiction_analysis s;
     reasoning_text := reasoning_text s; gap_analysis := gap_analysis s |}.

Definition with_confidence (v : Q) (s : t) : t :=
  {| base := base s; query := query s; context := context s;
     retrieved_nodes := retrieved_nodes s;
     reasoning_path := reasoning_path s; answer := answer s;
     confidence := v; contradictions_found := contradictions_found s;
     query_analysis := query_analysis s;
     vector_results := vector_results s; graph_results := graph_results s;
     contradiction_analysis := contradiction_analysis s;
     reasoning_text := reasoning_text s; gap_analysis := gap_analysis s |}.

Definition with_contradictions_found (v : list string) (s : t) : t :=
  {| base := base s; query := query s; context := context s;
     retrieved_nodes := retrieved_nodes s;
     reasoning_path := reasoning_path s; answer := answer s;
     confidence := confidence s; contradictions_found := v;
     query_analysis := query_analysis s;
     vector_results := vector_results s; graph_results := graph_results s;
     contradiction_analysis := contradiction_analysis s;
     reasoning_text := reasoning_text s; gap_analysis := gap_analysis s |}.

Definition with_query_analysis (v : option string) (s : t) : t :=
  {| base := base s; query := query s; context := context s;
     retrieved_nodes := retrieved_nodes s;
     reasoning_path := reasoning_path s; answer := answer s;
     confidence := confidence s;
     contradictions_found := contradictions_found s; query_analysis := v;
     vector_results := vector_results s; graph_results := graph_results s;
     contradiction_analysis := contradiction_analysis s;
     reasoning_text := reasoning_text s; gap_analysis := gap_analysis s |}.

Definition with_vector_results (v : option (list VectorHit.t)) (s : t) : t :=
  {| base := base s; query := query s; context := context s;
     retrieved_nodes := retrieved_nodes s;
     reasoning_path := reasoning_path s; answer := answer s;
     confidence := confidence s;
     contradictions_found := contradictions_found s;
     query_analysis := query_analysis s; vector_results := v;
     graph_results := graph_results s;
     contradiction_analysis := contradiction_analysis s;
     reasoning_text := reasoning_text s; gap_analysis := gap_analysis s |}.

Definition with_graph_results (v : option (list GraphHit.t)) (s : t) : t :=
  {| base := base s; query := query s; context := context s;
     retrieved_nodes := retrieved_nodes s;
     reasoning_path := reasoning_path s; answer := answer s;
     confidence := confidence s;
     contradictions_found := contradictions_found s;
     query_analysis := query_analysis s;
     vector_results := vector_results s; graph_results := v;
     contradiction_analysis := contradiction_analysis s;
     reasoning_text := reasoning_text s; gap_analysis := gap_analysis s |}.

Definition with_contradiction_analysis (v : option ContradictionAnalysis.t)
    (s : t) : t :=
  {| base := base s; query := query s; context := context s;
     retrieved_nodes := retrieved_nodes s;
     reasoning_path := reasoning_path s; answer := answer s;
     confidence := confidence s;
     contradictions_found := contradictions_found s;
     query_analysis := query_analysis s;
     vector_results := vector_results s; graph_results := graph_results s;
     contradiction_analysis := v; reasoning_text := reasoning_text s;
     gap_analysis := gap_analysis s |}.

Definition with_reasoning_text (v : option string) (s : t) : t :=
  {| base := base s; query := query s; context := context s;
     retrieved_nodes := retrieved_nodes s;
     reasoning_path := reasoning_path s; answer := answer s;
     confidence := confidence s;
     contradictions_found := contradictions_found s;
     query_analysis := query_analysis s;
     vector_results := vector_results s; graph_results := graph_results s;
     contradiction_analysis := contradiction_analysis s;
     reasoning_text := v; gap_analysis := gap_analysis s |}.

Definition with_gap_analysis (v : option GapAnalysis.t) (s : t) : t :=
  {| base := base s; query := query s; context := context s;
     retrieved_nodes := retrieved_nodes s;
     reasoning_path := reasoning_path s; answer := answer s;
     confidence := confidence s;
     contradictions_found := contradictions_found s;
     query_analysis := query_analysis s;
     vector_results := vector_results s; graph_results := graph_results s;
     contradiction_analysis := contradiction_analysis s;
     reasoning_text := reasoning_text s; gap_analysis := v |}.

End ReasoningWorkflowState.

(** ** The external services

    Everything the modelled code calls and does not define: the clock,
    LangChain's text splitter, the sentence-transformers model, the chat
    model, the Qdrant and Neo4j drivers, and Python's [repr]. Each one
    that performs I/O is a computation over the world and may raise. *)

Class Services (World : Type) := {
  (** [datetime.now().isoformat()] *)
  clock_now : World -> string * World;
  (** [RecursiveCharacterTextSplitter.split_text] *)
  split_text : string -> list string;
  (** [SentenceTransformer(...).encode(text).tolist()] *)
  encode : string -> M World Vec;
  (** [ChatOpenAI.ainvoke(prompt).content] *)
  llm_ainvoke : string -> M World string;
  (** [qdrant.upsert] of one point *)
  qdrant_upsert : string -> Vec -> Dict -> M World unit;
  (** [qdrant.search] *)
  qdrant_search : Vec -> nat -> M World (list VectorHit.t);
  (** the Cypher statement of [create_knowledge_node] *)
  neo4j_create_node : string -> Dict -> M World string;
  (** the Cypher statement of [create_relationship] *)
  neo4j_create_relationship :
    string -> string -> string -> Dict -> M World unit;
  (** the full-text query of [search_nodes] *)
  neo4j_fulltext : string -> nat -> M World (list GraphHit.t);
  (** [repr] of the gap list, as an f-string renders it *)
  repr_gaps : list Gap.t -> string
}.

Section Clients.
Context {World : Type} `{Services World}.

Definition datetime_now : M World string :=
  fun w => let (t, w') := clock_now w in (Return t, w').

(** [try: ... except Exception as e: handler] *)
Definition try_except {A} (c : M World A) (handler : exn -> M World A)
  : M World A :=
  fun w =>
    match c w with
    | (Return a, w') => (Return a, w')
    | (Raise e, w') => handler e w'
    end.

(** [storage/qdrant_client.py]: a failed upsert is printed and raised
    again; a failed search is printed and answered by the empty list. *)
Definition store_embedding (node_id : string) (embedding : Vec)
    (metadata : Dict) : M World unit :=
  try_except (qdrant_upsert node_id embedding metadata) (fun e => raise e).

Definition search_similar (query_embedding : Vec) (limit : nat)
  : M World (list VectorHit.t) :=
  try_except (qdrant_search query_embedding limit) (fun _ => ret []).

(** [storage/neo4j_client.py] *)
Definition create_knowledge_node (node_id : string) (properties : Dict)
  : M World string :=
  neo4j_create_node node_id properties.

Definition create_relationship (from_id to_id relationship_type : string)
    (properties : Dict) : M World unit :=
  neo4j_create_relationship from_id to_id relationship_type properties.

Definition search_nodes (query : string) (limit : nat)
  : M World (list GraphHit.t) :=
  neo4j_fulltext query limit.

End Clients.

(** ** Nodes as the agents see them

    The agents subscript their nodes with ["id"] and ["content"]. The
    reasoning workflow hands them [KnowledgeNode] mappings; the ingestion
    workflow hands them the entries of [nodes_created], which are id
    strings, and subscripting a [str] with a [str] raises [TypeError]. *)

Class NodeLike (A : Type) := {
  item_id : A -> Exc string;
  item_content : A -> Exc string;
  item_confidence : A -> Exc Q;
  item_created_at : A -> Exc string;
  item_metadata : A -> Exc Dict
}.

#[export] Instance KnowledgeNode_NodeLike : NodeLike KnowledgeNode.t := {
  item_id n := Return (KnowledgeNode.id n);
  item_content n := Return (KnowledgeNode.content n);
  item_confidence n := Return (KnowledgeNode.confidence n);
  item_created_at n := Return (KnowledgeNode.created_at n);
  item_metadata n := Return (KnowledgeNode.metadata n)
}.

Definition str_index_error : exn :=
  "string indices must be integers, not 'str'".

#[export] Instance str_NodeLike : NodeLike string := {
  item_id _ := Raise str_index_error;
  item_content _ := Raise str_index_error;
  item_confidence _ := Raise str_index_error;
  item_created_at _ := Raise str_index_error;
  item_metadata _ := Raise str_index_error
}.

(** [a / b] on two [int]s. *)
Definition truediv (a b : nat) : Exc Q :=
  match b with
  | O => Raise "division by zero"
  | S _ => Return (inject_Z (Z.of_nat a) / inject_Z (Z.of_nat b))%Q
  end.

Fixpoint enumerate_from {A} (i : nat) (l : list A) : list (nat * A) :=
  match l with
  | [] => []
  | x :: r => (i, x) :: enumerate_from (S i) r
  end.

Definition enumerate {A} (l : list A) : list (nat * A) := enumerate_from 0 l.

(** ** [agents/ingestion.py] *)

Module IngestionAgent.

Record ProcessResult := {
  nodes : list string;
  embeddings : list (string * Vec * KnowledgeNode.t);
  state : KnowledgeIngestionState.t
}.

Definition source_value (source : option string) : PyVal :=
  match source with
  | Some s => VStr s
  | None => VNone
  end.

Section WithServices.
Context {World : Type} `{Services World}.

Definition process_content (state : KnowledgeIngestionState.t)
  : M World ProcessResult :=
  let content := KnowledgeIngestionState.content state in
  let metadata := KnowledgeIngestionState.metadata state in
  let source := KnowledgeIngestionState.source state in
  let workflow_id :=
    WorkflowState.workflow_id (KnowledgeIngestionState.base state) in
  let chunks := split_text content in
  let* acc :=
    for_each (enumerate chunks)
      (fun ic acc =>
         let i := fst ic in
         let chunk := snd ic in
         let node_id := workflow_id +:+ "_chunk_" +:+ str_of_nat i in
         let* embedding := encode chunk in
         let* created_at := datetime_now in
         let* updated_at := datetime_now in
         let node :=
           {| KnowledgeNode.id := node_id;
              KnowledgeNode.content := chunk;
              KnowledgeNode.embedding := Some embedding;
              KnowledgeNode.metadata :=
                dict_set "content_length"
                  (VInt (Z.of_nat (String.length chunk)))
                  (dict_set "total_chunks"
                     (VInt (Z.of_nat (List.length chunks)))
                     (dict_set "chunk_index" (VInt (Z.of_nat i))
                        (dict_set "source" (source_value source) metadata)));
              KnowledgeNode.confidence := 0.8;
              KnowledgeNode.created_at := created_at;
              KnowledgeNode.updated_at := updated_at |} in
         ret (fst acc ++ [node_id], snd acc ++ [(node_id, embedding, node)]))
      ([], []) in
  let nodes_created := fst acc in
  let embeddings := snd acc in
  let new_state :=
    KnowledgeIngestionState.with_base
      (WorkflowState.with_current_step "content_processed"
         (KnowledgeIngestionState.base state))
      (KnowledgeIngestionState.with_embedding_generated true
         (KnowledgeIngestionState.with_nodes_created nodes_created state)) in
  ret {| nodes := nodes_created;
         embeddings := embeddings;
         state := new_state |}.

End WithServices.

Definition question_mark : ascii := "?"%char.
Definition full_stop : ascii := "."%char.

Definition validate_content (state : KnowledgeIngestionState.t)
  : ValidationResult.t :=
  let content := KnowledgeIngestionState.content state in
  let issues0 : list string := [] in
  let suggestions0 : list string := [] in
  let '(issues1, suggestions1) :=
    if (String.length (Py.strip content) <? 10)%nat
    then (issues0 ++ ["Content too short"],
          suggestions0 ++ ["Provide more detailed content"])
    else (issues0, suggestions0) in
  let '(issues2, suggestions2) :=
    if (List.length (Py.split content) <? 5)%nat
    then (issues1 ++ ["Content has too few words"],
          suggestions1 ++ ["Expand on the topic with more information"])
    else (issues1, suggestions1) in
  let suggestions3 :=
    if (Py.count full_stop content <? Py.count question_mark content)%nat
    then suggestions2 ++
         ["Content appears to be mostly questions - consider adding explanatory text"]
    else suggestions2 in
  let confidence := (1.0 - inject_Z (Z.of_nat (List.length issues2)) * 0.2)%Q in
  {| ValidationResult.is_valid := (List.length issues2 =? 0)%nat;
     ValidationResult.confidence := Py.max 0.1 confidence;
     ValidationResult.issues := issues2;
     ValidationResult.suggestions := suggestions3 |}.

End IngestionAgent.

(** ** [agents/other_agents.py] *)

Module AlignmentAgent.
Section Generic.
Context {A B : Type} `{NodeLike A} `{NodeLike B}.

Definition _calculate_similarity (node1 : A) (node2 : B) : Exc Q :=
  let! c1 := item_content node1 in
  let content1 := Py.lower c1 in
  let! c2 := item_content node2 in
  let content2 := Py.lower c2 in
  let words1 := Py.set (Py.split content1) in
  let words2 := Py.set (Py.split content2) in
  let intersection := words1 ∩ words2 in
  let union := words1 ∪ words2 in
  if bool_decide (union = ∅) then Return 0%Q
  else truediv (size intersection) (size union).

Definition analyze_alignment (nodes : list A)
    (existing_graph : ExistingGraph.t B) : Exc AlignmentResult.t :=
  let! acc :=
    exc_for_each nodes
      (fun node acc =>
         let similar_nodes :=
           default [] (ExistingGraph.similar_nodes existing_graph) in
         exc_for_each similar_nodes
           (fun similar acc =>
              let! sim := _calculate_similarity node similar in
              if Qle_bool sim 0.7 then Return acc
              else
                let! new_node := item_id node in
                let! existing_node := item_id similar in
                let! similarity := _calculate_similarity node similar in
                let alignments :=
                  fst acc ++
                  [ {| AlignmentResult.new_node := new_node;
                       AlignmentResult.existing_node := existing_node;
                       AlignmentResult.similarity := similarity;
                       AlignmentResult.relationship_type := "SIMILAR_TO" |} ] in
                let! from_id := item_id node in
                let! to_id := item_id similar in
                let! similarity_score := _calculate_similarity node similar in
                Return
                  (alignments,
                   snd acc ++
                   [ {| KnowledgeEdge.from_id := from_id;
                        KnowledgeEdge.to_id := to_id;
                        KnowledgeEdge.type := "SIMILAR_TO";
                        KnowledgeEdge.properties :=
                          [("similarity_score", VFloat similarity_score)];
                        KnowledgeEdge.confidence := 0.8 |} ]))
           acc)
      ([], []) in
  Return {| AlignmentResult.alignments := fst acc;
            AlignmentResult.new_relationships := snd acc;
            AlignmentResult.integration_confidence := 0.85 |}.

End Generic.
End AlignmentAgent.

Module ContradictionAgent.

(** What [_check_contradiction] returns on a match. *)
Record Finding := {
  type : string;
  description : string;
  severity : string
}.

(** An entry of the local list [contradictions]. *)
Record Contradiction := {
  node1 : string;
  node2 : string;
  c_type : string;
  c_description : string;
  c_severity : string
}.

Definition contradiction_patterns : list (string * string) :=
  [ ("is", "is not");
    ("true", "false");
    ("yes", "no");
    ("correct", "incorrect") ].

(** The loop over the patterns, leaving at the first match. *)
Fixpoint first_match (patterns : list (string * string))
    (content1 content2 : string) : option Finding :=
  match patterns with
  | [] => None
  | (pos, neg) :: rest =>
      if Py.contains pos content1 && Py.contains neg content2
      then Some {| type := "direct_contradiction";
                   description :=
                     "Direct contradiction detected: '" +:+ pos +:+
                     "' vs '" +:+ neg +:+ "'";
                   severity := "high" |}
      else first_match rest content1 content2
  end.

Definition _generate_resolution_suggestions
    (contradictions : list Contradiction) : list string :=
  flat_map
    (fun c =>
       [ "Review nodes " +:+ node1 c +:+ " and " +:+ node2 c +:+
         " for factual accuracy";
         "Consider updating confidence scores based on source reliability";
         "May require human expert review for resolution" ])
    contradictions.

Section Generic.
Context {A B : Type} `{NodeLike A} `{NodeLike B}.

Definition _check_contradiction (n1 : A) (n2 : B) : Exc (option Finding) :=
  let! c1 := item_content n1 in
  let content1 := Py.lower c1 in
  let! c2 := item_content n2 in
  let content2 := Py.lower c2 in
  Return (first_match contradiction_patterns content1 content2).

(** The body of the inner loop of [detect_contradictions]: check one
    (new, existing) pair and append a record on a match. *)
Definition record_check (node : A) (existing : B)
    (contradictions : list Contradiction) : Exc (list Contradiction) :=
  let! contradiction := _check_contradiction node existing in
  match contradiction with
  | Some f =>
      let! id1 := item_id node in
      let! id2 := item_id existing in
      Return
        (contradictions ++
         [ {| node1 := id1;
              node2 := id2;
              c_type := type f;
              c_description := description f;
              c_severity := severity f |} ])
  | None => Return contradictions
  end.

(** The two nested loops, which fill the local list [contradictions]. *)
Definition find_contradictions (nodes : list A)
    (existing_graph : ExistingGraph.t B) : Exc (list Contradiction) :=
  exc_for_each nodes
    (fun node contradictions =>
       let existing_nodes :=
         default [] (ExistingGraph.nodes existing_graph) in
       exc_for_each existing_nodes (record_check node) contradictions)
    [].

Definition detect_contradictions (nodes : list A)
    (existing_graph : ExistingGraph.t B) : Exc ContradictionAnalysis.t :=
  let! contradictions := find_contradictions nodes existing_graph in
  let max_severity := Py.max_str (map c_severity contradictions) "low" in
  Return
    {| ContradictionAnalysis.has_contradiction :=
         (0 <? List.length contradictions)%nat;
       ContradictionAnalysis.conflicting_nodes := map node1 contradictions;
       ContradictionAnalysis.severity := max_severity;
       ContradictionAnalysis.resolution_suggestions :=
         _generate_resolution_suggestions contradictions |}.

End Generic.
End ContradictionAgent.

Module ResearchAgent.

Definition _identify_conceptual_gaps (query : string)
    (nodes : list KnowledgeNode.t) : list Gap.t :=
  let shallow_responses :=
    map KnowledgeNode.id
      (List.filter
         (fun node =>
            (List.length (Py.split (KnowledgeNode.content node)) <? 50)%nat)
         nodes) in
  match shallow_responses with
  | [] => []
  | _ =>
      [ {| Gap.type := "depth_gap";
           Gap.description :=
             "Some concepts lack detailed explanations (nodes: " +:+
             Py.join ", " shallow_responses +:+ ")";
           Gap.severity := "low" |} ]
  end.

Definition _generate_research_suggestions (gaps : list Gap.t)
  : list string :=
  flat_map
    (fun gap =>
       if String.eqb (Gap.type gap) "terminology_gap"
       then ["Research the missing terms: " +:+ Gap.description gap]
       else if String.eqb (Gap.type gap) "depth_gap"
       then ["Expand explanations for identified shallow concepts"]
       else if String.eqb (Gap.type gap) "recency_gap"
       then ["Update outdated information"]
       else [])
    gaps.

(** The terms of the query that the retrieved nodes cover: the loop
    [covered_terms.update(node_terms.intersection(query_terms))]. *)
Definition covered_by (query_terms : gset string)
    (retrieved_nodes : list KnowledgeNode.t) : gset string :=
  fold_left
    (fun covered_terms node =>
       let node_terms :=
         Py.set (Py.split (Py.lower (KnowledgeNode.content node))) in
       covered_terms ∪ (node_terms ∩ query_terms))
    retrieved_nodes ∅.

(** The order in which [', '.join(missing_terms)] walks the set is the
    order of [elements]; Python leaves it to the hash of the terms. *)
Definition identify_gaps (query : string)
    (retrieved_nodes : list KnowledgeNode.t) : Exc GapAnalysis.t :=
  let gaps0 : list Gap.t := [] in
  let query_terms := Py.set (Py.split (Py.lower query)) in
  let covered_terms := covered_by query_terms retrieved_nodes in
  let missing_terms := query_terms ∖ covered_terms in
  let gaps1 :=
    if bool_decide (missing_terms = ∅) then gaps0
    else gaps0 ++
         [ {| Gap.type := "terminology_gap";
              Gap.description :=
                "Missing information about: " +:+
                Py.join ", " (elements missing_terms);
              Gap.severity := "medium" |} ] in
  let! coverage_score :=
    if bool_decide (query_terms = ∅) then Return 1.0%Q
    else truediv (size covered_terms) (size query_terms) in
  let conceptual_gaps := _identify_conceptual_gaps query retrieved_nodes in
  let gaps2 := gaps1 ++ conceptual_gaps in
  Return {| GapAnalysis.gaps := gaps2;
            GapAnalysis.coverage_score := coverage_score;
            GapAnalysis.research_suggestions :=
              _generate_research_suggestions gaps2 |}.

End ResearchAgent.

(** ** The workflow graph engine

    The engine is the LangGraph library ([StateGraph], [compile],
    [ainvoke]); the repository only builds graphs and invokes them. *)

Module StateGraph.

Definition END : string := "__end__".

(** LangGraph's default bound on the number of steps of one run. *)
Definition recursion_limit : nat := 25.

Definition recursion_error : exn :=
  "Recursion limit of 25 reached without hitting a stop condition.".

Section Engine.
Context {World State : Type}.

Inductive Edge :=
| Unconditional (next : string)
| Conditional (predicate : State -> string)
              (branch_table : list (string * string)).

Record t := {
  nodes : list (string * (State -> M World State));
  entry_point : string;
  edges : list (string * Edge)
}.

Definition empty : t :=
  {| nodes := []; entry_point := END; edges := [] |}.

Definition add_node (name : string) (action : State -> M World State)
    (g : t) : t :=
  {| nodes := nodes g ++ [(name, action)];
     entry_point := entry_point g;
     edges := edges g |}.

Definition set_entry_point (name : string) (g : t) : t :=
  {| nodes := nodes g; entry_point := name; edges := edges g |}.

Definition add_edge (from to : string) (g : t) : t :=
  {| nodes := nodes g;
     entry_point := entry_point g;
     edges := edges g ++ [(from, Unconditional to)] |}.

Definition add_conditional_edges (from : string)
    (predicate : State -> string) (branch_table : list (string * string))
    (g : t) : t :=
  {| nodes := nodes g;
     entry_point := entry_point g;
     edges := edges g ++ [(from, Conditional predicate branch_table)] |}.

Fixpoint assoc {V} (k : string) (l : list (string * V)) : option V :=
  match l with
  | [] => None
  | (k', v) :: r => if String.eqb k' k then Some v else assoc k r
  end.

(** The successor of step [cur], decided on the state it returned. *)
Definition successor (g : t) (cur : string) (s' : State) : Exc string :=
  match assoc cur (edges g) with
  | Some (Unconditional next) => Return next
  | Some (Conditional predicate branch_table) =>
      match assoc (predicate s') branch_table with
      | Some next => Return next
      | None => Raise ("KeyError: " +:+ predicate s')
      end
  | None => Raise ("no edge leaves step " +:+ cur)
  end.

(** What one invocation did: the steps it invoked, in order; the states
    the completed steps returned, in order; and its result. *)
Record Run := {
  executed : list string;
  produced : list State;
  outcome : Exc State
}.

Definition stopped (o : Exc State) : Run :=
  {| executed := []; produced := []; outcome := o |}.

(** Modelled from the spec: LangGraph's execution loop, which is not part
    of the repository. Starting from the entry step, invoke the current
    step on the current state; its output is the next step's input; an
    unconditional edge is followed, a conditional edge evaluates its
    predicate on the output and looks the successor up; the terminal
    marker ends the run with that state; a failure of a step ends the
    run at once with that failure. *)
Fixpoint drive (fuel : nat) (g : t) (cur : string) (s : State) (w : World)
  : Run * World :=
  if String.eqb cur END then (stopped (Return s), w)
  else
    match fuel with
    | O => (stopped (Raise recursion_error), w)
    | S fuel' =>
        match assoc cur (nodes g) with
        | None => (stopped (Raise ("unknown step " +:+ cur)), w)
        | Some action =>
            match action s w with
            | (Raise e, w') =>
                ({| executed := [cur]; produced := [];
                    outcome := Raise e |}, w')
            | (Return s', w') =>
                match successor g cur s' with
                | Raise e =>
                    ({| executed := [cur]; produced := [s'];
                        outcome := Raise e |}, w')
                | Return next =>
                    let (r, w'') := drive fuel' g next s' w' in
                    ({| executed := cur :: executed r;
                        produced := s' :: produced r;
                        outcome := outcome r |}, w'')
                end
            end
        end
    end.

(** [workflow.compile().ainvoke(initial_state)] *)
Definition ainvoke (g : t) (initial_state : State) (w : World)
  : Run * World :=
  drive recursion_limit g (entry_point g) initial_state w.

End Engine.
Arguments t World State : clear implicits.
Arguments Edge State : clear implicits.
Arguments Run State : clear implicits.
End StateGraph.

(** ** [workflows/knowledge_workflow.py] *)

Module KnowledgeWorkflow.
Import KnowledgeIngestionState.

(** [new_state.update({"current_step": v})] *)
Definition set_current_step (v : string) (s : t) : t :=
  with_base (WorkflowState.with_current_step v (base s)) s.

Definition initial_state (workflow_id content : string) (metadata : Dict)
    (source : option string) (start_time : string) : t :=
  {| base :=
       {| WorkflowState.workflow_id := workflow_id;
          WorkflowState.status := "running";
          WorkflowState.current_step := "initialized";
          WorkflowState.start_time := start_time;
          WorkflowState.end_time := None;
          WorkflowState.error := None |};
     content := content;
     source := source;
     metadata := metadata;
     nodes_created := [];
     edges_created := [];
     embedding_generated := false;
     graph_updated := false;
     validation_result := None;
     embeddings_data := None;
     alignment_result := None;
     contradiction_result := None;
     embeddings_stored := None |}.

(** The three assignments of the [except] branch of [run]. *)
Definition mark_failed (e : exn) (end_time : string) (s : t) : t :=
  with_base
    (WorkflowState.with_end_time (Some end_time)
       (WorkflowState.with_error (Some e)
          (WorkflowState.with_status "failed" (base s))))
    s.

(** The literal [{"nodes": [], "relationships": []}]. *)
Definition no_existing_graph : ExistingGraph.t KnowledgeNode.t :=
  {| ExistingGraph.nodes := Some [];
     ExistingGraph.similar_nodes := None |}.

Definition _should_process (state : t) : string :=
  let is_valid :=
    match validation_result state with
    | Some validation => ValidationResult.is_valid validation
    | None => false
    end in
  if is_valid then "process" else "reject".

Definition _should_store (state : t) : string :=
  let has_contradiction :=
    match contradiction_result state with
    | Some contradiction =>
        ContradictionAnalysis.has_contradiction contradiction
    | None => false
    end in
  if negb has_contradiction then "store" else "review".

Section WithServices.
Context {World : Type} `{Services World}.

Definition _validate_content (state : t) : M World t :=
  let validation_result := IngestionAgent.validate_content state in
  ret (set_current_step "validation_complete"
         (with_validation_result (Some validation_result) state)).

Definition _process_content (state : t) : M World t :=
  let* result := IngestionAgent.process_content state in
  ret (set_current_step "content_processed"
         (with_embeddings_data (Some (IngestionAgent.embeddings result))
            (with_nodes_created (IngestionAgent.nodes result) state))).

Definition _check_alignment (state : t) : M World t :=
  let nodes := nodes_created state in
  let existing_graph := no_existing_graph in
  let* alignment_result :=
    lift (AlignmentAgent.analyze_alignment nodes existing_graph) in
  ret (set_current_step "alignment_checked"
         (with_alignment_result (Some alignment_result) state)).

Definition _detect_contradictions (state : t) : M World t :=
  let nodes := nodes_created state in
  let existing_graph := no_existing_graph in
  let* contradiction_result :=
    lift (ContradictionAgent.detect_contradictions nodes existing_graph) in
  ret (set_current_step "contradictions_checked"
         (with_contradiction_result (Some contradiction_result) state)).

Definition _store_embeddings (state : t) : M World t :=
  let embeddings_data := default [] (embeddings_data state) in
  let* _ :=
    for_each embeddings_data
      (fun item (_ : unit) =>
         let '(node_id, embedding, node_data) := item in
         store_embedding node_id embedding (KnowledgeNode.metadata node_data))
      tt in
  ret (set_current_step "embeddings_stored"
         (with_embeddings_stored (Some true) state)).

Definition _update_graph (state : t) : M World t :=
  let nodes := nodes_created state in
  let relationships :=
    match alignment_result state with
    | Some alignment => AlignmentResult.new_relationships alignment
    | None => []
    end in
  let* _ :=
    for_each nodes
      (fun node_data (_ : unit) =>
         let* node_id := lift (item_id node_data) in
         let* content := lift (item_content node_data) in
         let* confidence := lift (item_confidence node_data) in
         let* created_at := lift (item_created_at node_data) in
         let* metadata := lift (item_metadata node_data) in
         let* _ :=
           create_knowledge_node node_id
             [ ("content", VStr content);
               ("confidence", VFloat confidence);
               ("created_at", VStr created_at);
               ("metadata", VDict metadata) ] in
         ret tt)
      tt in
  let* _ :=
    for_each relationships
      (fun rel (_ : unit) =>
         create_relationship (KnowledgeEdge.from_id rel)
           (KnowledgeEdge.to_id rel) (KnowledgeEdge.type rel)
           (KnowledgeEdge.properties rel))
      tt in
  ret (set_current_step "graph_updated"
         (with_edges_created
            (map (fun r => KnowledgeEdge.from_id r +:+ "->" +:+
                           KnowledgeEdge.to_id r) relationships)
            (with_graph_updated true state))).

Definition _finalize_ingestion (state : t) : M World t :=
  let* end_time := datetime_now in
  ret (with_base
         (WorkflowState.with_current_step "completed"
            (WorkflowState.with_end_time (Some end_time)
               (WorkflowState.with_status "completed" (base state))))
         state).

Definition _build_workflow : StateGraph.t World t :=
  let workflow := StateGraph.empty in
  let workflow :=
    StateGraph.add_node "validate_content" _validate_content workflow in
  let workflow :=
    StateGraph.add_node "process_content" _process_content workflow in
  let workflow :=
    StateGraph.add_node "check_alignment" _check_alignment workflow in
  let workflow :=
    StateGraph.add_node "detect_contradictions" _detect_contradictions
      workflow in
  let workflow :=
    StateGraph.add_node "store_embeddings" _store_embeddings workflow in
  let workflow := StateGraph.add_node "update_graph" _update_graph workflow in
  let workflow :=
    StateGraph.add_node "finalize_ingestion" _finalize_ingestion workflow in
  let workflow := StateGraph.set_entry_point "validate_content" workflow in
  let workflow :=
    StateGraph.add_conditional_edges "validate_content" _should_process
      [ ("process", "process_content"); ("reject", StateGraph.END) ]
      workflow in
  let workflow :=
    StateGraph.add_edge "process_content" "check_alignment" workflow in
  let workflow :=
    StateGraph.add_edge "check_alignment" "detect_contradictions" workflow in
  let workflow :=
    StateGraph.add_conditional_edges "detect_contradictions" _should_store
      [ ("store", "store_embeddings"); ("review", StateGraph.END) ]
      workflow in
  let workflow :=
    StateGraph.add_edge "store_embeddings" "update_graph" workflow in
  let workflow :=
    StateGraph.add_edge "update_graph" "finalize_ingestion" workflow in
  let workflow :=
    StateGraph.add_edge "finalize_ingestion" StateGraph.END workflow in
  workflow.

(** [run], together with what the invocation of the graph did. *)
Definition run_traced (workflow_id content : string) (metadata : Dict)
    (source : option string) (w : World)
  : StateGraph.Run t * t * World :=
  let (start_time, w1) := clock_now w in
  let initial := initial_state workflow_id content metadata source start_time in
  let (r, w2) := StateGraph.ainvoke _build_workflow initial w1 in
  match StateGraph.outcome r with
  | Return result => (r, result, w2)
  | Raise e =>
      let (end_time, w3) := clock_now w2 in
      (r, mark_failed e end_time initial, w3)
  end.

Definition run (workflow_id content : string) (metadata : Dict)
    (source : option string) (w : World) : t * World :=
  let '(_, result, w') := run_traced workflow_id content metadata source w in
  (result, w').

End WithServices.
End KnowledgeWorkflow.

(** ** [workflows/reasoning_workflow.py] *)

Module ReasoningWorkflow.
Import ReasoningWorkflowState.

Definition nl : string := String (ascii_of_nat 10) EmptyString.

Definition set_current_step (v : string) (s : t) : t :=
  with_base (WorkflowState.with_current_step v (base s)) s.

Definition initial_state (workflow_id query : string) (context : Dict)
    (start_time : string) : t :=
  {| base :=
       {| WorkflowState.workflow_id := workflow_id;
          WorkflowState.status := "running";
          WorkflowState.current_step := "initialized";
          WorkflowState.start_time := start_time;
          WorkflowState.end_time := None;
          WorkflowState.error := None |};
     query := query;
     context := context;
     retrieved_nodes := [];
     reasoning_path := [];
     answer := None;
     confidence := 0.0;
     contradictions_found := [];
     query_analysis := None;
     vector_results := None;
     graph_results := None;
     contradiction_analysis := None;
     reasoning_text := None;
     gap_analysis := None |}.

Definition mark_failed (e : exn) (end_time : string) (s : t) : t :=
  with_base
    (WorkflowState.with_end_time (Some end_time)
       (WorkflowState.with_error (Some e)
          (WorkflowState.with_status "failed" (base s))))
    s.

(** The local mapping [combined]: node id to record, in insertion
    order. *)
Definition Combined := list (string * KnowledgeNode.t).

Definition in_combined (node_id : string) (combined : Combined) : bool :=
  existsb (fun kv => String.eqb (fst kv) node_id) combined.

Definition lookup_combined (node_id : string) (combined : Combined)
  : option KnowledgeNode.t :=
  StateGraph.assoc node_id combined.

Definition node_of_vector_hit (result : VectorHit.t) : KnowledgeNode.t :=
  {| KnowledgeNode.id := VectorHit.id result;
     KnowledgeNode.content := get_str "content" "" (VectorHit.metadata result);
     KnowledgeNode.embedding := None;
     KnowledgeNode.metadata := VectorHit.metadata result;
     KnowledgeNode.confidence := VectorHit.score result;
     KnowledgeNode.created_at :=
       get_str "created_at" "" (VectorHit.metadata result);
     KnowledgeNode.updated_at :=
       get_str "updated_at" "" (VectorHit.metadata result) |}.

Definition node_of_graph_hit (node_id : string) (result : GraphHit.t)
  : KnowledgeNode.t :=
  let node_data := GraphHit.node result in
  {| KnowledgeNode.id := node_id;
     KnowledgeNode.content := default "" (GraphNode.content node_data);
     KnowledgeNode.embedding := None;
     KnowledgeNode.metadata := default [] (GraphNode.metadata node_data);
     KnowledgeNode.confidence := GraphHit.score result;
     KnowledgeNode.created_at := default "" (GraphNode.created_at node_data);
     KnowledgeNode.updated_at := default "" (GraphNode.updated_at node_data) |}.

(** The first loop of [_combine_search_results]. *)
Definition add_vector_hit (combined : Combined) (result : VectorHit.t)
  : Combined :=
  let node_id := VectorHit.id result in
  if negb (in_combined node_id combined)
  then combined ++ [(node_id, node_of_vector_hit result)]
  else combined.

(** The second loop; [if node_id] rejects a missing and an empty id. *)
Definition add_graph_hit (combined : Combined) (result : GraphHit.t)
  : Combined :=
  match GraphNode.id (GraphHit.node result) with
  | Some node_id =>
      if negb (String.eqb node_id "") && negb (in_combined node_id combined)
      then combined ++ [(node_id, node_of_graph_hit node_id result)]
      else combined
  | None => combined
  end.

Definition combine_into_dict (vector_results : list VectorHit.t)
    (graph_results : list GraphHit.t) : Combined :=
  fold_left add_graph_hit graph_results
    (fold_left add_vector_hit vector_results []).

Definition _combine_search_results (vector_results : list VectorHit.t)
    (graph_results : list GraphHit.t) : list KnowledgeNode.t :=
  map snd (combine_into_dict vector_results graph_results).

Definition _should_continue_reasoning (state : t) : string :=
  let contradictions := contradictions_found state in
  if (2 <? List.length contradictions)%nat then "stop" else "continue".

Definition _format_nodes_for_reasoning (nodes : list KnowledgeNode.t)
  : string :=
  Py.join nl
    (map (fun node =>
            "- " +:+ String.substring 0 200 (KnowledgeNode.content node)
            +:+ "...")
         (firstn 5 nodes)).

Definition analysis_prompt (query : string) : string :=
  Py.join nl
    [ "";
      "        Analyze this query and extract key information:";
      "        Query: " +:+ query;
      "";
      "        Provide:";
      "        1. Query type (factual, explanatory, comparative, etc.)";
      "        2. Key terms and concepts";
      "        3. Expected answer format";
      "        4. Complexity level (simple, moderate, complex)";
      "        " ].

Definition reasoning_prompt (query : string)
    (retrieved_nodes : list KnowledgeNode.t) : string :=
  Py.join nl
    [ "";
      "        Based on the query and retrieved knowledge, generate a reasoning path:";
      "";
      "        Query: " +:+ query;
      "";
      "        Retrieved Knowledge:";
      "        " +:+ _format_nodes_for_reasoning retrieved_nodes;
      "";
      "        Provide:";
      "        1. Step-by-step reasoning process";
      "        2. Key insights from the knowledge";
      "        3. Connections between different pieces of information";
      "        4. Confidence in the reasoning";
      "        " ].

Section WithServices.
Context {World : Type} `{Services World}.

Definition answer_prompt (query reasoning_text : string)
    (gaps : list Gap.t) (contradictions : list string) : string :=
  Py.join nl
    [ "";
      "        Formulate a comprehensive answer based on the reasoning and analysis:";
      "";
      "        Query: " +:+ query;
      "";
      "        Reasoning: " +:+ reasoning_text;
      "";
      "        Knowledge Gaps: " +:+ repr_gaps gaps;
      "";
      "        Contradictions Found: " +:+
        str_of_nat (List.length contradictions);
      "";
      "        Provide:";
      "        1. Direct answer to the query";
      "        2. Explanation with evidence";
      "        3. Confidence level (high/medium/low)";
      "        4. Any limitations or caveats";
      "        " ].

Definition _analyze_query (state : t) : M World t :=
  let query := query state in
  let* analysis_text := llm_ainvoke (analysis_prompt query) in
  ret (set_current_step "query_analyzed"
         (with_query_analysis (Some analysis_text) state)).

Definition _retrieve_knowledge (state : t) : M World t :=
  let query := query state in
  let* query_embedding := encode query in
  let* vector_results := search_similar query_embedding 10 in
  let* graph_results := search_nodes query 5 in
  let retrieved_nodes :=
    _combine_search_results vector_results graph_results in
  ret (set_current_step "knowledge_retrieved"
         (with_graph_results (Some graph_results)
            (with_vector_results (Some vector_results)
               (with_retrieved_nodes retrieved_nodes state)))).

Definition _check_contradictions (state : t) : M World t :=
  let retrieved_nodes := retrieved_nodes state in
  let* contradiction_result :=
    lift (ContradictionAgent.detect_contradictions retrieved_nodes
            {| ExistingGraph.nodes := Some retrieved_nodes;
               ExistingGraph.similar_nodes := None |}) in
  ret (set_current_step "contradictions_checked"
         (with_contradiction_analysis (Some contradiction_result)
            (with_contradictions_found
               (ContradictionAnalysis.conflicting_nodes contradiction_result)
               state))).

Definition _generate_reasoning (state : t) : M World t :=
  let query := query state in
  let retrieved_nodes := retrieved_nodes state in
  let* reasoning_text :=
    llm_ainvoke (reasoning_prompt query retrieved_nodes) in
  let reasoning_path := map KnowledgeNode.id (firstn 3 retrieved_nodes) in
  ret (set_current_step "reasoning_generated"
         (with_reasoning_path reasoning_path
            (with_reasoning_text (Some reasoning_text) state))).

Definition _identify_gaps (state : t) : M World t :=
  let query := query state in
  let retrieved_nodes := retrieved_nodes state in
  let* gap_analysis :=
    lift (ResearchAgent.identify_gaps query retrieved_nodes) in
  ret (set_current_step "gaps_identified"
         (with_gap_analysis (Some gap_analysis) state)).

Definition _formulate_answer (state : t) : M World t :=
  let query := query state in
  let reasoning_text := default "" (reasoning_text state) in
  let gaps :=
    match gap_analysis state with
    | Some g => GapAnalysis.gaps g
    | None => []
    end in
  let contradictions := contradictions_found state in
  let* answer_text :=
    llm_ainvoke (answer_prompt query reasoning_text gaps contradictions) in
  let confidence :=
    if Py.contains "low confidence" (Py.lower answer_text) then 0.5%Q
    else if Py.contains "high confidence" (Py.lower answer_text) then 0.9%Q
    else 0.8%Q in
  ret (set_current_step "answer_formulated"
         (with_confidence confidence
            (with_answer (Some answer_text) state))).

Definition _finalize_reasoning (state : t) : M World t :=
  let* end_time := datetime_now in
  ret (with_base
         (WorkflowState.with_current_step "completed"
            (WorkflowState.with_end_time (Some end_time)
               (WorkflowState.with_status "completed" (base state))))
         state).

Definition _build_workflow : StateGraph.t World t :=
  let workflow := StateGraph.empty in
  let workflow := StateGraph.add_node "analyze_query" _analyze_query workflow in
  let workflow :=
    StateGraph.add_node "retrieve_knowledge" _retrieve_knowledge workflow in
  let workflow :=
    StateGraph.add_node "check_contradictions" _check_contradictions workflow in
  let workflow :=
    StateGraph.add_node "generate_reasoning" _generate_reasoning workflow in
  let workflow := StateGraph.add_node "identify_gaps" _identify_gaps workflow in
  let workflow :=
    StateGraph.add_node "formulate_answer" _formulate_answer workflow in
  let workflow :=
    StateGraph.add_node "finalize_reasoning" _finalize_reasoning workflow in
  let workflow := StateGraph.set_entry_point "analyze_query" workflow in
  let workflow :=
    StateGraph.add_edge "analyze_query" "retrieve_knowledge" workflow in
  let workflow :=
    StateGraph.add_edge "retrieve_knowledge" "check_contradictions" workflow in
  let workflow :=
    StateGraph.add_conditional_edges "check_contradictions"
      _should_continue_reasoning
      [ ("continue", "generate_reasoning"); ("stop", "finalize_reasoning") ]
      workflow in
  let workflow :=
    StateGraph.add_edge "generate_reasoning" "identify_gaps" workflow in
  let workflow :=
    StateGraph.add_edge "identify_gaps" "formulate_answer" workflow in
  let workflow :=
    StateGraph.add_edge "formulate_answer" "finalize_reasoning" workflow in
  let workflow :=
    StateGraph.add_edge "finalize_reasoning" StateGraph.END workflow in
  workflow.

Definition run_traced (workflow_id query : string) (context : Dict)
    (w : World) : StateGraph.Run t * t * World :=
  let (start_time, w1) := clock_now w in
  let initial := initial_state workflow_id query context start_time in
  let (r, w2) := StateGraph.ainvoke _build_workflow initial w1 in
  match StateGraph.outcome r with
  | Return result => (r, result, w2)
  | Raise e =>
      let (end_time, w3) := clock_now w2 in
      (r, mark_failed e end_time initial, w3)
  end.

Definition run (workflow_id query : string) (context : Dict) (w : World)
  : t * World :=
  let '(_, result, w') := run_traced workflow_id query context w in
  (result, w').

End WithServices.
End ReasoningWorkflow.

From Stdlib Require Import DecimalNat Permutation Sorted.

(** ** [agents/other_agents.py]: the curriculum agent *)

Module CurriculumAgent.

(** A concept mapping: the two keys the agent reads, each [None] when
    the mapping does not have it. *)
Record Concept := {
  name : option string;
  difficulty : option string
}.

(** The [existing_knowledge] mapping. *)
Record Knowledge := {
  concepts : option (list Concept);
  relationships : option (list Dict)
}.

Record Curriculum := {
  topic : string;
  learning_path : list Concept;
  prerequisites : list string;
  difficulty_progression : list string;
  estimated_time : string
}.

(** [c.get("difficulty", "intermediate")] *)
Definition difficulty_of (c : Concept) : string :=
  default "intermediate" (difficulty c).

(** [concept['name']], a [KeyError] when the key is missing. *)
Definition getitem_name (c : Concept) : Exc string :=
  match name c with
  | Some n => Return n
  | None => Raise "'name'"
  end.

(** [l[i]] for [i >= 0]. *)
Definition getitem {A} (l : list A) (i : nat) : Exc A :=
  match nth_error l i with
  | Some x => Return x
  | None => Raise "list index out of range"
  end.

Definition _build_learning_path (concepts : list Concept)
    (relationships : list Dict) : list Concept :=
  let path : list Concept := [] in
  let foundational :=
    List.filter (fun c => String.eqb (difficulty_of c) "beginner") concepts in
  let path := path ++ foundational in
  let intermediate :=
    List.filter (fun c => String.eqb (difficulty_of c) "intermediate")
      concepts in
  let path := path ++ intermediate in
  let advanced :=
    List.filter (fun c => String.eqb (difficulty_of c) "advanced") concepts in
  let path := path ++ advanced in
  path.

Definition _identify_prerequisites (learning_path : list Concept)
  : Exc (list string) :=
  exc_for_each (enumerate learning_path)
    (fun ic prerequisites =>
       let i := fst ic in
       let concept := snd ic in
       if (0 <? i)%nat
       then
         let! prev_concept := getitem learning_path (i - 1) in
         let! concept_name := getitem_name concept in
         let! prev_name := getitem_name prev_concept in
         Return (prerequisites ++
                 [concept_name +:+ " requires understanding of " +:+
                  prev_name])
       else Return prerequisites)
    [].

Definition _calculate_difficulty_progression (learning_path : list Concept)
  : list string :=
  map difficulty_of learning_path.

Definition _estimate_completion_time (learning_path : list Concept)
  : string :=
  let total_concepts := List.length learning_path in
  let estimated_hours := total_concepts * 2 in
  if (estimated_hours <? 24)%nat
  then str_of_nat estimated_hours +:+ " hours"
  else str_of_nat (estimated_hours / 24) +:+ " days".

Definition generate_curriculum (topic : string)
    (existing_knowledge : Knowledge) : Exc Curriculum :=
  let concepts := default [] (concepts existing_knowledge) in
  let relationships := default [] (relationships existing_knowledge) in
  let learning_path := _build_learning_path concepts relationships in
  let! prerequisites := _identify_prerequisites learning_path in
  Return {| topic := topic;
            learning_path := learning_path;
            prerequisites := prerequisites;
            difficulty_progression :=
              _calculate_difficulty_progression learning_path;
            estimated_time := _estimate_completion_time learning_path |}.

End CurriculumAgent.
(** * The specification's notions *)

(** ** Validation *)

Definition too_short (content : string) : Prop :=
  (String.length (Py.strip content) < 10)%nat.

Definition too_few_words (content : string) : Prop :=
  (List.length (Py.split content) < 5)%nat.



(** The confidence formula of the specification. *)
Definition spec_confidence (n : nat) : Q :=
  Qmax 0.1 (1.0 - 0.2 * inject_Z (Z.of_nat n)).

(** The confidence of [validate_content] in binary64 arithmetic, for
    comparison with the rational model: [len(issues)] converted to a
    float, [1.0 - n * 0.2], and Python's [max(0.1, _)]. *)
Fixpoint float_of_count (n : nat) : float :=
  match n with
  | O => 0%float
  | S k => (float_of_count k + 1)%float
  end.

Definition binary64_confidence (n : nat) : float :=
  let confidence := (1.0 - float_of_count n * 0.2)%float in
  if PrimFloat.ltb 0.1%float confidence then confidence else 0.1%float.

(** ** Contradictions *)

(** [sub] appears in [s]. *)
Definition appears_in (sub s : string) : Prop :=
  exists a b, s = a +:+ sub +:+ b.

(** The fixed phrase pairs of the specification, each a positive phrase
    and its negative. *)
Definition phrase_pairs : list (string * string) :=
  [ ("is", "is not");
    ("true", "false");
    ("yes", "no");
    ("correct", "incorrect") ].

(** The polarity test of the specification: for one of the fixed pairs,
    the positive phrase appears in the first node's lower-cased content
    and the negative phrase in the second's. *)
Definition polarity_conflict (n e : KnowledgeNode.t) : Prop :=
  exists pos neg,
    In (pos, neg) phrase_pairs
    /\ appears_in pos (Py.lower (KnowledgeNode.content n))
    /\ appears_in neg (Py.lower (KnowledgeNode.content e)).

Definition polarity_conflictb (n e : KnowledgeNode.t) : bool :=
  existsb
    (fun p =>
       Py.contains (fst p) (Py.lower (KnowledgeNode.content n))
       && Py.contains (snd p) (Py.lower (KnowledgeNode.content e)))
    phrase_pairs.

(** The (new, existing) pairs in the order the loops visit them, and
    those among them that conflict. *)
Definition conflicting_pairs (nodes existing : list KnowledgeNode.t)
  : list (KnowledgeNode.t * KnowledgeNode.t) :=
  List.filter (fun ne => polarity_conflictb (fst ne) (snd ne))
    (list_prod nodes existing).

(** The table [severity_levels] and the greatest severity under it,
    ["low"] for the empty list. *)
Definition severity_level (s : string) : nat :=
  if String.eqb s "low" then 1
  else if String.eqb s "medium" then 2
  else if String.eqb s "high" then 3
  else 0.

Definition spec_max_severity (l : list string) : string :=
  fold_left
    (fun m s => if (severity_level m <? severity_level s)%nat then s else m)
    l "low".

(** [existing_graph.get("nodes", [])] *)
Definition existing_of (existing_graph : ExistingGraph.t KnowledgeNode.t)
  : list KnowledgeNode.t :=
  default [] (ExistingGraph.nodes existing_graph).

(** The literal [{"nodes": existing}]. *)
Definition graph_of (existing : list KnowledgeNode.t)
  : ExistingGraph.t KnowledgeNode.t :=
  {| ExistingGraph.nodes := Some existing;
     ExistingGraph.similar_nodes := None |}.

(** The records one (new, existing) pair contributes: one on a match,
    none otherwise. *)
Definition recorded (n e : KnowledgeNode.t)
  : list ContradictionAgent.Contradiction :=
  match ContradictionAgent.first_match
          ContradictionAgent.contradiction_patterns
          (Py.lower (KnowledgeNode.content n))
          (Py.lower (KnowledgeNode.content e)) with
  | Some f =>
      [ {| ContradictionAgent.node1 := KnowledgeNode.id n;
           ContradictionAgent.node2 := KnowledgeNode.id e;
           ContradictionAgent.c_type := ContradictionAgent.type f;
           ContradictionAgent.c_description :=
             ContradictionAgent.description f;
           ContradictionAgent.c_severity := ContradictionAgent.severity f |} ]
  | None => []
  end.

Definition all_recorded (nodes existing : list KnowledgeNode.t)
  : list ContradictionAgent.Contradiction :=
  flat_map (fun ne => recorded (fst ne) (snd ne)) (list_prod nodes existing).

(** ** Sample data *)

Definition sample_node (id content : string) : KnowledgeNode.t :=
  {| KnowledgeNode.id := id;
     KnowledgeNode.content := content;
     KnowledgeNode.embedding := None;
     KnowledgeNode.metadata := [];
     KnowledgeNode.confidence := 0.8;
     KnowledgeNode.created_at := "";
     KnowledgeNode.updated_at := "" |}.

(** One affirmation and three denials: the first node conflicts with
    each of the other three, and no other pair conflicts. *)
Definition one_against_three : list KnowledgeNode.t :=
  [ sample_node "x" "Yes";
    sample_node "y1" "No";
    sample_node "y2" "No";
    sample_node "y3" "No" ].

(** Four new and four existing nodes, one positive and one negative
    phrase of each pair among them. *)
Definition affirming_nodes : list KnowledgeNode.t :=
  [ sample_node "a" "It is raining";
    sample_node "b" "That is TRUE";
    sample_node "c" "Yes";
    sample_node "d" "Correct" ].

Definition denying_nodes : list KnowledgeNode.t :=
  [ sample_node "e" "It is not raining";
    sample_node "f" "False";
    sample_node "g" "No";
    sample_node "h" "Incorrect" ].

(** ** Coverage *)

(** The terms of a text: its whitespace-separated tokens, lower-cased. *)
Definition terms (text : string) : gset string :=
  Py.set (Py.split (Py.lower text)).

(** The terms of all retrieved nodes. *)
Definition node_terms (retrieved : list KnowledgeNode.t) : gset string :=
  ⋃ (map (fun node => terms (KnowledgeNode.content node)) retrieved).

(** [a / b] as a rational. *)
Definition ratio (a b : nat) : Q :=
  (inject_Z (Z.of_nat a) / inject_Z (Z.of_nat b))%Q.

(** ** Merging search results *)

(** The first vector hit, and the first graph hit, with a given id. *)
Definition first_vector_hit (k : string) (vector_results : list VectorHit.t)
  : option VectorHit.t :=
  List.find (fun r => String.eqb (VectorHit.id r) k) vector_results.

Definition graph_hit_has_id (k : string) (g : GraphHit.t) : bool :=
  match GraphNode.id (GraphHit.node g) with
  | Some i => String.eqb i k
  | None => false
  end.

Definition first_graph_hit (k : string) (graph_results : list GraphHit.t)
  : option GraphHit.t :=
  List.find (graph_hit_has_id k) graph_results.

(** First writer wins: the record kept for id [k]. *)
Definition first_writer (k : string) (vector_results : list VectorHit.t)
    (graph_results : list GraphHit.t) : option KnowledgeNode.t :=
  match first_vector_hit k vector_results with
  | Some r => Some (ReasoningWorkflow.node_of_vector_hit r)
  | None =>
      if String.eqb k "" then None
      else
        match first_graph_hit k graph_results with
        | Some g => Some (ReasoningWorkflow.node_of_graph_hit k g)
        | None => None
        end
  end.

(** The invariant of the local mapping: the keys are distinct and every
    record carries its key as id. *)
Definition keyed (combined : ReasoningWorkflow.Combined) : Prop :=
  NoDup (map fst combined)
  /\ Forall (fun kv => KnowledgeNode.id (snd kv) = fst kv) combined.

(** ** Runs *)

(** The three statuses and the transitions the specification allows:
    none, or from running to completed or failed. *)
Definition running (b : WorkflowState.t) : Prop :=
  WorkflowState.status b = "running".

Definition transition_ok (a b : WorkflowState.t) : Prop :=
  WorkflowState.status a = WorkflowState.status b
  \/ (WorkflowState.status a = "running"
      /\ (WorkflowState.status b = "completed"
          \/ WorkflowState.status b = "failed")).

(** [end_time] is set if and only if the status is not running. *)
Definition end_time_consistent (b : WorkflowState.t) : Prop :=
  WorkflowState.end_time b <> None <-> WorkflowState.status b <> "running".

(** A state in which the run is under way, and one that a finalize step
    has closed. *)
Definition under_way (b : WorkflowState.t) : Prop :=
  WorkflowState.status b = "running" /\ WorkflowState.end_time b = None.

Definition closed (b : WorkflowState.t) : Prop :=
  WorkflowState.status b = "completed" /\ WorkflowState.end_time b <> None.

Section RunStates.
Context {World : Type} `{Services World}.

(** Every state an ingestion run produces: the initial one, those the
    completed steps returned, and the one [run] returns. *)
Definition ingestion_states (workflow_id content : string) (metadata : Dict)
    (source : option string) (w : World)
  : list KnowledgeIngestionState.t :=
  let (start_time, _) := clock_now w in
  let '(r, returned, _) :=
    KnowledgeWorkflow.run_traced workflow_id content metadata source w in
  KnowledgeWorkflow.initial_state workflow_id content metadata source
    start_time
  :: StateGraph.produced r ++ [returned].

Definition reasoning_states (workflow_id query : string) (context : Dict)
    (w : World) : list ReasoningWorkflowState.t :=
  let (start_time, _) := clock_now w in
  let '(r, returned, _) :=
    ReasoningWorkflow.run_traced workflow_id query context w in
  ReasoningWorkflow.initial_state workflow_id query context start_time
  :: StateGraph.produced r ++ [returned].

End RunStates.

(** The place of each step in the two pipelines; the terminal marker
    and any other name come last. *)
Definition ingestion_rank (name : string) : nat :=
  if String.eqb name "validate_content" then 0
  else if String.eqb name "process_content" then 1
  else if String.eqb name "check_alignment" then 2
  else if String.eqb name "detect_contradictions" then 3
  else if String.eqb name "store_embeddings" then 4
  else if String.eqb name "update_graph" then 5
  else if String.eqb name "finalize_ingestion" then 6
  else 7.

Definition reasoning_rank (name : string) : nat :=
  if String.eqb name "analyze_query" then 0
  else if String.eqb name "retrieve_knowledge" then 1
  else if String.eqb name "check_contradictions" then 2
  else if String.eqb name "generate_reasoning" then 3
  else if String.eqb name "identify_gaps" then 4
  else if String.eqb name "formulate_answer" then 5
  else if String.eqb name "finalize_reasoning" then 6
  else 7.

(** What holds of an ingestion state handed to a step, and of one that
    reached the terminal marker. *)
Definition ingestion_pre (s : KnowledgeIngestionState.t) : Prop :=
  under_way (KnowledgeIngestionState.base s)
  /\ KnowledgeIngestionState.embedding_generated s = false.

Definition ingestion_post (s : KnowledgeIngestionState.t) : Prop :=
  (under_way (KnowledgeIngestionState.base s)
   \/ closed (KnowledgeIngestionState.base s))
  /\ KnowledgeIngestionState.embedding_generated s = false.

Definition reasoning_pre (s : ReasoningWorkflowState.t) : Prop :=
  under_way (ReasoningWorkflowState.base s).

Definition reasoning_post (s : ReasoningWorkflowState.t) : Prop :=
  closed (ReasoningWorkflowState.base s).

(** ** Sample services

    A world that is only a clock, a splitter that returns the content as
    one chunk, an embedding model and a chat model that always answer,
    and stores that work, except that the vector store can be down. *)

Definition sample_hit (id content : string) (score : Q) : VectorHit.t :=
  {| VectorHit.id := id;
     VectorHit.score := score;
     VectorHit.metadata := [("content", VStr content)] |}.

Definition sample_services (vector_store_up : bool)
    (hits : list VectorHit.t) (rows : list GraphHit.t) : Services nat :=
  {| clock_now := fun w => ("t" +:+ str_of_nat w, S w);
     split_text := fun text => [text];
     encode := fun _ => ret [0.5%Q];
     llm_ainvoke := fun _ => ret "It depends.";
     qdrant_upsert := fun _ _ _ =>
       if vector_store_up then ret tt else raise "connection refused";
     qdrant_search := fun _ _ =>
       if vector_store_up then ret hits else raise "connection refused";
     neo4j_create_node := fun node_id _ => ret node_id;
     neo4j_create_relationship := fun _ _ _ _ => ret tt;
     neo4j_fulltext := fun _ _ => ret rows;
     repr_gaps := fun _ => "[...]" |}.

Definition sample_content : string :=
  "The sky is blue on a clear day.".

Definition sample_hits : list VectorHit.t :=
  [ sample_hit "x" "Yes" 0.9;
    sample_hit "y1" "No" 0.8;
    sample_hit "y2" "No" 0.7;
    sample_hit "y3" "No" 0.6 ].

Definition sample_row (id content : string) (score : Q) : GraphHit.t :=
  {| GraphHit.node :=
       {| GraphNode.id := Some id;
          GraphNode.content := Some content;
          GraphNode.metadata := None;
          GraphNode.created_at := None;
          GraphNode.updated_at := None |};
     GraphHit.score := score |}.

(** ** Graphs and traces *)

Section EngineNotions.
Context {World State : Type}.
Variable g : StateGraph.t World State.

(** Every conditional edge of [g] answers with a key of its table, and
    every step of [g] has an edge. *)
Definition edges_total : Prop :=
  forall cur action s',
    StateGraph.assoc cur (StateGraph.nodes g) = Some action ->
    exists next, StateGraph.successor g cur s' = Return next.

Variables Pre Post : State -> Prop.

Definition at_step (cur : string) (s : State) : Prop :=
  if String.eqb cur StateGraph.END then Post s else Pre s.

(** Each step of [g] takes a state fit for a step to one fit for its
    successor. *)
Definition steps_preserve : Prop :=
  forall cur action s w s' w' next,
    String.eqb cur StateGraph.END = false ->
    StateGraph.assoc cur (StateGraph.nodes g) = Some action ->
    Pre s ->
    action s w = (Return s', w') ->
    StateGraph.successor g cur s' = Return next ->
    at_step next s'.

(** When the invocation ends with an exception, it is the last executed
    step that raised it, on the last state produced ([initial] when no
    step had completed), every step before it having completed. *)
Definition raised_by_last_step (initial : State) (r : StateGraph.Run State)
    (e : exn) : Prop :=
  exists before cur action w w',
    StateGraph.executed r = before ++ [cur]
    /\ StateGraph.assoc cur (StateGraph.nodes g) = Some action
    /\ List.length before = List.length (StateGraph.produced r)
    /\ action (List.last (StateGraph.produced r) initial) w = (Raise e, w').

Variable rank : string -> nat.

(** [g] is a well-formed acyclic graph: a step is not the terminal
    marker, has an edge whatever state it returns, and the edge leads to
    a step of greater rank or to the terminal marker, whose rank is the
    greatest. *)
Definition well_formed : Prop :=
  forall cur action s',
    StateGraph.assoc cur (StateGraph.nodes g) = Some action ->
    String.eqb cur StateGraph.END = false
    /\ exists next,
         StateGraph.successor g cur s' = Return next
         /\ (rank cur < rank next <= rank StateGraph.END)%nat
         /\ (next = StateGraph.END
             \/ StateGraph.assoc next (StateGraph.nodes g) <> None).

(** The names of [names] have strictly increasing ranks, from [lo] on. *)
Fixpoint ascending_from (lo : nat) (names : list string) : Prop :=
  match names with
  | [] => True
  | c :: rest => (lo <= rank c)%nat /\ ascending_from (S (rank c)) rest
  end.

End EngineNotions.

(** A step other than the finalizing one only moves [current_step] in
    the base state and leaves [embedding_generated] alone. *)
Definition keeps_envelope (s s' : KnowledgeIngestionState.t) : Prop :=
  (exists label,
     KnowledgeIngestionState.base s'
     = WorkflowState.with_current_step label (KnowledgeIngestionState.base s))
  /\ KnowledgeIngestionState.embedding_generated s'
     = KnowledgeIngestionState.embedding_generated s.

(** A step other than the finalizing one only moves [current_step] in
    the base state. *)
Definition keeps_base (s s' : ReasoningWorkflowState.t) : Prop :=
  exists label,
    ReasoningWorkflowState.base s'
    = WorkflowState.with_current_step label (ReasoningWorkflowState.base s).


(** * Further notions *)

(** ** Processing *)

(** The id of the [i]-th chunk of a run. *)
Definition chunk_id (workflow_id : string) (i : nat) : string :=
  workflow_id +:+ "_chunk_" +:+ str_of_nat i.

(** The metadata of the node of chunk [i] among [n]. *)
Definition chunk_metadata (metadata : Dict) (source : option string)
    (n i : nat) (chunk : string) : Dict :=
  dict_set "content_length" (VInt (Z.of_nat (String.length chunk)))
    (dict_set "total_chunks" (VInt (Z.of_nat n))
       (dict_set "chunk_index" (VInt (Z.of_nat i))
          (dict_set "source" (IngestionAgent.source_value source) metadata))).

Section ChunkLoop.
Context {World : Type} `{Services World}.

(** The body of the loop of [process_content]. *)
Definition process_chunk (workflow_id : string) (metadata : Dict)
    (source : option string) (chunks : list string) (ic : nat * string)
    (acc : list string * list (string * Vec * KnowledgeNode.t))
  : M World (list string * list (string * Vec * KnowledgeNode.t)) :=
  let i := fst ic in
  let chunk := snd ic in
  let node_id := workflow_id +:+ "_chunk_" +:+ str_of_nat i in
  let* embedding := encode chunk in
  let* created_at := datetime_now in
  let* updated_at := datetime_now in
  let node :=
    {| KnowledgeNode.id := node_id;
       KnowledgeNode.content := chunk;
       KnowledgeNode.embedding := Some embedding;
       KnowledgeNode.metadata :=
         dict_set "content_length"
           (VInt (Z.of_nat (String.length chunk)))
           (dict_set "total_chunks"
              (VInt (Z.of_nat (List.length chunks)))
              (dict_set "chunk_index" (VInt (Z.of_nat i))
                 (dict_set "source" (IngestionAgent.source_value source)
                    metadata)));
       KnowledgeNode.confidence := 0.8;
       KnowledgeNode.created_at := created_at;
       KnowledgeNode.updated_at := updated_at |} in
  ret (fst acc ++ [node_id], snd acc ++ [(node_id, embedding, node)]).

(** The loop of [_store_embeddings]: one [store_embedding] per tuple,
    in order, with the metadata of the tuple's node as payload. *)
Definition store_all (items : list (string * Vec * KnowledgeNode.t))
  : M World unit :=
  for_each items
    (fun item (_ : unit) =>
       let '(node_id, embedding, node_data) := item in
       store_embedding node_id embedding (KnowledgeNode.metadata node_data))
    tt.

End ChunkLoop.

(** What a produced tuple is for chunk [i]: its id, the chunk as
    content, the embedding, the enriched metadata and the initial
    confidence. *)
Definition tuple_for (workflow_id : string) (metadata : Dict)
    (source : option string) (n : nat)
    (item : string * Vec * KnowledgeNode.t) (ic : nat * string) : Prop :=
  let '(node_id, embedding, node) := item in
  let i := fst ic in
  let chunk := snd ic in
  node_id = chunk_id workflow_id i
  /\ KnowledgeNode.id node = chunk_id workflow_id i
  /\ KnowledgeNode.content node = chunk
  /\ KnowledgeNode.embedding node = Some embedding
  /\ KnowledgeNode.metadata node = chunk_metadata metadata source n i chunk
  /\ KnowledgeNode.confidence node = 0.8%Q.

(** The four keys [process_content] writes into a node's metadata. *)
Definition reserved_key (k : string) : bool :=
  String.eqb k "source" || String.eqb k "chunk_index"
  || String.eqb k "total_chunks" || String.eqb k "content_length".

(** The payload the vector store returns for a stored node, as
    [search_similar] reports it. *)
Definition hit_of_stored (node : KnowledgeNode.t) (score : Q) : VectorHit.t :=
  {| VectorHit.id := KnowledgeNode.id node;
     VectorHit.score := score;
     VectorHit.metadata := KnowledgeNode.metadata node |}.

(** ** Typed payloads *)

(** [d.get(k, default)] as Python evaluates it: the value held, of
    whatever type. *)
Definition dict_get (k : string) (default : PyVal) (d : Dict) : PyVal :=
  match dict_lookup k d with
  | Some v => v
  | None => default
  end.

(** The entry [k] of [d] is absent or a [str]. *)
Definition typed_entry (k : string) (d : Dict) : Prop :=
  dict_lookup k d = None \/ exists s, dict_lookup k d = Some (VStr s).


(** ** A vector store in memory

    The world is the list of the points held, each an id and a payload.
    An upsert replaces the point of that id; a search returns every
    point held, with its payload. The other services answer and leave
    the world alone. *)
Definition memory_services : Services (list (string * Dict)) :=
  {| clock_now := fun w => ("t", w);
     split_text := fun text => [text];
     encode := fun _ => ret [0.5%Q];
     llm_ainvoke := fun _ => ret "It depends.";
     qdrant_upsert := fun node_id _ metadata w =>
       (Return tt,
        (node_id, metadata)
        :: List.filter (fun p => negb (String.eqb (fst p) node_id)) w);
     qdrant_search := fun _ _ w =>
       (Return (map (fun p => {| VectorHit.id := fst p;
                                 VectorHit.score := 0.9;
                                 VectorHit.metadata := snd p |}) w), w);
     neo4j_create_node := fun node_id _ => ret node_id;
     neo4j_create_relationship := fun _ _ _ _ => ret tt;
     neo4j_fulltext := fun _ _ => ret [];
     repr_gaps := fun _ => "[...]" |}.

(** ** Ingestion runs *)

(** What the two agents return when they find nothing. *)
Definition no_alignment : AlignmentResult.t :=
  {| AlignmentResult.alignments := [];
     AlignmentResult.new_relationships := [];
     AlignmentResult.integration_confidence := 0.85 |}.

Definition no_contradiction : ContradictionAnalysis.t :=
  {| ContradictionAnalysis.has_contradiction := false;
     ContradictionAnalysis.conflicting_nodes := [];
     ContradictionAnalysis.severity := "low";
     ContradictionAnalysis.resolution_suggestions := [] |}.

(** In an ingestion state, no edge is listed and the analyses, where
    present, are the empty ones. *)
Definition nothing_found (s : KnowledgeIngestionState.t) : Prop :=
  KnowledgeIngestionState.edges_created s = []
  /\ (KnowledgeIngestionState.alignment_result s = None
      \/ KnowledgeIngestionState.alignment_result s = Some no_alignment)
  /\ (KnowledgeIngestionState.contradiction_result s = None
      \/ KnowledgeIngestionState.contradiction_result s
         = Some no_contradiction).

(** What holds of the state step [cur] is about to run on, in an
    ingestion run on [content] when that content passes validation and
    the splitter cuts it into at least one chunk: the state has that
    content until it is processed and lists a node from then on, and
    neither [finalize_ingestion] nor the terminal marker is reached. *)
Definition with_chunks (content : string) (cur : string)
    (s : KnowledgeIngestionState.t) : Prop :=
  if String.eqb cur "validate_content" || String.eqb cur "process_content"
  then KnowledgeIngestionState.content s = content
  else if String.eqb cur "check_alignment"
          || String.eqb cur "detect_contradictions"
          || String.eqb cur "store_embeddings"
          || String.eqb cur "update_graph"
  then KnowledgeIngestionState.nodes_created s <> []
  else False.

(** ** Reasoning runs *)

(** The answer fields as [run] first builds them. *)
Definition unanswered (s : ReasoningWorkflowState.t) : Prop :=
  ReasoningWorkflowState.answer s = None
  /\ ReasoningWorkflowState.reasoning_path s = []
  /\ ReasoningWorkflowState.confidence s = 0.0%Q.

(** [contradictions_found] lists the first node's id of each conflicting
    pair of retrieved nodes. *)
Definition contradictions_listed (s : ReasoningWorkflowState.t) : Prop :=
  ReasoningWorkflowState.contradictions_found s
  = map (fun ne => KnowledgeNode.id (fst ne))
      (conflicting_pairs (ReasoningWorkflowState.retrieved_nodes s)
         (ReasoningWorkflowState.retrieved_nodes s)).

Definition few_contradictions (s : ReasoningWorkflowState.t) : Prop :=
  (List.length (ReasoningWorkflowState.contradictions_found s) <= 2)%nat.

Definition path_of_first_three (s : ReasoningWorkflowState.t) : Prop :=
  ReasoningWorkflowState.reasoning_path s
  = map KnowledgeNode.id (firstn 3 (ReasoningWorkflowState.retrieved_nodes s)).

(** The two ways a reasoning run reaches [finalize_reasoning]: stopped
    after the contradiction check, or with an answer. *)
Definition stopped_early (s : ReasoningWorkflowState.t) : Prop :=
  unanswered s
  /\ (2 < List.length (ReasoningWorkflowState.contradictions_found s))%nat.

Definition answered (s : ReasoningWorkflowState.t) : Prop :=
  ReasoningWorkflowState.answer s <> None
  /\ In (ReasoningWorkflowState.confidence s) [0.5%Q; 0.9%Q; 0.8%Q]
  /\ path_of_first_three s
  /\ few_contradictions s.

(** What holds of the state step [cur] of the reasoning graph is about
    to run on, and of the state that reaches the terminal marker. *)
Definition reasoning_at (cur : string) (s : ReasoningWorkflowState.t)
  : Prop :=
  if String.eqb cur StateGraph.END
  then closed (ReasoningWorkflowState.base s)
       /\ contradictions_listed s /\ (stopped_early s \/ answered s)
  else if String.eqb cur "finalize_reasoning"
  then contradictions_listed s /\ (stopped_early s \/ answered s)
  else if String.eqb cur "formulate_answer" || String.eqb cur "identify_gaps"
  then contradictions_listed s /\ few_contradictions s
       /\ path_of_first_three s
  else if String.eqb cur "generate_reasoning"
  then contradictions_listed s /\ few_contradictions s /\ unanswered s
  else unanswered s.

(** ** Alignment *)

(** The similarity of a (new, existing) pair when the pair is aligned,
    that is, when it is greater than 0.7. *)
Definition aligned (n e : KnowledgeNode.t) : option Q :=
  match AlignmentAgent._calculate_similarity n e with
  | Return q => if Qle_bool q 0.7 then None else Some q
  | Raise _ => None
  end.

(** The alignment and the relationship one pair contributes. *)
Definition alignment_of (ne : KnowledgeNode.t * KnowledgeNode.t)
  : list AlignmentResult.alignment :=
  match aligned (fst ne) (snd ne) with
  | Some q =>
      [ {| AlignmentResult.new_node := KnowledgeNode.id (fst ne);
           AlignmentResult.existing_node := KnowledgeNode.id (snd ne);
           AlignmentResult.similarity := q;
           AlignmentResult.relationship_type := "SIMILAR_TO" |} ]
  | None => []
  end.

Definition relationship_of (ne : KnowledgeNode.t * KnowledgeNode.t)
  : list KnowledgeEdge.t :=
  match aligned (fst ne) (snd ne) with
  | Some q =>
      [ {| KnowledgeEdge.from_id := KnowledgeNode.id (fst ne);
           KnowledgeEdge.to_id := KnowledgeNode.id (snd ne);
           KnowledgeEdge.type := "SIMILAR_TO";
           KnowledgeEdge.properties := [("similarity_score", VFloat q)];
           KnowledgeEdge.confidence := 0.8 |} ]
  | None => []
  end.

(** [existing_graph.get("similar_nodes", [])] *)
Definition similar_of (existing_graph : ExistingGraph.t KnowledgeNode.t)
  : list KnowledgeNode.t :=
  default [] (ExistingGraph.similar_nodes existing_graph).

(** ** Contradictions *)

(** [phrase in node["content"].lower()] *)
Definition says (phrase : string) (n : KnowledgeNode.t) : bool :=
  Py.contains phrase (Py.lower (KnowledgeNode.content n)).

(** The phrase pairs whose negative phrase contains the positive one. *)
Definition nested_patterns : list (string * string) :=
  [ ("is", "is not"); ("correct", "incorrect") ].

(** The three suggestions [_generate_resolution_suggestions] makes for
    one conflicting pair. *)
Definition suggestions_for (ne : KnowledgeNode.t * KnowledgeNode.t)
  : list string :=
  [ "Review nodes " +:+ KnowledgeNode.id (fst ne) +:+ " and " +:+
    KnowledgeNode.id (snd ne) +:+ " for factual accuracy";
    "Consider updating confidence scores based on source reliability";
    "May require human expert review for resolution" ].

(** ** Gaps *)

(** [len(node["content"].split()) < 50] *)
Definition shallow (n : KnowledgeNode.t) : bool :=
  (List.length (Py.split (KnowledgeNode.content n)) <? 50)%nat.

(** ** Curricula *)

(** The place of a concept in a learning path: 0, 1, 2 for the three
    difficulties the agent knows, a missing difficulty counting as
    intermediate; nothing for any other difficulty. *)
Definition level (c : CurriculumAgent.Concept) : option nat :=
  let d := CurriculumAgent.difficulty_of c in
  if String.eqb d "beginner" then Some 0%nat
  else if String.eqb d "intermediate" then Some 1%nat
  else if String.eqb d "advanced" then Some 2%nat
  else None.

Definition recognised (c : CurriculumAgent.Concept) : bool :=
  match level c with Some _ => true | None => false end.

Definition at_level (k : nat) (c : CurriculumAgent.Concept) : bool :=
  match level c with Some j => (j =? k)%nat | None => false end.


Definition lacks_name (c : CurriculumAgent.Concept) : bool :=
  match CurriculumAgent.name c with Some _ => false | None => true end.

Definition name_or_empty (c : CurriculumAgent.Concept) : string :=
  default "" (CurriculumAgent.name c).

(** One sentence per concept of the path after the first, naming it and
    its predecessor. *)
Fixpoint sentences_from (prev : CurriculumAgent.Concept)
    (rest : list CurriculumAgent.Concept) : list string :=
  match rest with
  | [] => []
  | c :: rest' =>
      (name_or_empty c +:+ " requires understanding of " +:+
       name_or_empty prev)
      :: sentences_from c rest'
  end.

Definition sentences (path : list CurriculumAgent.Concept) : list string :=
  match path with
  | [] => []
  | c :: rest => sentences_from c rest
  end.

(** ** Validation *)


(** ** Prompts *)


(** ** Ingested nodes, read back *)

(** A node that an ingestion produced from caller metadata without a
    "content" entry, stored in the vector store and found again by a
    similarity search. *)
Definition read_back (n : KnowledgeNode.t) : Prop :=
  exists workflow_id metadata source k item ic score,
    tuple_for workflow_id metadata source k item ic
    /\ dict_lookup "content" metadata = None
    /\ n = ReasoningWorkflow.node_of_vector_hit
             (hit_of_stored (snd item) score).
(** * Properties *)

(** ** [IngestionAgent.validate_content] *)


(** The rational model and binary64 agree on the three confidences that
    can occur (no issue, one, two): 1.0, 0.8 and, in binary64, the float
    next below 0.6; they are above the floor 0.1, and the last two are at
    most 0.8 in both. *)
Lemma confidence_in_binary64 :
  binary64_confidence 0 = 1.0%float
  /\ binary64_confidence 1 = 0.8%float
  /\ binary64_confidence 2 = 0x1.3333333333333p-1%float
  /\ PrimFloat.leb (binary64_confidence 1) 0.8%float = true
  /\ PrimFloat.leb (binary64_confidence 2) 0.8%float = true
  /\ (spec_confidence 0 == 1)%Q
  /\ (spec_confidence 1 == 0.8)%Q
  /\ (spec_confidence 2 == 0.6)%Q.
Proof. repeat split; vm_compute; reflexivity. Qed.



(** ** [ContradictionAgent.detect_contradictions] *)

Lemma append_cons (c : ascii) (a b : string) :
  String c a +:+ b = String c (a +:+ b).
Proof. reflexivity. Qed.

Lemma append_nil (b : string) : EmptyString +:+ b = b.
Proof. reflexivity. Qed.

Lemma prefix_spec (p s : string) :
  String.prefix p s = true <-> exists b, s = p +:+ b.
Proof.
  revert s. induction p as [|c p IH]; intros s.
  - split; [intros _; exists s; reflexivity|].
    intros _; destruct s; reflexivity.
  - destruct s as [|d s]; simpl.
    + split; [discriminate | intros [b Hb]; discriminate].
    + destruct (ascii_dec c d) as [->|N].
      * rewrite IH. split; intros [b Hb]; exists b;
          rewrite append_cons in *; congruence.
      * split; [discriminate|].
        intros [b Hb]. rewrite append_cons in Hb. congruence.
Qed.

Lemma contains_spec (sub s : string) :
  Py.contains sub s = true <-> appears_in sub s.
Proof.
  unfold appears_in. induction s as [|c s IH]; cbn [Py.contains].
  - rewrite orb_false_r, prefix_spec. split.
    + intros [b Hb]. exists EmptyString, b. exact Hb.
    + intros [a [b Hab]]. destruct a as [|c a].
      * rewrite append_nil in Hab. eauto.
      * rewrite append_cons in Hab. discriminate.
  - rewrite orb_true_iff, prefix_spec, IH. split.
    + intros [[b Hb] | [a [b Hab]]].
      * exists EmptyString, b. exact Hb.
      * exists (String c a), b. rewrite append_cons. congruence.
    + intros [a [b Hab]]. destruct a as [|c' a].
      * left. rewrite append_nil in Hab. eauto.
      * right. rewrite append_cons in Hab. exists a, b. congruence.
Qed.

Lemma polarity_conflictb_spec (n e : KnowledgeNode.t) :
  polarity_conflictb n e = true <-> polarity_conflict n e.
Proof.
  unfold polarity_conflictb, polarity_conflict.
  rewrite existsb_exists. split.
  - intros [[pos neg] [Hin Hc]]. apply andb_true_iff in Hc as [H1 H2].
    exists pos, neg. rewrite <- !contains_spec. auto.
  - intros [pos [neg [Hin [H1 H2]]]]. exists (pos, neg).
    split; [exact Hin|]. simpl. apply andb_true_iff.
    rewrite !contains_spec. auto.
Qed.

Lemma first_match_found (ps : list (string * string)) (c1 c2 : string) :
  match ContradictionAgent.first_match ps c1 c2 with
  | Some f =>
      existsb (fun p => Py.contains (fst p) c1 && Py.contains (snd p) c2) ps
      = true
      /\ ContradictionAgent.type f = "direct_contradiction"
      /\ ContradictionAgent.severity f = "high"
  | None =>
      existsb (fun p => Py.contains (fst p) c1 && Py.contains (snd p) c2) ps
      = false
  end.
Proof.
  induction ps as [|[pos neg] ps IH]; simpl; [reflexivity|].
  destruct (Py.contains pos c1 && Py.contains neg c2); simpl.
  - auto.
  - exact IH.
Qed.

Lemma recorded_conflict (n e : KnowledgeNode.t) :
  recorded n e =
  if polarity_conflictb n e
  then recorded n e
  else [].
Proof.
  unfold recorded, polarity_conflictb.
  change phrase_pairs with ContradictionAgent.contradiction_patterns.
  pose proof (first_match_found ContradictionAgent.contradiction_patterns
                (Py.lower (KnowledgeNode.content n))
                (Py.lower (KnowledgeNode.content e))) as F.
  destruct (ContradictionAgent.first_match _ _ _).
  - destruct F as [-> _]. reflexivity.
  - rewrite F. reflexivity.
Qed.

Lemma recorded_shape (n e : KnowledgeNode.t) :
  polarity_conflictb n e = true ->
  exists c,
    recorded n e = [c]
    /\ ContradictionAgent.node1 c = KnowledgeNode.id n
    /\ ContradictionAgent.node2 c = KnowledgeNode.id e
    /\ ContradictionAgent.c_type c = "direct_contradiction"
    /\ ContradictionAgent.c_severity c = "high".
Proof.
  unfold recorded, polarity_conflictb.
  change phrase_pairs with ContradictionAgent.contradiction_patterns.
  intros C.
  pose proof (first_match_found ContradictionAgent.contradiction_patterns
                (Py.lower (KnowledgeNode.content n))
                (Py.lower (KnowledgeNode.content e))) as F.
  destruct (ContradictionAgent.first_match _ _ _) as [f|].
  - destruct F as (_ & T & S). eexists. split; [reflexivity|]. simpl. auto.
  - congruence.
Qed.

Lemma record_check_node (n e : KnowledgeNode.t)
    (acc : list ContradictionAgent.Contradiction) :
  ContradictionAgent.record_check n e acc = Return (acc ++ recorded n e).
Proof.
  unfold ContradictionAgent.record_check,
    ContradictionAgent._check_contradiction, recorded.
  cbn [item_content item_id KnowledgeNode_NodeLike exc_bind].
  destruct (ContradictionAgent.first_match _ _ _);
    cbn [exc_bind]; [reflexivity|].
  rewrite app_nil_r. reflexivity.
Qed.

Lemma scan_existing_nodes (n : KnowledgeNode.t)
    (existing : list KnowledgeNode.t)
    (acc : list ContradictionAgent.Contradiction) :
  exc_for_each existing (ContradictionAgent.record_check n) acc
  = Return (acc ++ flat_map (recorded n) existing).
Proof.
  revert acc. induction existing as [|e existing IH]; intros acc; simpl.
  - rewrite app_nil_r. reflexivity.
  - rewrite record_check_node. simpl. rewrite IH, <- app_assoc. reflexivity.
Qed.

Lemma flat_map_list_prod {X Y Z} (f : X -> Y -> list Z) (xs : list X)
    (ys : list Y) :
  flat_map (fun p => f (fst p) (snd p)) (list_prod xs ys)
  = flat_map (fun x => flat_map (f x) ys) xs.
Proof.
  induction xs as [|x xs IH]; simpl; [reflexivity|].
  rewrite flat_map_app, IH. f_equal. clear IH.
  induction ys as [|y ys IHy]; simpl; [reflexivity|]. f_equal. exact IHy.
Qed.

Lemma find_contradictions_nodes (nodes : list KnowledgeNode.t)
    (existing_graph : ExistingGraph.t KnowledgeNode.t) :
  ContradictionAgent.find_contradictions nodes existing_graph
  = Return (all_recorded nodes (existing_of existing_graph)).
Proof.
  unfold ContradictionAgent.find_contradictions, all_recorded, existing_of.
  generalize (default [] (ExistingGraph.nodes existing_graph)) as existing.
  intros existing.
  rewrite (flat_map_list_prod recorded).
  enough (G : forall acc,
    exc_for_each nodes
      (fun node contradictions =>
         exc_for_each existing (ContradictionAgent.record_check node)
           contradictions) acc
    = Return (acc ++ flat_map (fun x => flat_map (recorded x) existing) nodes))
    by (rewrite G; reflexivity).
  induction nodes as [|n nodes IH]; intros acc; cbn [exc_for_each flat_map].
  - rewrite app_nil_r. reflexivity.
  - rewrite scan_existing_nodes. cbn [exc_bind].
    rewrite IH, <- app_assoc. reflexivity.
Qed.

Lemma recorded_pairs (l : list (KnowledgeNode.t * KnowledgeNode.t)) :
  map (fun c => (ContradictionAgent.node1 c, ContradictionAgent.node2 c))
      (flat_map (fun ne => recorded (fst ne) (snd ne)) l)
  = map (fun ne => (KnowledgeNode.id (fst ne), KnowledgeNode.id (snd ne)))
        (List.filter (fun ne => polarity_conflictb (fst ne) (snd ne)) l)
  /\ Forall (fun c => ContradictionAgent.c_type c = "direct_contradiction"
                      /\ ContradictionAgent.c_severity c = "high")
            (flat_map (fun ne => recorded (fst ne) (snd ne)) l).
Proof.
  induction l as [|[n e] l [IHm IHf]]; cbn [flat_map List.filter map fst snd].
  - split; [reflexivity | constructor].
  - destruct (polarity_conflictb n e) eqn:C.
    + destruct (recorded_shape n e C) as (c & -> & I1 & I2 & T & S).
      cbn [app map]. rewrite I1, I2, IHm. split; [reflexivity|].
      constructor; auto.
    + rewrite recorded_conflict, C. cbn [app]. auto.
Qed.

Lemma max_str_all_high (l : list string) :
  Forall (fun s => s = "high") l ->
  Py.max_str l "low" = spec_max_severity l.
Proof.
  intros A. destruct A as [|x r -> A]; [reflexivity|].
  unfold Py.max_str, spec_max_severity. cbn [fold_left].
  change (if (severity_level "low" <? severity_level "high")%nat
          then "high" else "low") with "high".
  induction A as [|y r -> A IH]; cbn [fold_left]; [reflexivity|].
  exact IH.
Qed.

Lemma polarity_conflict_pairs (n e : KnowledgeNode.t) :
  let content1 := Py.lower (KnowledgeNode.content n) in
  let content2 := Py.lower (KnowledgeNode.content e) in
  polarity_conflict n e
  <-> (appears_in "is" content1 /\ appears_in "is not" content2)
      \/ (appears_in "true" content1 /\ appears_in "false" content2)
      \/ (appears_in "yes" content1 /\ appears_in "no" content2)
      \/ (appears_in "correct" content1 /\ appears_in "incorrect" content2).
Proof.
  cbn zeta. unfold polarity_conflict, phrase_pairs. split.
  - intros (pos & neg & I & P & N). cbn [In] in I.
    destruct I as [I | [I | [I | [I | []]]]]; injection I as <- <-; auto 6.
  - intros [[P N] | [[P N] | [[P N] | [P N]]]];
      eexists; eexists; (split; [|split; [exact P | exact N]]); cbn [In];
      auto 6.
Qed.

(** C5. On typed node lists, a contradiction is recorded for exactly the
    (new, existing) pairs, in loop order, for which one of the four fixed
    phrase pairs -- "is" / "is not", "true" / "false", "yes" / "no",
    "correct" / "incorrect" -- has its positive phrase in the first
    node's lower-cased content and its negative phrase in the second's;
    every record is a
    high-severity "direct_contradiction"; the reported severity is the
    greatest recorded one under low < medium < high and "low" when there
    is none; and the ingestion graph moves from [detect_contradictions]
    to [store_embeddings] exactly when nothing was recorded. *)
Theorem detect_contradictions_spec (nodes : list KnowledgeNode.t)
    (existing_graph : ExistingGraph.t KnowledgeNode.t) :
  let existing := existing_of existing_graph in
  exists contradictions r,
    ContradictionAgent.find_contradictions nodes existing_graph
    = Return contradictions
    /\ ContradictionAgent.detect_contradictions nodes existing_graph
       = Return r
    /\ map (fun c => (ContradictionAgent.node1 c, ContradictionAgent.node2 c))
           contradictions
       = map (fun ne => (KnowledgeNode.id (fst ne), KnowledgeNode.id (snd ne)))
             (conflicting_pairs nodes existing)
    /\ (forall n e, polarity_conflictb n e = true <-> polarity_conflict n e)
    /\ (forall n e,
          let content1 := Py.lower (KnowledgeNode.content n) in
          let content2 := Py.lower (KnowledgeNode.content e) in
          polarity_conflict n e
          <-> (appears_in "is" content1 /\ appears_in "is not" content2)
              \/ (appears_in "true" content1 /\ appears_in "false" content2)
              \/ (appears_in "yes" content1 /\ appears_in "no" content2)
              \/ (appears_in "correct" content1
                  /\ appears_in "incorrect" content2))
    /\ Forall (fun c => ContradictionAgent.c_type c = "direct_contradiction"
                        /\ ContradictionAgent.c_severity c = "high")
              contradictions
    /\ ContradictionAnalysis.severity r
       = spec_max_severity (map ContradictionAgent.c_severity contradictions)
    /\ (contradictions = [] -> ContradictionAnalysis.severity r = "low")
    /\ (ContradictionAnalysis.has_contradiction r = false
        <-> contradictions = [])
    /\ (forall (World : Type) (services : Services World)
               (state : KnowledgeIngestionState.t),
          KnowledgeIngestionState.contradiction_result state = Some r ->
          (KnowledgeWorkflow._should_store state = "store"
           <-> contradictions = [])
          /\ (StateGraph.successor
                (KnowledgeWorkflow._build_workflow (World := World))
                "detect_contradictions" state
              = Return "store_embeddings"
              <-> contradictions = [])).
Proof.
  intros existing. exists (all_recorded nodes existing).
  unfold ContradictionAgent.detect_contradictions.
  rewrite find_contradictions_nodes. fold existing. cbn [exc_bind].
  eexists. split; [reflexivity|]. split; [reflexivity|].
  destruct (recorded_pairs (list_prod nodes existing)) as [Pm Pf].
  fold (all_recorded nodes existing) in Pm, Pf.
  cbn [ContradictionAnalysis.severity ContradictionAnalysis.has_contradiction].
  assert (Hs : Py.max_str
                 (map ContradictionAgent.c_severity
                    (all_recorded nodes existing)) "low"
               = spec_max_severity
                   (map ContradictionAgent.c_severity
                      (all_recorded nodes existing))).
  { apply max_str_all_high. apply List.Forall_map.
    eapply List.Forall_impl; [|exact Pf]. intros c [_ S]. exact S. }
  assert (He : (0 <? List.length (all_recorded nodes existing))%nat = false
               <-> all_recorded nodes existing = []).
  { rewrite Nat.ltb_ge.
    destruct (all_recorded nodes existing); cbn [List.length]; split;
      intros E; first [reflexivity | discriminate E | lia]. }
  split; [exact Pm|].
  split; [apply polarity_conflictb_spec|].
  split; [apply polarity_conflict_pairs|].
  split; [exact Pf|].
  split; [exact Hs|].
  split; [intros E; rewrite E; reflexivity|].
  split; [exact He|].
  intros World services state R.
  assert (Hp : KnowledgeWorkflow._should_store state = "store"
               <-> all_recorded nodes existing = []).
  { unfold KnowledgeWorkflow._should_store. rewrite R.
    cbn [ContradictionAnalysis.has_contradiction]. rewrite <- He.
    destruct (0 <? _)%nat; cbn [negb]; split; congruence. }
  split; [exact Hp|].
  rewrite <- Hp. unfold StateGraph.successor.
  cbn [StateGraph.assoc StateGraph.edges KnowledgeWorkflow._build_workflow
       StateGraph.add_edge StateGraph.add_conditional_edges
       StateGraph.add_node StateGraph.set_entry_point StateGraph.empty
       app String.eqb Ascii.eqb Bool.eqb].
  unfold KnowledgeWorkflow._should_store.
  destruct (negb _); cbn; split; intros E;
    first [reflexivity | discriminate E
          | unfold StateGraph.END in E; discriminate E].
Qed.

(** ** [conflicting_nodes] *)

Lemma detect_contradictions_nodes (nodes : list KnowledgeNode.t)
    (existing_graph : ExistingGraph.t KnowledgeNode.t) :
  exists r,
    ContradictionAgent.detect_contradictions nodes existing_graph = Return r
    /\ ContradictionAnalysis.conflicting_nodes r
       = map (fun ne => KnowledgeNode.id (fst ne))
             (conflicting_pairs nodes (existing_of existing_graph)).
Proof.
  unfold ContradictionAgent.detect_contradictions.
  rewrite find_contradictions_nodes. cbn [exc_bind].
  generalize (existing_of existing_graph) as existing. intros existing.
  eexists. split; [reflexivity|].
  cbn [ContradictionAnalysis.conflicting_nodes].
  destruct (recorded_pairs (list_prod nodes existing)) as [Pm _].
  fold (all_recorded nodes existing) in Pm.
  fold (conflicting_pairs nodes existing) in Pm.
  apply (f_equal (map fst)) in Pm.
  rewrite !map_map in Pm. exact Pm.
Qed.

(** C10. [conflicting_nodes] has one entry per conflicting (new,
    existing) pair, in loop order, and the entry is the id of the pair's
    first node; the reasoning step copies that list into
    [contradictions_found], so the stop predicate compares the number of
    conflicting pairs with 2; and the list can repeat an id: one node
    that conflicts with three others is listed three times, which stops
    the reasoning run. *)
Theorem conflicting_nodes_per_pair :
  (forall (nodes : list KnowledgeNode.t)
          (existing_graph : ExistingGraph.t KnowledgeNode.t),
     let existing := existing_of existing_graph in
     exists r,
       ContradictionAgent.detect_contradictions nodes existing_graph
       = Return r
       /\ ContradictionAnalysis.conflicting_nodes r
          = map (fun ne => KnowledgeNode.id (fst ne))
                (conflicting_pairs nodes existing)
       /\ List.length (ContradictionAnalysis.conflicting_nodes r)
          = List.length (conflicting_pairs nodes existing))
  /\ (forall (World : Type) (services : Services World)
             (state : ReasoningWorkflowState.t) (w : World),
        let retrieved := ReasoningWorkflowState.retrieved_nodes state in
        exists state',
          ReasoningWorkflow._check_contradictions state w
          = (Return state', w)
          /\ ReasoningWorkflowState.contradictions_found state'
             = map (fun ne => KnowledgeNode.id (fst ne))
                   (conflicting_pairs retrieved retrieved)
          /\ (ReasoningWorkflow._should_continue_reasoning state' = "stop"
              <-> (2 < List.length
                         (conflicting_pairs retrieved retrieved))%nat))
  /\ (exists r,
        ContradictionAgent.detect_contradictions one_against_three
          (graph_of one_against_three) = Return r
        /\ ContradictionAnalysis.conflicting_nodes r = ["x"; "x"; "x"]
        /\ ~ NoDup (ContradictionAnalysis.conflicting_nodes r)).
Proof.
  split; [|split].
  - intros nodes existing_graph existing.
    destruct (detect_contradictions_nodes nodes existing_graph)
      as (r & D & C).
    exists r. split; [exact D|]. split; [exact C|].
    rewrite C. apply length_map.
  - intros World services state w retrieved.
    destruct (detect_contradictions_nodes retrieved (graph_of retrieved))
      as (r & D & C).
    change (existing_of (graph_of retrieved)) with retrieved in C.
    unfold ReasoningWorkflow._check_contradictions.
    fold retrieved. fold (graph_of retrieved). rewrite D.
    unfold bind, lift, ret. eexists. split; [reflexivity|].
    cbn [ReasoningWorkflow.set_current_step
         ReasoningWorkflowState.with_base
         ReasoningWorkflowState.with_contradiction_analysis
         ReasoningWorkflowState.with_contradictions_found
         ReasoningWorkflowState.contradictions_found].
    split; [exact C|].
    unfold ReasoningWorkflow._should_continue_reasoning.
    cbn [ReasoningWorkflow.set_current_step
         ReasoningWorkflowState.with_base
         ReasoningWorkflowState.with_contradiction_analysis
         ReasoningWorkflowState.with_contradictions_found
         ReasoningWorkflowState.contradictions_found].
    rewrite C, length_map.
    destruct (Nat.ltb_spec 2
                (List.length (conflicting_pairs retrieved retrieved)))
      as [L|L]; split; intros E;
      first [reflexivity | assumption | discriminate E | lia].
  - eexists. split; [vm_compute; reflexivity|].
    cbn [ContradictionAnalysis.conflicting_nodes].
    split; [reflexivity|].
    intros N. inversion N as [|? ? Nin _]. apply Nin. left.
Qed.

(** ** [ResearchAgent.identify_gaps] *)

Lemma covered_by_spec (query_terms : gset string)
    (retrieved : list KnowledgeNode.t) :
  ResearchAgent.covered_by query_terms retrieved
  = query_terms ∩ node_terms retrieved.
Proof.
  unfold ResearchAgent.covered_by.
  enough (G : forall acc : gset string,
    fold_left
      (fun covered_terms node =>
         covered_terms
         ∪ (Py.set (Py.split (Py.lower (KnowledgeNode.content node)))
            ∩ query_terms))
      retrieved acc
    = acc ∪ (query_terms ∩ node_terms retrieved)).
  { rewrite G. set_solver. }
  induction retrieved as [|node retrieved IH]; intros acc;
    cbn [fold_left node_terms map].
  - unfold node_terms. cbn [map union_list]. set_solver.
  - rewrite IH. unfold node_terms. cbn [map union_list]. unfold terms.
    set_solver.
Qed.

Lemma truediv_ratio (a b : nat) :
  b <> 0%nat -> truediv a b = Return (ratio a b).
Proof. intros N. destruct b; [congruence | reflexivity]. Qed.

Lemma ratio_bounds (a b : nat) :
  b <> 0%nat -> (a <= b)%nat -> (0 <= ratio a b)%Q /\ (ratio a b <= 1)%Q.
Proof.
  intros N L. unfold ratio. destruct b as [|b]; [congruence|].
  unfold Qdiv, Qle, Qmult, Qinv, inject_Z. cbn [Qnum Qden].
  rewrite Nat2Z.inj_succ. unfold Z.succ.
  destruct (Z.of_nat b + 1)%Z eqn:E; try lia.
  cbn [Qnum Qden]. split; [lia|].
  rewrite Pos.mul_1_l. lia.
Qed.

Lemma ratio_full (b : nat) : b <> 0%nat -> (ratio b b == 1)%Q.
Proof.
  intros N. unfold ratio. apply Qmult_inv_r.
  intros E. unfold Qeq in E. cbn in E. lia.
Qed.

Lemma ratio_none (b : nat) : (ratio 0 b == 0)%Q.
Proof. unfold ratio, Qdiv. cbn [Z.of_nat]. apply Qmult_0_l. Qed.

(** C8. [identify_gaps] never fails; its coverage score is the number of
    query terms found among the retrieved nodes' terms divided by the
    number of query terms, terms being lower-cased whitespace-separated
    tokens, and 1.0 for a query without terms; for a query with terms
    the score is 1.0 when every term is found and 0.0 when none is; and
    the score always lies between 0 and 1. *)
Theorem identify_gaps_coverage (query : string)
    (retrieved : list KnowledgeNode.t) :
  let query_terms := terms query in
  let covered := query_terms ∩ node_terms retrieved in
  exists r,
    ResearchAgent.identify_gaps query retrieved = Return r
    /\ (query_terms = ∅ -> (GapAnalysis.coverage_score r == 1)%Q)
    /\ (query_terms <> ∅ ->
        (GapAnalysis.coverage_score r
         == ratio (size covered) (size query_terms))%Q)
    /\ (query_terms <> ∅ -> query_terms ⊆ node_terms retrieved ->
        (GapAnalysis.coverage_score r == 1)%Q)
    /\ (query_terms <> ∅ -> query_terms ## node_terms retrieved ->
        (GapAnalysis.coverage_score r == 0)%Q)
    /\ (0 <= GapAnalysis.coverage_score r)%Q
    /\ (GapAnalysis.coverage_score r <= 1)%Q.
Proof.
  intros query_terms covered.
  unfold ResearchAgent.identify_gaps.
  fold (terms query). fold query_terms.
  rewrite covered_by_spec. fold covered.
  destruct (decide (query_terms = ∅)) as [E|N].
  - rewrite (bool_decide_eq_true_2 _ E). cbn [exc_bind].
    eexists. split; [reflexivity|].
    cbn [GapAnalysis.coverage_score].
    repeat split; intros; try reflexivity; try contradiction;
      unfold Qle; cbn; lia.
  - rewrite (bool_decide_eq_false_2 (query_terms = ∅) N).
    assert (Sz : size query_terms <> 0%nat).
    { intros Z. apply N. apply leibniz_equiv. apply size_empty_iff. exact Z. }
    assert (Le : (size covered <= size query_terms)%nat).
    { apply subseteq_size. unfold covered. set_solver. }
    rewrite (truediv_ratio _ _ Sz). cbn [exc_bind].
    eexists. split; [reflexivity|].
    cbn [GapAnalysis.coverage_score].
    destruct (ratio_bounds _ _ Sz Le) as [B0 B1].
    split; [intros E; contradiction|].
    split; [intros _; reflexivity|].
    split.
    { intros _ Sub.
      assert (C : covered = query_terms) by (unfold covered; set_solver).
      rewrite C. apply ratio_full. exact Sz. }
    split.
    { intros _ Dis.
      assert (C : covered = ∅) by (unfold covered; set_solver).
      rewrite C, size_empty. apply ratio_none. }
    split; assumption.
Qed.

(** ** [ReasoningWorkflow._combine_search_results] *)

Lemma in_combined_assoc (k : string) (c : ReasoningWorkflow.Combined) :
  ReasoningWorkflow.in_combined k c = true
  <-> ReasoningWorkflow.lookup_combined k c <> None.
Proof.
  unfold ReasoningWorkflow.in_combined, ReasoningWorkflow.lookup_combined.
  induction c as [|[k' n] c IH]; cbn [existsb StateGraph.assoc fst].
  - split; [discriminate | congruence].
  - destruct (String.eqb k' k); cbn [orb].
    + split; [discriminate | reflexivity].
    + exact IH.
Qed.

Lemma in_combined_keys (k : string) (c : ReasoningWorkflow.Combined) :
  ReasoningWorkflow.in_combined k c = true <-> In k (map fst c).
Proof.
  unfold ReasoningWorkflow.in_combined. rewrite existsb_exists, in_map_iff.
  split.
  - intros [kv [I E]]. apply String.eqb_eq in E. eauto.
  - intros [kv [E I]]. exists kv. split; [exact I|].
    apply String.eqb_eq. exact E.
Qed.

Lemma assoc_snoc (k k' : string) (n : KnowledgeNode.t)
    (c : ReasoningWorkflow.Combined) :
  StateGraph.assoc k (c ++ [(k', n)])
  = match StateGraph.assoc k c with
    | Some x => Some x
    | None => if String.eqb k' k then Some n else None
    end.
Proof.
  induction c as [|[k0 n0] c IH]; cbn [app StateGraph.assoc].
  - reflexivity.
  - destruct (String.eqb k0 k); [reflexivity | exact IH].
Qed.

Lemma keyed_snoc (k : string) (n : KnowledgeNode.t)
    (c : ReasoningWorkflow.Combined) :
  keyed c -> ReasoningWorkflow.in_combined k c = false ->
  KnowledgeNode.id n = k -> keyed (c ++ [(k, n)]).
Proof.
  intros [ND F] Nin I. split.
  - rewrite map_app. cbn [map fst]. apply NoDup_app.
    split; [exact ND|]. split.
    + intros x Hx Hk. apply list_elem_of_singleton in Hk. subst x.
      apply list_elem_of_In, in_combined_keys in Hx. congruence.
    + apply NoDup_singleton.
  - apply Forall_app. split; [exact F|]. constructor; [exact I|constructor].
Qed.

Lemma add_vector_hit_spec (c : ReasoningWorkflow.Combined) (r : VectorHit.t) :
  keyed c ->
  keyed (ReasoningWorkflow.add_vector_hit c r)
  /\ forall k,
       ReasoningWorkflow.lookup_combined k
         (ReasoningWorkflow.add_vector_hit c r)
       = match ReasoningWorkflow.lookup_combined k c with
         | Some x => Some x
         | None =>
             if String.eqb (VectorHit.id r) k
             then Some (ReasoningWorkflow.node_of_vector_hit r)
             else None
         end.
Proof.
  intros K. unfold ReasoningWorkflow.add_vector_hit.
  destruct (ReasoningWorkflow.in_combined (VectorHit.id r) c) eqn:I;
    cbn [negb].
  - split; [exact K|]. intros k.
    destruct (ReasoningWorkflow.lookup_combined k c) eqn:L; [reflexivity|].
    destruct (String.eqb_spec (VectorHit.id r) k) as [E|E]; [|reflexivity].
    apply in_combined_assoc in I. congruence.
  - split; [apply keyed_snoc; auto|]. intros k.
    unfold ReasoningWorkflow.lookup_combined. apply assoc_snoc.
Qed.

Lemma add_graph_hit_spec (c : ReasoningWorkflow.Combined) (g : GraphHit.t) :
  keyed c ->
  keyed (ReasoningWorkflow.add_graph_hit c g)
  /\ forall k,
       ReasoningWorkflow.lookup_combined k
         (ReasoningWorkflow.add_graph_hit c g)
       = match ReasoningWorkflow.lookup_combined k c with
         | Some x => Some x
         | None =>
             if negb (String.eqb k "") && graph_hit_has_id k g
             then Some (ReasoningWorkflow.node_of_graph_hit k g)
             else None
         end.
Proof.
  intros K. unfold ReasoningWorkflow.add_graph_hit, graph_hit_has_id.
  destruct (GraphNode.id (GraphHit.node g)) as [i|].
  2:{ split; [exact K|]. intros k. rewrite andb_false_r.
      destruct (ReasoningWorkflow.lookup_combined k c); reflexivity. }
  destruct (String.eqb_spec i "") as [Ei|Ei]; cbn [negb andb].
  { split; [exact K|]. intros k.
    destruct (ReasoningWorkflow.lookup_combined k c); [reflexivity|].
    destruct (String.eqb_spec k "") as [Ek|Ek]; cbn [negb andb];
      [reflexivity|].
    destruct (String.eqb_spec i k); [congruence | reflexivity]. }
  destruct (ReasoningWorkflow.in_combined i c) eqn:I; cbn [negb].
  - split; [exact K|]. intros k.
    destruct (ReasoningWorkflow.lookup_combined k c) eqn:L; [reflexivity|].
    destruct (String.eqb_spec i k) as [E|E];
      [|rewrite andb_false_r; reflexivity].
    apply in_combined_assoc in I. congruence.
  - split; [apply keyed_snoc; auto|]. intros k.
    unfold ReasoningWorkflow.lookup_combined. rewrite assoc_snoc.
    destruct (StateGraph.assoc k c); [reflexivity|].
    destruct (String.eqb_spec i k) as [E|E].
    + subst k. destruct (String.eqb_spec i ""); [congruence | reflexivity].
    + rewrite andb_false_r. reflexivity.
Qed.

Lemma fold_vector_hits (vs : list VectorHit.t)
    (c : ReasoningWorkflow.Combined) :
  keyed c ->
  keyed (fold_left ReasoningWorkflow.add_vector_hit vs c)
  /\ forall k,
       ReasoningWorkflow.lookup_combined k
         (fold_left ReasoningWorkflow.add_vector_hit vs c)
       = match ReasoningWorkflow.lookup_combined k c with
         | Some x => Some x
         | None =>
             option_map ReasoningWorkflow.node_of_vector_hit
               (first_vector_hit k vs)
         end.
Proof.
  revert c. induction vs as [|r vs IH]; intros c K; cbn [fold_left].
  - split; [exact K|]. intros k.
    destruct (ReasoningWorkflow.lookup_combined k c); reflexivity.
  - destruct (add_vector_hit_spec c r K) as [K1 L1].
    destruct (IH _ K1) as [K2 L2]. split; [exact K2|]. intros k.
    rewrite L2, L1. unfold first_vector_hit. cbn [List.find].
    destruct (ReasoningWorkflow.lookup_combined k c); [reflexivity|].
    destruct (String.eqb (VectorHit.id r) k); reflexivity.
Qed.

Lemma fold_graph_hits (gs : list GraphHit.t)
    (c : ReasoningWorkflow.Combined) :
  keyed c ->
  keyed (fold_left ReasoningWorkflow.add_graph_hit gs c)
  /\ (forall k,
        ReasoningWorkflow.lookup_combined k
          (fold_left ReasoningWorkflow.add_graph_hit gs c)
        = match ReasoningWorkflow.lookup_combined k c with
          | Some x => Some x
          | None =>
              if String.eqb k "" then None
              else option_map (ReasoningWorkflow.node_of_graph_hit k)
                     (first_graph_hit k gs)
          end)
  /\ exists extra,
       fold_left ReasoningWorkflow.add_graph_hit gs c = c ++ extra.
Proof.
  revert c. induction gs as [|g gs IH]; intros c K; cbn [fold_left].
  - split; [exact K|]. split.
    + intros k. destruct (ReasoningWorkflow.lookup_combined k c);
        [reflexivity|]. destruct (String.eqb k ""); reflexivity.
    + exists []. rewrite app_nil_r. reflexivity.
  - destruct (add_graph_hit_spec c g K) as [K1 L1].
    destruct (IH _ K1) as (K2 & L2 & [extra E2]).
    split; [exact K2|]. split.
    + intros k. rewrite L2, L1. unfold first_graph_hit. cbn [List.find].
      destruct (ReasoningWorkflow.lookup_combined k c); [reflexivity|].
      destruct (String.eqb k ""); cbn [negb andb]; [reflexivity|].
      destruct (graph_hit_has_id k g); reflexivity.
    + rewrite E2. unfold ReasoningWorkflow.add_graph_hit.
      destruct (GraphNode.id (GraphHit.node g)) as [i|];
        [|exists extra; reflexivity].
      destruct (negb (String.eqb i "")
                && negb (ReasoningWorkflow.in_combined i c)).
      * eexists. rewrite <- app_assoc. reflexivity.
      * exists extra. reflexivity.
Qed.

Lemma keyed_empty : keyed [].
Proof. split; [apply NoDup_nil_2 | constructor]. Qed.

(** C6. The merge builds a mapping keyed by node id in which the first
    writer wins: the vector hits are inserted first and the graph hits
    appended after them; the record kept for an id is the one of the
    first vector hit with that id, else the one of the first graph hit
    with that (non-empty) id, so an id found by both stores keeps the
    vector record and no later hit overwrites an entry; each kept record
    has the relevance score of the hit it comes from as confidence; and
    the function returns the mapping's values in insertion order. *)
Theorem combine_first_writer_wins (vector_results : list VectorHit.t)
    (graph_results : list GraphHit.t) :
  let combined :=
    ReasoningWorkflow.combine_into_dict vector_results graph_results in
  ReasoningWorkflow._combine_search_results vector_results graph_results
  = map snd combined
  /\ keyed combined
  /\ (forall k,
        ReasoningWorkflow.lookup_combined k combined
        = first_writer k vector_results graph_results)
  /\ (exists later,
        combined
        = fold_left ReasoningWorkflow.add_vector_hit vector_results []
          ++ later)
  /\ (forall r, In r vector_results ->
        exists r0,
          first_vector_hit (VectorHit.id r) vector_results = Some r0
          /\ ReasoningWorkflow.lookup_combined (VectorHit.id r) combined
             = Some (ReasoningWorkflow.node_of_vector_hit r0))
  /\ (forall k n,
        ReasoningWorkflow.lookup_combined k combined = Some n ->
        (exists r,
           In r vector_results /\ VectorHit.id r = k
           /\ n = ReasoningWorkflow.node_of_vector_hit r
           /\ KnowledgeNode.confidence n = VectorHit.score r)
        \/ (exists g,
              In g graph_results
              /\ GraphNode.id (GraphHit.node g) = Some k
              /\ n = ReasoningWorkflow.node_of_graph_hit k g
              /\ KnowledgeNode.confidence n = GraphHit.score g)).
Proof.
  intros combined. subst combined.
  unfold ReasoningWorkflow.combine_into_dict.
  destruct (fold_vector_hits vector_results [] keyed_empty) as [Kv Lv].
  destruct (fold_graph_hits graph_results _ Kv) as (Kg & Lg & Later).
  assert (L : forall k,
    ReasoningWorkflow.lookup_combined k
      (fold_left ReasoningWorkflow.add_graph_hit graph_results
         (fold_left ReasoningWorkflow.add_vector_hit vector_results []))
    = first_writer k vector_results graph_results).
  { intros k. rewrite Lg, Lv. unfold first_writer.
    cbn [ReasoningWorkflow.lookup_combined StateGraph.assoc].
    destruct (first_vector_hit k vector_results); cbn [option_map];
      [reflexivity|].
    destruct (String.eqb k ""); [reflexivity|].
    destruct (first_graph_hit k graph_results); reflexivity. }
  split; [reflexivity|]. split; [exact Kg|]. split; [exact L|].
  split; [exact Later|]. split.
  - intros r In_r. rewrite L. unfold first_writer, first_vector_hit.
    destruct (List.find _ vector_results) as [r0|] eqn:F.
    + exists r0. split; reflexivity.
    + exfalso. apply (find_none _ _ F) in In_r.
      rewrite String.eqb_refl in In_r. discriminate.
  - intros k n. rewrite L. unfold first_writer, first_vector_hit,
      first_graph_hit.
    destruct (List.find _ vector_results) as [r0|] eqn:F.
    + intros [= <-]. left. exists r0. apply find_some in F as [I E].
      apply String.eqb_eq in E. auto.
    + destruct (String.eqb k ""); [discriminate|].
      destruct (List.find _ graph_results) as [g|] eqn:G; [|discriminate].
      intros [= <-]. right. exists g. apply find_some in G as [I E].
      unfold graph_hit_has_id in E.
      destruct (GraphNode.id (GraphHit.node g)) as [i|]; [|discriminate].
      apply String.eqb_eq in E. subst i. auto.
Qed.

(** ** The engine *)

Section EngineFacts.
Context {World State : Type}.
Variable g : StateGraph.t World State.

Variables Pre Post : State -> Prop.
Variable rank : string -> nat.

Lemma drive_states (fuel : nat) :
  edges_total g -> steps_preserve g Pre Post ->
  forall cur s w,
    at_step Pre Post cur s ->
    let r := fst (StateGraph.drive fuel g cur s w) in
    exists inputs final,
      s :: StateGraph.produced r = inputs ++ [final]
      /\ Forall Pre inputs
      /\ match StateGraph.outcome r with
         | Return result => result = final /\ Post final
         | Raise _ => Pre final
         end.
Proof.
  intros Tot Pres. induction fuel as [|fuel IH]; intros cur s w A;
    cbn [StateGraph.drive]; unfold at_step in A;
    destruct (String.eqb cur StateGraph.END) eqn:E.
  - exists [], s. cbn. auto.
  - exists [], s. cbn. auto.
  - exists [], s. cbn. auto.
  - destruct (StateGraph.assoc cur (StateGraph.nodes g)) as [action|] eqn:N.
    2:{ exists [], s. cbn. auto. }
    destruct (action s w) as [[s'|e] w'] eqn:R.
    2:{ exists [], s. cbn. auto. }
    destruct (Tot cur action s' N) as [next Sx]. rewrite Sx.
    pose proof (Pres _ _ _ _ _ _ _ E N A R Sx) as A'.
    specialize (IH next s' w' A').
    destruct (StateGraph.drive fuel g next s' w') as [r w''].
    cbn [fst StateGraph.produced StateGraph.outcome] in *.
    destruct IH as (inputs & final & Eq & F & O).
    exists (s :: inputs), final. rewrite Eq. cbn [app].
    split; [reflexivity|]. split; [constructor; assumption | exact O].
Qed.

Lemma well_formed_total : well_formed g rank -> edges_total g.
Proof.
  intros W cur action s' N. destruct (W cur action s' N) as (_ & next & S & _).
  exists next. exact S.
Qed.

Lemma ascending_from_weaken (names : list string) (lo lo' : nat) :
  (lo' <= lo)%nat ->
  ascending_from rank lo names -> ascending_from rank lo' names.
Proof.
  destruct names as [|c rest]; cbn [ascending_from]; [auto|].
  intros L [B A]. split; [lia | exact A].
Qed.

Lemma ascending_from_bound (names : list string) (lo : nat) :
  ascending_from rank lo names -> Forall (fun c => (lo <= rank c)%nat) names.
Proof.
  revert lo. induction names as [|c rest IH]; intros lo;
    cbn [ascending_from]; [constructor|].
  intros [B A]. constructor; [exact B|].
  eapply List.Forall_impl; [|apply (IH _ A)]. cbn. intros x Hx. lia.
Qed.

Lemma ascending_from_NoDup (names : list string) (lo : nat) :
  ascending_from rank lo names -> NoDup names.
Proof.
  revert lo. induction names as [|c rest IH]; intros lo;
    cbn [ascending_from]; [intros _; apply NoDup_nil_2|].
  intros [B A]. apply NoDup_cons_2; [|apply (IH _ A)].
  intros I. apply ascending_from_bound in A.
  rewrite List.Forall_forall in A. apply list_elem_of_In, A in I. lia.
Qed.

Lemma last_cons {X} (a d : X) (l : list X) :
  List.last (a :: l) d = List.last l a.
Proof.
  revert a d. induction l as [|b l IH]; intros a d; [reflexivity|].
  change (List.last (a :: b :: l) d) with (List.last (b :: l) d).
  rewrite !IH. reflexivity.
Qed.

Lemma drive_trace (fuel : nat) :
  well_formed g rank ->
  forall cur s w,
    cur = StateGraph.END
    \/ StateGraph.assoc cur (StateGraph.nodes g) <> None ->
    (rank StateGraph.END <= rank cur + fuel)%nat ->
    let r := fst (StateGraph.drive fuel g cur s w) in
    ascending_from rank (rank cur) (StateGraph.executed r)
    /\ match StateGraph.outcome r with
       | Return result =>
           result = List.last (StateGraph.produced r) s
           /\ List.length (StateGraph.executed r)
              = List.length (StateGraph.produced r)
       | Raise e => raised_by_last_step g s r e
       end.
Proof.
  intros W. induction fuel as [|fuel IH]; intros cur s w Node Fuel;
    cbn [StateGraph.drive];
    destruct (String.eqb_spec cur StateGraph.END) as [E|E];
    try (cbn; auto; fail).
  - exfalso. destruct Node as [Node|Node]; [contradiction|].
    destruct (StateGraph.assoc cur (StateGraph.nodes g)) as [action|] eqn:N;
      [|contradiction].
    destruct (W cur action s N) as (_ & next & _ & R & _). lia.
  - destruct Node as [Node|Node]; [contradiction|].
    destruct (StateGraph.assoc cur (StateGraph.nodes g)) as [action|] eqn:N;
      [|contradiction].
    destruct (action s w) as [[s'|e] w'] eqn:R.
    2:{ cbn. split; [split; [lia | exact I]|].
        exists [], cur, action, w, w'. cbn. auto. }
    destruct (W cur action s' N) as (_ & next & Sx & Rk & Nx).
    rewrite Sx.
    assert (F' : (rank StateGraph.END <= rank next + fuel)%nat) by lia.
    specialize (IH next s' w' Nx F').
    destruct (StateGraph.drive fuel g next s' w') as [r w''].
    cbn [fst StateGraph.produced StateGraph.outcome StateGraph.executed] in *.
    destruct IH as [Asc Out]. split.
    + cbn [ascending_from]. split; [lia|].
      apply (ascending_from_weaken _ (rank next)); [lia | exact Asc].
    + destruct (StateGraph.outcome r) as [result|e].
      * destruct Out as [-> Len]. rewrite last_cons. cbn [List.length].
        auto.
      * destruct Out as (before & c & a & w0 & w0' & Ex & A & Len & Run).
        exists (cur :: before), c, a, w0, w0'.
        cbn [StateGraph.produced StateGraph.executed].
        rewrite Ex, last_cons. cbn [app List.length]. auto.
Qed.

End EngineFacts.

(** One step of the engine, for a step that returned and for one that
    raised. *)
Section EngineSteps.
Context {World State : Type}.
Variable g : StateGraph.t World State.

Lemma drive_end (fuel : nat) (s : State) (w : World) :
  StateGraph.drive fuel g StateGraph.END s w
  = (StateGraph.stopped (Return s), w).
Proof. destruct fuel; reflexivity. Qed.

Lemma drive_step_return (fuel : nat) (cur next : string)
    (action : State -> M World State) (s s' : State) (w w' : World) :
  String.eqb cur StateGraph.END = false ->
  StateGraph.assoc cur (StateGraph.nodes g) = Some action ->
  action s w = (Return s', w') ->
  StateGraph.successor g cur s' = Return next ->
  StateGraph.drive (S fuel) g cur s w
  = let (r, w'') := StateGraph.drive fuel g next s' w' in
    ({| StateGraph.executed := cur :: StateGraph.executed r;
        StateGraph.produced := s' :: StateGraph.produced r;
        StateGraph.outcome := StateGraph.outcome r |}, w'').
Proof.
  intros E N R Sx. cbn [StateGraph.drive]. rewrite E, N, R, Sx. reflexivity.
Qed.

Lemma drive_step_raise (fuel : nat) (cur : string)
    (action : State -> M World State) (s : State) (e : exn) (w w' : World) :
  String.eqb cur StateGraph.END = false ->
  StateGraph.assoc cur (StateGraph.nodes g) = Some action ->
  action s w = (Raise e, w') ->
  StateGraph.drive (S fuel) g cur s w
  = ({| StateGraph.executed := [cur];
        StateGraph.produced := [];
        StateGraph.outcome := Raise e |}, w').
Proof.
  intros E N R. cbn [StateGraph.drive]. rewrite E, N, R. reflexivity.
Qed.

End EngineSteps.

(** ** The ingestion graph *)

Lemma _should_process_cases (s : KnowledgeIngestionState.t) :
  KnowledgeWorkflow._should_process s = "process"
  \/ KnowledgeWorkflow._should_process s = "reject".
Proof.
  unfold KnowledgeWorkflow._should_process.
  destruct (match KnowledgeIngestionState.validation_result s with
            | Some v => ValidationResult.is_valid v
            | None => false
            end); auto.
Qed.

Lemma _should_store_cases (s : KnowledgeIngestionState.t) :
  KnowledgeWorkflow._should_store s = "store"
  \/ KnowledgeWorkflow._should_store s = "review".
Proof.
  unfold KnowledgeWorkflow._should_store. destruct (negb _); auto.
Qed.

Section IngestionGraph.
Context {World : Type} `{Services World}.

Lemma ingestion_nodes :
  StateGraph.nodes (KnowledgeWorkflow._build_workflow (World := World))
  = [ ("validate_content", KnowledgeWorkflow._validate_content);
      ("process_content", KnowledgeWorkflow._process_content);
      ("check_alignment", KnowledgeWorkflow._check_alignment);
      ("detect_contradictions", KnowledgeWorkflow._detect_contradictions);
      ("store_embeddings", KnowledgeWorkflow._store_embeddings);
      ("update_graph", KnowledgeWorkflow._update_graph);
      ("finalize_ingestion", KnowledgeWorkflow._finalize_ingestion) ].
Proof. reflexivity. Qed.

Lemma ingestion_edges :
  StateGraph.edges (KnowledgeWorkflow._build_workflow (World := World))
  = [ ("validate_content",
       StateGraph.Conditional KnowledgeWorkflow._should_process
         [ ("process", "process_content"); ("reject", StateGraph.END) ]);
      ("process_content", StateGraph.Unconditional "check_alignment");
      ("check_alignment", StateGraph.Unconditional "detect_contradictions");
      ("detect_contradictions",
       StateGraph.Conditional KnowledgeWorkflow._should_store
         [ ("store", "store_embeddings"); ("review", StateGraph.END) ]);
      ("store_embeddings", StateGraph.Unconditional "update_graph");
      ("update_graph", StateGraph.Unconditional "finalize_ingestion");
      ("finalize_ingestion", StateGraph.Unconditional StateGraph.END) ].
Proof. reflexivity. Qed.

Lemma successor_validate_content (s' : KnowledgeIngestionState.t) :
  StateGraph.successor (KnowledgeWorkflow._build_workflow (World := World))
    "validate_content" s'
  = Return (if String.eqb (KnowledgeWorkflow._should_process s') "process"
            then "process_content" else StateGraph.END).
Proof.
  unfold StateGraph.successor. rewrite ingestion_edges.
  cbn [StateGraph.assoc String.eqb Ascii.eqb Bool.eqb].
  destruct (_should_process_cases s') as [-> | ->];
    reflexivity.
Qed.

Lemma successor_detect_contradictions (s' : KnowledgeIngestionState.t) :
  StateGraph.successor (KnowledgeWorkflow._build_workflow (World := World))
    "detect_contradictions" s'
  = Return (if String.eqb (KnowledgeWorkflow._should_store s') "store"
            then "store_embeddings" else StateGraph.END).
Proof.
  unfold StateGraph.successor. rewrite ingestion_edges.
  cbn [StateGraph.assoc String.eqb Ascii.eqb Bool.eqb].
  destruct (_should_store_cases s') as [-> | ->];
    reflexivity.
Qed.

End IngestionGraph.

(** Case analysis on the step a lookup in a graph's node list found. *)
Ltac graph_cases N :=
  cbn [StateGraph.assoc] in N;
  repeat match type of N with
         | (if String.eqb ?lit ?cur then _ else _) = Some _ =>
             destruct (String.eqb_spec lit cur) as [<-|?];
             [injection N as <-|]
         | None = Some _ => discriminate N
         end.

(** Inversion of a step that returned: follow the binds of its body. *)
Ltac returned R :=
  unfold bind, ret, lift in R;
  repeat (cbv beta iota in R;
          match type of R with
          | context [match ?c with _ => _ end] =>
              destruct c eqn:?; try discriminate R
          end);
  injection R as <- <-.

Section IngestionFacts.
Context {World : Type} `{Services World}.

Lemma ingestion_well_formed :
  well_formed (KnowledgeWorkflow._build_workflow (World := World))
    ingestion_rank.
Proof.
  intros cur action s' N. rewrite ingestion_nodes in N. graph_cases N.
  - split; [reflexivity|]. rewrite successor_validate_content.
    eexists. split; [reflexivity|].
    destruct (String.eqb _ "process").
    + split; [cbn; lia|]. right. rewrite ingestion_nodes. discriminate.
    + split; [cbn; lia|]. left. reflexivity.
  - split; [reflexivity|]. eexists. split; [reflexivity|].
    split; [cbn; lia|]. right. rewrite ingestion_nodes. discriminate.
  - split; [reflexivity|]. eexists. split; [reflexivity|].
    split; [cbn; lia|]. right. rewrite ingestion_nodes. discriminate.
  - split; [reflexivity|]. rewrite successor_detect_contradictions.
    eexists. split; [reflexivity|].
    destruct (String.eqb _ "store").
    + split; [cbn; lia|]. right. rewrite ingestion_nodes. discriminate.
    + split; [cbn; lia|]. left. reflexivity.
  - split; [reflexivity|]. eexists. split; [reflexivity|].
    split; [cbn; lia|]. right. rewrite ingestion_nodes. discriminate.
  - split; [reflexivity|]. eexists. split; [reflexivity|].
    split; [cbn; lia|]. right. rewrite ingestion_nodes. discriminate.
  - split; [reflexivity|]. eexists. split; [reflexivity|].
    split; [cbn; lia|]. left. reflexivity.
Qed.

Lemma _validate_content_frame (s : KnowledgeIngestionState.t) (w : World)
    s' w' :
  KnowledgeWorkflow._validate_content s w = (Return s', w') ->
  keeps_envelope s s'.
Proof.
  unfold KnowledgeWorkflow._validate_content. intros R. returned R.
  all: split; [eexists|]; reflexivity.
Qed.

Lemma _process_content_frame (s : KnowledgeIngestionState.t) (w : World)
    s' w' :
  KnowledgeWorkflow._process_content s w = (Return s', w') ->
  keeps_envelope s s'.
Proof.
  unfold KnowledgeWorkflow._process_content. intros R. returned R.
  all: split; [eexists|]; reflexivity.
Qed.

Lemma _check_alignment_frame (s : KnowledgeIngestionState.t) (w : World)
    s' w' :
  KnowledgeWorkflow._check_alignment s w = (Return s', w') ->
  keeps_envelope s s'.
Proof.
  unfold KnowledgeWorkflow._check_alignment. intros R. returned R.
  all: split; [eexists|]; reflexivity.
Qed.

Lemma _detect_contradictions_frame (s : KnowledgeIngestionState.t) (w : World)
    s' w' :
  KnowledgeWorkflow._detect_contradictions s w = (Return s', w') ->
  keeps_envelope s s'.
Proof.
  unfold KnowledgeWorkflow._detect_contradictions. intros R. returned R.
  all: split; [eexists|]; reflexivity.
Qed.

Lemma _store_embeddings_frame (s : KnowledgeIngestionState.t) (w : World)
    s' w' :
  KnowledgeWorkflow._store_embeddings s w = (Return s', w') ->
  keeps_envelope s s'.
Proof.
  unfold KnowledgeWorkflow._store_embeddings. intros R. returned R.
  all: split; [eexists|]; reflexivity.
Qed.

Lemma _update_graph_frame (s : KnowledgeIngestionState.t) (w : World)
    s' w' :
  KnowledgeWorkflow._update_graph s w = (Return s', w') ->
  keeps_envelope s s'.
Proof.
  unfold KnowledgeWorkflow._update_graph. intros R. returned R.
  all: split; [eexists|]; reflexivity.
Qed.

Lemma _finalize_ingestion_frame (s : KnowledgeIngestionState.t) (w : World)
    s' w' :
  KnowledgeWorkflow._finalize_ingestion s w = (Return s', w') ->
  closed (KnowledgeIngestionState.base s')
  /\ KnowledgeIngestionState.embedding_generated s'
     = KnowledgeIngestionState.embedding_generated s.
Proof.
  unfold KnowledgeWorkflow._finalize_ingestion, datetime_now. intros R.
  unfold bind, ret in R. destruct (clock_now w) as [t w1].
  injection R as <- <-. split; [split|]; [reflexivity|discriminate|reflexivity].
Qed.

(** On the id strings of [nodes_created] and the empty existing graph,
    the two agents never subscript a node and find nothing. *)
Lemma analyze_alignment_on_ids (nodes : list string) :
  AlignmentAgent.analyze_alignment nodes KnowledgeWorkflow.no_existing_graph
  = Return {| AlignmentResult.alignments := [];
              AlignmentResult.new_relationships := [];
              AlignmentResult.integration_confidence := 0.85 |}.
Proof.
  unfold AlignmentAgent.analyze_alignment.
  cbn [KnowledgeWorkflow.no_existing_graph ExistingGraph.similar_nodes
       default].
  match goal with
  | |- context [exc_for_each nodes ?body _] =>
      assert (F : forall acc, exc_for_each nodes body acc = Return acc)
  end.
  { induction nodes as [|n nodes IH]; intros acc;
      cbn [exc_for_each exc_bind]; [reflexivity | apply IH]. }
  rewrite F. reflexivity.
Qed.

Lemma detect_contradictions_on_ids (nodes : list string) :
  ContradictionAgent.detect_contradictions nodes
    KnowledgeWorkflow.no_existing_graph
  = Return {| ContradictionAnalysis.has_contradiction := false;
              ContradictionAnalysis.conflicting_nodes := [];
              ContradictionAnalysis.severity := "low";
              ContradictionAnalysis.resolution_suggestions := [] |}.
Proof.
  unfold ContradictionAgent.detect_contradictions.
  assert (F : ContradictionAgent.find_contradictions nodes
                KnowledgeWorkflow.no_existing_graph = Return []).
  { unfold ContradictionAgent.find_contradictions.
    cbn [KnowledgeWorkflow.no_existing_graph ExistingGraph.nodes default].
    induction nodes as [|n nodes IH]; cbn [exc_for_each exc_bind];
      [reflexivity | exact IH]. }
  rewrite F. reflexivity.
Qed.

(** [_update_graph] subscripts the first entry of [nodes_created], an id
    string, and so raises as soon as a node was created. *)
Lemma _update_graph_raises (s : KnowledgeIngestionState.t) (w : World)
    (n : string) (rest : list string) :
  KnowledgeIngestionState.nodes_created s = n :: rest ->
  KnowledgeWorkflow._update_graph s w = (Raise str_index_error, w).
Proof.
  intros N. unfold KnowledgeWorkflow._update_graph. rewrite N.
  reflexivity.
Qed.

Lemma keeps_envelope_pre s s' :
  keeps_envelope s s' -> ingestion_pre s -> ingestion_pre s'.
Proof.
  intros [[label B] G] [[St En] Em]. unfold ingestion_pre, under_way.
  rewrite B, G. cbn. auto.
Qed.

Lemma ingestion_pre_post s : ingestion_pre s -> ingestion_post s.
Proof. intros [U E]. split; [left|]; assumption. Qed.

Lemma ingestion_steps_preserve :
  steps_preserve (KnowledgeWorkflow._build_workflow (World := World))
    ingestion_pre ingestion_post.
Proof.
  intros cur action s w s' w' next NE N P R Sx.
  assert (G : forall nxt, ingestion_pre s' ->
                at_step ingestion_pre ingestion_post nxt s').
  { intros nxt P'. unfold at_step.
    destruct (String.eqb nxt StateGraph.END);
      [apply ingestion_pre_post|]; exact P'. }
  rewrite ingestion_nodes in N. graph_cases N.
  - apply G, (keeps_envelope_pre s); [eapply _validate_content_frame|]; eauto.
  - apply G, (keeps_envelope_pre s); [eapply _process_content_frame|]; eauto.
  - apply G, (keeps_envelope_pre s); [eapply _check_alignment_frame|]; eauto.
  - apply G, (keeps_envelope_pre s);
      [eapply _detect_contradictions_frame|]; eauto.
  - apply G, (keeps_envelope_pre s); [eapply _store_embeddings_frame|]; eauto.
  - apply G, (keeps_envelope_pre s); [eapply _update_graph_frame|]; eauto.
  - injection Sx as <-. unfold at_step. cbn.
    destruct (_finalize_ingestion_frame _ _ _ _ R) as [C E].
    destruct P as [_ Em]. split; [right; exact C | congruence].
Qed.

End IngestionFacts.

(** ** The reasoning graph *)

Lemma _should_continue_reasoning_cases (s : ReasoningWorkflowState.t) :
  ReasoningWorkflow._should_continue_reasoning s = "stop"
  \/ ReasoningWorkflow._should_continue_reasoning s = "continue".
Proof.
  unfold ReasoningWorkflow._should_continue_reasoning.
  destruct (2 <? _)%nat; auto.
Qed.

Section ReasoningFacts.
Context {World : Type} `{Services World}.

Lemma reasoning_nodes :
  StateGraph.nodes (ReasoningWorkflow._build_workflow (World := World))
  = [ ("analyze_query", ReasoningWorkflow._analyze_query);
      ("retrieve_knowledge", ReasoningWorkflow._retrieve_knowledge);
      ("check_contradictions", ReasoningWorkflow._check_contradictions);
      ("generate_reasoning", ReasoningWorkflow._generate_reasoning);
      ("identify_gaps", ReasoningWorkflow._identify_gaps);
      ("formulate_answer", ReasoningWorkflow._formulate_answer);
      ("finalize_reasoning", ReasoningWorkflow._finalize_reasoning) ].
Proof. reflexivity. Qed.

Lemma reasoning_edges :
  StateGraph.edges (ReasoningWorkflow._build_workflow (World := World))
  = [ ("analyze_query", StateGraph.Unconditional "retrieve_knowledge");
      ("retrieve_knowledge", StateGraph.Unconditional "check_contradictions");
      ("check_contradictions",
       StateGraph.Conditional ReasoningWorkflow._should_continue_reasoning
         [ ("continue", "generate_reasoning");
           ("stop", "finalize_reasoning") ]);
      ("generate_reasoning", StateGraph.Unconditional "identify_gaps");
      ("identify_gaps", StateGraph.Unconditional "formulate_answer");
      ("formulate_answer", StateGraph.Unconditional "finalize_reasoning");
      ("finalize_reasoning", StateGraph.Unconditional StateGraph.END) ].
Proof. reflexivity. Qed.

Lemma successor_check_contradictions (s' : ReasoningWorkflowState.t) :
  StateGraph.successor (ReasoningWorkflow._build_workflow (World := World))
    "check_contradictions" s'
  = Return (if String.eqb (ReasoningWorkflow._should_continue_reasoning s')
                 "stop"
            then "finalize_reasoning" else "generate_reasoning").
Proof.
  unfold StateGraph.successor. rewrite reasoning_edges.
  cbn [StateGraph.assoc String.eqb Ascii.eqb Bool.eqb].
  destruct (_should_continue_reasoning_cases s') as [-> | ->]; reflexivity.
Qed.

Lemma reasoning_well_formed :
  well_formed (ReasoningWorkflow._build_workflow (World := World))
    reasoning_rank.
Proof.
  intros cur action s' N. rewrite reasoning_nodes in N. graph_cases N.
  3:{ split; [reflexivity|]. rewrite successor_check_contradictions.
      eexists. split; [reflexivity|].
      destruct (String.eqb _ "stop");
        (split; [cbn; lia|]); right; rewrite reasoning_nodes; discriminate. }
  all: split; [reflexivity|]; eexists; (split; [reflexivity|]);
    (split; [cbn; lia|]);
    first [ left; reflexivity
          | right; rewrite reasoning_nodes; discriminate ].
Qed.

Lemma _analyze_query_frame (s : ReasoningWorkflowState.t) (w : World) s' w' :
  ReasoningWorkflow._analyze_query s w = (Return s', w') -> keeps_base s s'.
Proof.
  unfold ReasoningWorkflow._analyze_query. intros R. returned R.
  all: eexists; reflexivity.
Qed.

Lemma _retrieve_knowledge_frame (s : ReasoningWorkflowState.t) (w : World)
    s' w' :
  ReasoningWorkflow._retrieve_knowledge s w = (Return s', w') ->
  keeps_base s s'.
Proof.
  unfold ReasoningWorkflow._retrieve_knowledge. intros R. returned R.
  all: eexists; reflexivity.
Qed.

Lemma _check_contradictions_frame (s : ReasoningWorkflowState.t) (w : World)
    s' w' :
  ReasoningWorkflow._check_contradictions s w = (Return s', w') ->
  keeps_base s s'.
Proof.
  unfold ReasoningWorkflow._check_contradictions. intros R. returned R.
  all: eexists; reflexivity.
Qed.

Lemma _generate_reasoning_frame (s : ReasoningWorkflowState.t) (w : World)
    s' w' :
  ReasoningWorkflow._generate_reasoning s w = (Return s', w') ->
  keeps_base s s'.
Proof.
  unfold ReasoningWorkflow._generate_reasoning. intros R. returned R.
  all: eexists; reflexivity.
Qed.

Lemma _identify_gaps_frame (s : ReasoningWorkflowState.t) (w : World) s' w' :
  ReasoningWorkflow._identify_gaps s w = (Return s', w') -> keeps_base s s'.
Proof.
  unfold ReasoningWorkflow._identify_gaps. intros R. returned R.
  all: eexists; reflexivity.
Qed.

Lemma _formulate_answer_frame (s : ReasoningWorkflowState.t) (w : World)
    s' w' :
  ReasoningWorkflow._formulate_answer s w = (Return s', w') ->
  keeps_base s s'.
Proof.
  unfold ReasoningWorkflow._formulate_answer. intros R. returned R.
  all: eexists; reflexivity.
Qed.

Lemma _finalize_reasoning_frame (s : ReasoningWorkflowState.t) (w : World)
    s' w' :
  ReasoningWorkflow._finalize_reasoning s w = (Return s', w') ->
  closed (ReasoningWorkflowState.base s')
  /\ ReasoningWorkflowState.answer s' = ReasoningWorkflowState.answer s.
Proof.
  unfold ReasoningWorkflow._finalize_reasoning, datetime_now. intros R.
  unfold bind, ret in R. destruct (clock_now w) as [t w1].
  injection R as <- <-. split; [split|]; [reflexivity|discriminate|reflexivity].
Qed.

Lemma keeps_base_pre s s' :
  keeps_base s s' -> reasoning_pre s -> reasoning_pre s'.
Proof.
  intros [label B] [St En]. unfold reasoning_pre, under_way.
  rewrite B. cbn. auto.
Qed.

Lemma reasoning_steps_preserve :
  steps_preserve (ReasoningWorkflow._build_workflow (World := World))
    reasoning_pre reasoning_post.
Proof.
  intros cur action s w s' w' next NE N P R Sx.
  rewrite reasoning_nodes in N. graph_cases N.
  3:{ rewrite successor_check_contradictions in Sx. injection Sx as <-.
      assert (P' : reasoning_pre s')
        by (apply (keeps_base_pre s);
            [eapply _check_contradictions_frame|]; eauto).
      destruct (String.eqb _ "stop"); exact P'. }
  6:{ injection Sx as <-. unfold at_step. cbn.
      apply (_finalize_reasoning_frame _ _ _ _ R). }
  all: injection Sx as <-; unfold at_step; cbn; apply (keeps_base_pre s);
    [|exact P].
  - eapply _analyze_query_frame; eauto.
  - eapply _retrieve_knowledge_frame; eauto.
  - eapply _generate_reasoning_frame; eauto.
  - eapply _identify_gaps_frame; eauto.
  - eapply _formulate_answer_frame; eauto.
Qed.

End ReasoningFacts.

(** ** Status and end time *)

Lemma under_way_consistent b : under_way b -> end_time_consistent b.
Proof.
  intros [S E]. unfold end_time_consistent. rewrite S, E.
  split; intros N; contradiction.
Qed.

Lemma closed_consistent b : closed b -> end_time_consistent b.
Proof.
  intros [S E]. unfold end_time_consistent. rewrite S.
  split; [discriminate | intros _; exact E].
Qed.

(** A run of states under way, then a last one, then the returned one,
    which is that last one or a failed copy of a state under way. *)
Lemma run_states_ok (inputs : list WorkflowState.t)
    (final returned : WorkflowState.t) :
  Forall under_way inputs ->
  (returned = final /\ (under_way final \/ closed final))
  \/ (under_way final
      /\ WorkflowState.status returned = "failed"
      /\ WorkflowState.end_time returned <> None) ->
  Forall end_time_consistent (inputs ++ [final; returned])
  /\ ForallOrdPairs transition_ok (inputs ++ [final; returned]).
Proof.
  intros U Last.
  assert (Tail : Forall end_time_consistent [final; returned]
                 /\ ForallOrdPairs transition_ok [final; returned]
                 /\ Forall (fun b => WorkflowState.status b = "running"
                                     \/ WorkflowState.status b = "completed"
                                     \/ WorkflowState.status b = "failed")
                           [final; returned]).
  { assert (Pair : forall a b,
              end_time_consistent a -> end_time_consistent b ->
              transition_ok a b ->
              Forall end_time_consistent [a; b]
              /\ ForallOrdPairs transition_ok [a; b]).
    { intros a b Ca Cb T. split.
      - constructor; [exact Ca|]. constructor; [exact Cb | constructor].
      - constructor; [constructor; [exact T | constructor]|].
        constructor; constructor. }
    destruct Last as [[-> [Uf|Cf]] | (Uf & St & En)].
    - pose proof (under_way_consistent _ Uf) as C. destruct Uf as [S _].
      destruct (Pair final final C C) as [P1 P2]; [left; reflexivity|].
      split; [exact P1|]. split; [exact P2|].
      constructor; [auto|]. constructor; [auto | constructor].
    - pose proof (closed_consistent _ Cf) as C. destruct Cf as [S _].
      destruct (Pair final final C C) as [P1 P2]; [left; reflexivity|].
      split; [exact P1|]. split; [exact P2|].
      constructor; [auto|]. constructor; [auto | constructor].
    - pose proof (under_way_consistent _ Uf) as C. destruct Uf as [S _].
      assert (Cr : end_time_consistent returned).
      { unfold end_time_consistent. rewrite St.
        split; [discriminate | intros _; exact En]. }
      destruct (Pair final returned C Cr) as [P1 P2]; [right; auto|].
      split; [exact P1|]. split; [exact P2|].
      constructor; [auto|]. constructor; [auto | constructor]. }
  destruct Tail as (Tc & To & Ts).
  induction U as [|b inputs Ub U IH]; cbn [app]; [auto|].
  destruct IH as [IHc IHo]. split.
  - constructor; [apply under_way_consistent; exact Ub | exact IHc].
  - constructor; [|exact IHo].
    apply Forall_app. split.
    + eapply List.Forall_impl; [|exact U]. intros a [Sa _].
      destruct Ub as [Sb _]. left. congruence.
    + eapply List.Forall_impl; [|exact Ts]. intros a Sa.
      destruct Ub as [Sb _]. unfold transition_ok. rewrite Sb.
      destruct Sa as [Sa|Sa]; [left; congruence | right; auto].
Qed.

Section StatusInvariant.
Context {World : Type} `{Services World}.

Lemma ingestion_run_shape (workflow_id content : string) (metadata : Dict)
    (source : option string) (w : World) :
  exists inputs final returned,
    ingestion_states workflow_id content metadata source w
    = inputs ++ [final; returned]
    /\ Forall ingestion_pre inputs
    /\ ((returned = final /\ ingestion_post final)
        \/ (ingestion_pre final
            /\ exists e t start,
                 returned
                 = KnowledgeWorkflow.mark_failed e t
                     (KnowledgeWorkflow.initial_state workflow_id content
                        metadata source start))).
Proof.
  unfold ingestion_states, KnowledgeWorkflow.run_traced.
  destruct (clock_now w) as [start w1].
  set (initial := KnowledgeWorkflow.initial_state _ _ _ _ _).
  assert (P : at_step ingestion_pre ingestion_post
                (StateGraph.entry_point
                   (KnowledgeWorkflow._build_workflow (World := World)))
                initial).
  { cbn. repeat split. }
  pose proof (drive_states _ _ _ StateGraph.recursion_limit
                (well_formed_total _ _ ingestion_well_formed)
                ingestion_steps_preserve _ _ w1 P) as D.
  cbn zeta in D. unfold StateGraph.ainvoke.
  destruct (StateGraph.drive _ _ _ initial w1) as [r w2].
  cbn [fst] in D. destruct D as (inputs & final & Eq & F & O).
  destruct (StateGraph.outcome r) as [result|e].
  - destruct O as [-> Po]. exists inputs, final, final.
    rewrite app_comm_cons, Eq, <- app_assoc. cbn [app].
    split; [reflexivity|]. split; [exact F|]. left. auto.
  - destruct (clock_now w2) as [t w3].
    exists inputs, final, (KnowledgeWorkflow.mark_failed e t initial).
    rewrite app_comm_cons, Eq, <- app_assoc. cbn [app].
    split; [reflexivity|]. split; [exact F|]. right.
    split; [exact O|]. exists e, t, start. reflexivity.
Qed.

Lemma reasoning_run_shape (workflow_id query : string) (context : Dict)
    (w : World) :
  exists inputs final returned,
    reasoning_states workflow_id query context w
    = inputs ++ [final; returned]
    /\ Forall reasoning_pre inputs
    /\ ((returned = final /\ reasoning_post final)
        \/ (reasoning_pre final
            /\ exists e t start,
                 returned
                 = ReasoningWorkflow.mark_failed e t
                     (ReasoningWorkflow.initial_state workflow_id query
                        context start))).
Proof.
  unfold reasoning_states, ReasoningWorkflow.run_traced.
  destruct (clock_now w) as [start w1].
  set (initial := ReasoningWorkflow.initial_state _ _ _ _).
  assert (P : at_step reasoning_pre reasoning_post
                (StateGraph.entry_point
                   (ReasoningWorkflow._build_workflow (World := World)))
                initial).
  { cbn. repeat split. }
  pose proof (drive_states _ _ _ StateGraph.recursion_limit
                (well_formed_total _ _ reasoning_well_formed)
                reasoning_steps_preserve _ _ w1 P) as D.
  cbn zeta in D. unfold StateGraph.ainvoke.
  destruct (StateGraph.drive _ _ _ initial w1) as [r w2].
  cbn [fst] in D. destruct D as (inputs & final & Eq & F & O).
  destruct (StateGraph.outcome r) as [result|e].
  - destruct O as [-> Po]. exists inputs, final, final.
    rewrite app_comm_cons, Eq, <- app_assoc. cbn [app].
    split; [reflexivity|]. split; [exact F|]. left. auto.
  - destruct (clock_now w2) as [t w3].
    exists inputs, final, (ReasoningWorkflow.mark_failed e t initial).
    rewrite app_comm_cons, Eq, <- app_assoc. cbn [app].
    split; [reflexivity|]. split; [exact F|]. right.
    split; [exact O|]. exists e, t, start. reflexivity.
Qed.

(** C2. In every ingestion run and every reasoning run, over the states
    the run produces (the initial one, those the steps return, the one
    [run] returns, in that order), [end_time] is set exactly in the
    states whose status is not running, and from any state to any later
    one the status is unchanged or goes from running to completed or to
    failed. *)
Theorem status_and_end_time :
  (forall (workflow_id content : string) (metadata : Dict)
          (source : option string) (w : World),
     let bases :=
       map KnowledgeIngestionState.base
         (ingestion_states workflow_id content metadata source w) in
     Forall end_time_consistent bases
     /\ ForallOrdPairs transition_ok bases)
  /\ (forall (workflow_id query : string) (context : Dict) (w : World),
        let bases :=
          map ReasoningWorkflowState.base
            (reasoning_states workflow_id query context w) in
        Forall end_time_consistent bases
        /\ ForallOrdPairs transition_ok bases).
Proof.
  split.
  - intros workflow_id content metadata source w bases. subst bases.
    destruct (ingestion_run_shape workflow_id content metadata source w)
      as (inputs & final & returned & -> & F & Last).
    rewrite map_app. cbn [map]. apply run_states_ok.
    + apply List.Forall_map. eapply List.Forall_impl; [|exact F].
      intros s [U _]. exact U.
    + destruct Last as [[-> [Po _]] | [[U _] (e & t & start & ->)]].
      * left. auto.
      * right. split; [exact U|]. split; [reflexivity | discriminate].
  - intros workflow_id query context w bases. subst bases.
    destruct (reasoning_run_shape workflow_id query context w)
      as (inputs & final & returned & -> & F & Last).
    rewrite map_app. cbn [map]. apply run_states_ok.
    + apply List.Forall_map. exact F.
    + destruct Last as [[-> Po] | [U (e & t & start & ->)]].
      * left. auto.
      * right. split; [exact U|]. split; [reflexivity | discriminate].
Qed.

End StatusInvariant.

(** ** [embedding_generated] *)

Section EmbeddingFlag.
Context {World : Type} `{Services World}.

Lemma agent_sets_embedding_generated (s : KnowledgeIngestionState.t)
    (w : World) res w' :
  IngestionAgent.process_content s w = (Return res, w') ->
  KnowledgeIngestionState.embedding_generated (IngestionAgent.state res)
  = true.
Proof.
  unfold IngestionAgent.process_content. intros R.
  unfold bind, ret in R.
  destruct (for_each _ _ _ w) as [[acc|e] w1]; [|discriminate R].
  injection R as <- <-. reflexivity.
Qed.

Lemma step_drops_agent_state (s : KnowledgeIngestionState.t) (w : World)
    res w' :
  IngestionAgent.process_content s w = (Return res, w') ->
  KnowledgeWorkflow._process_content s w
  = (Return
       (KnowledgeWorkflow.set_current_step "content_processed"
          (KnowledgeIngestionState.with_embeddings_data
             (Some (IngestionAgent.embeddings res))
             (KnowledgeIngestionState.with_nodes_created
                (IngestionAgent.nodes res) s))),
     w').
Proof.
  intros R. unfold KnowledgeWorkflow._process_content, bind, ret.
  rewrite R. reflexivity.
Qed.

(** C9. Every state of an ingestion run -- initial, returned by a step,
    returned by [run] -- has [embedding_generated = False]: the agent's
    [process_content] sets the flag in the state copy it returns, the
    workflow step takes from the agent's result the node ids and the
    embedding tuples only, and no step writes the flag. *)
Theorem embedding_generated_stays_false :
  (forall (workflow_id content : string) (metadata : Dict)
          (source : option string) (w : World),
     Forall (fun s => KnowledgeIngestionState.embedding_generated s = false)
       (ingestion_states workflow_id content metadata source w))
  /\ (forall (s : KnowledgeIngestionState.t) (w : World) res w',
        IngestionAgent.process_content s w = (Return res, w') ->
        KnowledgeIngestionState.embedding_generated (IngestionAgent.state res)
        = true
        /\ exists s',
             KnowledgeWorkflow._process_content s w = (Return s', w')
             /\ KnowledgeIngestionState.nodes_created s'
                = IngestionAgent.nodes res
             /\ KnowledgeIngestionState.embeddings_data s'
                = Some (IngestionAgent.embeddings res)
             /\ KnowledgeIngestionState.embedding_generated s'
                = KnowledgeIngestionState.embedding_generated s)
  /\ (forall cur action (s : KnowledgeIngestionState.t) (w : World) s' w',
        StateGraph.assoc cur
          (StateGraph.nodes (KnowledgeWorkflow._build_workflow
                               (World := World))) = Some action ->
        action s w = (Return s', w') ->
        KnowledgeIngestionState.embedding_generated s'
        = KnowledgeIngestionState.embedding_generated s).
Proof.
  split; [|split].
  - intros workflow_id content metadata source w.
    destruct (ingestion_run_shape workflow_id content metadata source w)
      as (inputs & final & returned & -> & F & Last).
    apply Forall_app. split.
    + eapply List.Forall_impl; [|exact F]. intros s [_ E]. exact E.
    + destruct Last as [[-> [_ E]] | [[_ E] (e & t & start & ->)]];
        repeat constructor; auto.
  - intros s w res w' R. split.
    + apply (agent_sets_embedding_generated _ _ _ _ R).
    + eexists. split; [apply (step_drops_agent_state _ _ _ _ R)|].
      repeat split.
  - intros cur action s w s' w' N R.
    rewrite ingestion_nodes in N. graph_cases N.
    + apply (_validate_content_frame _ _ _ _ R).
    + apply (_process_content_frame _ _ _ _ R).
    + apply (_check_alignment_frame _ _ _ _ R).
    + apply (_detect_contradictions_frame _ _ _ _ R).
    + apply (_store_embeddings_frame _ _ _ _ R).
    + apply (_update_graph_frame _ _ _ _ R).
    + apply (_finalize_ingestion_frame _ _ _ _ R).
Qed.

End EmbeddingFlag.

(** ** Failure of a step *)

Section Failure.
Context {World : Type} `{Services World}.

Lemma ingestion_trace (initial : KnowledgeIngestionState.t) (w : World) :
  let r :=
    fst (StateGraph.ainvoke KnowledgeWorkflow._build_workflow initial w) in
  NoDup (StateGraph.executed r)
  /\ forall e,
       StateGraph.outcome r = Raise e ->
       raised_by_last_step KnowledgeWorkflow._build_workflow initial r e.
Proof.
  pose proof (drive_trace _ ingestion_rank StateGraph.recursion_limit
                ingestion_well_formed
                (StateGraph.entry_point
                   (KnowledgeWorkflow._build_workflow (World := World)))
                initial w) as D.
  cbn zeta in D. unfold StateGraph.ainvoke.
  destruct D as [Asc Out].
  - right. rewrite ingestion_nodes. discriminate.
  - apply Nat.leb_le. reflexivity.
  - split; [apply (ascending_from_NoDup _ _ _ Asc)|].
    intros e Oe. rewrite Oe in Out. exact Out.
Qed.

Lemma reasoning_trace (initial : ReasoningWorkflowState.t) (w : World) :
  let r :=
    fst (StateGraph.ainvoke ReasoningWorkflow._build_workflow initial w) in
  NoDup (StateGraph.executed r)
  /\ forall e,
       StateGraph.outcome r = Raise e ->
       raised_by_last_step ReasoningWorkflow._build_workflow initial r e.
Proof.
  pose proof (drive_trace _ reasoning_rank StateGraph.recursion_limit
                reasoning_well_formed
                (StateGraph.entry_point
                   (ReasoningWorkflow._build_workflow (World := World)))
                initial w) as D.
  cbn zeta in D. unfold StateGraph.ainvoke.
  destruct D as [Asc Out].
  - right. rewrite reasoning_nodes. discriminate.
  - apply Nat.leb_le. reflexivity.
  - split; [apply (ascending_from_NoDup _ _ _ Asc)|].
    intros e Oe. rewrite Oe in Out. exact Out.
Qed.

(** C1, as the code has it. When a step of an ingestion or reasoning run
    raises, [run] returns the INITIAL state of the run -- not the state
    the last completed step returned -- with status "failed", the
    exception's description in [error] and [end_time] set, every other
    field as [run] first built it. No step is invoked twice, and the
    step that raised is the last one invoked: it ran on the last state
    produced, after every earlier step had completed. *)
Theorem failed_run_returns_initial_state :
  (forall (workflow_id content : string) (metadata : Dict)
          (source : option string) (w : World) r returned w',
     KnowledgeWorkflow.run_traced workflow_id content metadata source w
     = (r, returned, w') ->
     KnowledgeWorkflow.run workflow_id content metadata source w
     = (returned, w')
     /\ NoDup (StateGraph.executed r)
     /\ forall e,
          StateGraph.outcome r = Raise e ->
          exists start t,
            let initial :=
              KnowledgeWorkflow.initial_state workflow_id content metadata
                source start in
            returned = KnowledgeWorkflow.mark_failed e t initial
            /\ WorkflowState.status (KnowledgeIngestionState.base returned)
               = "failed"
            /\ WorkflowState.error (KnowledgeIngestionState.base returned)
               = Some e
            /\ WorkflowState.end_time (KnowledgeIngestionState.base returned)
               = Some t
            /\ raised_by_last_step KnowledgeWorkflow._build_workflow
                 initial r e)
  /\ (forall (workflow_id query : string) (context : Dict) (w : World)
             r returned w',
        ReasoningWorkflow.run_traced workflow_id query context w
        = (r, returned, w') ->
        ReasoningWorkflow.run workflow_id query context w = (returned, w')
        /\ NoDup (StateGraph.executed r)
        /\ forall e,
             StateGraph.outcome r = Raise e ->
             exists start t,
               let initial :=
                 ReasoningWorkflow.initial_state workflow_id query context
                   start in
               returned = ReasoningWorkflow.mark_failed e t initial
               /\ WorkflowState.status (ReasoningWorkflowState.base returned)
                  = "failed"
               /\ WorkflowState.error (ReasoningWorkflowState.base returned)
                  = Some e
               /\ WorkflowState.end_time
                    (ReasoningWorkflowState.base returned) = Some t
               /\ raised_by_last_step ReasoningWorkflow._build_workflow
                    initial r e).
Proof.
  split.
  - intros workflow_id content metadata source w r returned w' E.
    split; [unfold KnowledgeWorkflow.run; rewrite E; reflexivity|].
    revert E. unfold KnowledgeWorkflow.run_traced.
    destruct (clock_now w) as [start w1].
    set (initial := KnowledgeWorkflow.initial_state _ _ _ _ _).
    pose proof (ingestion_trace initial w1) as T. cbn zeta in T.
    destruct (StateGraph.ainvoke _ initial w1) as [r0 w2].
    cbn [fst] in T. destruct T as [ND Last].
    destruct (StateGraph.outcome r0) as [result|e0] eqn:O.
    + intros [= <- <- <-]. split; [exact ND|]. intros e Oe. congruence.
    + destruct (clock_now w2) as [t w3]. intros [= <- <- <-].
      split; [exact ND|]. intros e Oe. rewrite O in Oe.
      injection Oe as <-. exists start, t. cbn zeta.
      repeat split. apply Last. reflexivity.
  - intros workflow_id query context w r returned w' E.
    split; [unfold ReasoningWorkflow.run; rewrite E; reflexivity|].
    revert E. unfold ReasoningWorkflow.run_traced.
    destruct (clock_now w) as [start w1].
    set (initial := ReasoningWorkflow.initial_state _ _ _ _).
    pose proof (reasoning_trace initial w1) as T. cbn zeta in T.
    destruct (StateGraph.ainvoke _ initial w1) as [r0 w2].
    cbn [fst] in T. destruct T as [ND Last].
    destruct (StateGraph.outcome r0) as [result|e0] eqn:O.
    + intros [= <- <- <-]. split; [exact ND|]. intros e Oe. congruence.
    + destruct (clock_now w2) as [t w3]. intros [= <- <- <-].
      split; [exact ND|]. intros e Oe. rewrite O in Oe.
      injection Oe as <-. exists start, t. cbn zeta.
      repeat split. apply Last. reflexivity.
Qed.

End Failure.

(** The vector store is down: validation, processing, alignment and
    contradiction detection complete, [store_embeddings] raises. The state
    the last completed step returned lists the created node; the state
    [run] returns is the initial one marked failed, with no node listed,
    so it is not that last state marked failed. *)
Lemma failed_run_drops_progress :
  let services := sample_services false [] [] in
  let '(r, returned, _) :=
    KnowledgeWorkflow.run_traced (H := services) "wf" sample_content [] None
      0%nat in
  exists e last_known,
    StateGraph.outcome r = Raise e
    /\ List.last (StateGraph.produced r)
         (KnowledgeWorkflow.initial_state "wf" sample_content [] None "t0")
       = last_known
    /\ StateGraph.executed r
       = [ "validate_content"; "process_content"; "check_alignment";
           "detect_contradictions"; "store_embeddings" ]
    /\ KnowledgeIngestionState.nodes_created last_known = ["wf_chunk_0"]
    /\ KnowledgeIngestionState.nodes_created returned = []
    /\ forall t, returned <> KnowledgeWorkflow.mark_failed e t last_known.
Proof.
  intros services.
  destruct (KnowledgeWorkflow.run_traced (H := services) "wf" sample_content
              [] None 0%nat) as [[r returned] w'] eqn:E.
  vm_compute in E. injection E as <- <- <-.
  eexists. eexists. split; [reflexivity|]. split; [reflexivity|].
  split; [reflexivity|]. split; [reflexivity|]. split; [reflexivity|].
  intros t C.
  apply (f_equal KnowledgeIngestionState.nodes_created) in C.
  discriminate C.
Qed.

(** ** Rejected content *)

Lemma validate_content_invalid (s : KnowledgeIngestionState.t) :
  too_short (KnowledgeIngestionState.content s)
  \/ too_few_words (KnowledgeIngestionState.content s) ->
  ValidationResult.is_valid (IngestionAgent.validate_content s) = false.
Proof.
  unfold too_short, too_few_words, IngestionAgent.validate_content.
  intros Bad.
  destruct (Nat.ltb_spec
              (String.length (Py.strip (KnowledgeIngestionState.content s)))
              10);
  destruct (Nat.ltb_spec
              (List.length (Py.split (KnowledgeIngestionState.content s)))
              5);
  try reflexivity.
  destruct Bad; lia.
Qed.

Section Rejection.
Context {World : Type} `{Services World}.

(** C3, as the code has it. An ingestion run whose content fails
    validation ends without an exception after the single step
    [validate_content], which no processing step follows; the state it
    returns is the one that step produced, and its status is still
    "running", with no end time: the reject edge leads to the terminal
    marker and passes [finalize_ingestion] by. *)
Theorem rejected_run_is_left_running (workflow_id content : string)
    (metadata : Dict) (source : option string) (w : World) :
  too_short content \/ too_few_words content ->
  exists r returned w',
    KnowledgeWorkflow.run_traced workflow_id content metadata source w
    = (r, returned, w')
    /\ KnowledgeWorkflow.run workflow_id content metadata source w
       = (returned, w')
    /\ StateGraph.executed r = ["validate_content"]
    /\ StateGraph.outcome r = Return returned
    /\ KnowledgeWorkflow._should_process returned = "reject"
    /\ WorkflowState.status (KnowledgeIngestionState.base returned)
       = "running"
    /\ WorkflowState.end_time (KnowledgeIngestionState.base returned) = None
    /\ WorkflowState.error (KnowledgeIngestionState.base returned) = None
    /\ WorkflowState.current_step (KnowledgeIngestionState.base returned)
       = "validation_complete"
    /\ KnowledgeIngestionState.nodes_created returned = [].
Proof.
  intros Bad. unfold KnowledgeWorkflow.run, KnowledgeWorkflow.run_traced.
  destruct (clock_now w) as [start w1].
  set (initial := KnowledgeWorkflow.initial_state _ _ _ _ _).
  set (s1 := KnowledgeWorkflow.set_current_step "validation_complete"
               (KnowledgeIngestionState.with_validation_result
                  (Some (IngestionAgent.validate_content initial)) initial)).
  assert (Rej : KnowledgeWorkflow._should_process s1 = "reject").
  { unfold KnowledgeWorkflow._should_process, s1.
    cbn [KnowledgeWorkflow.set_current_step KnowledgeIngestionState.with_base
         KnowledgeIngestionState.with_validation_result
         KnowledgeIngestionState.validation_result].
    rewrite (validate_content_invalid initial Bad). reflexivity. }
  unfold StateGraph.ainvoke, StateGraph.recursion_limit.
  rewrite (drive_step_return _ _ "validate_content" StateGraph.END
             KnowledgeWorkflow._validate_content initial s1 w1 w1);
    [ | reflexivity | rewrite ingestion_nodes; reflexivity | reflexivity
      | rewrite successor_validate_content, Rej; reflexivity ].
  rewrite drive_end. cbn [StateGraph.outcome StateGraph.stopped
                          StateGraph.executed StateGraph.produced].
  eexists. exists s1, w1. split; [reflexivity|]. split; [reflexivity|].
  split; [reflexivity|]. split; [reflexivity|]. split; [exact Rej|].
  repeat split.
Qed.

End Rejection.

Lemma rejected_run_witness :
  too_short "Too short"
  /\ exists r returned w',
       KnowledgeWorkflow.run_traced (H := sample_services true [] [])
         "wf" "Too short" [] None 0%nat = (r, returned, w')
       /\ WorkflowState.status (KnowledgeIngestionState.base returned)
          = "running"
       /\ WorkflowState.end_time (KnowledgeIngestionState.base returned)
          = None.
Proof.
  assert (S : too_short "Too short") by (vm_compute; lia).
  split; [exact S|].
  destruct (rejected_run_is_left_running (H := sample_services true [] [])
              "wf" "Too short" [] None 0%nat (or_introl S))
    as (r & returned & w' & R & _ & _ & _ & _ & St & En & _).
  exists r, returned, w'. auto.
Defined.

(** ** Too many contradictions *)

Section EarlyStop.
Context {World : Type} `{Services World}.

Lemma _analyze_query_answer (s : ReasoningWorkflowState.t) (w : World) s' w' :
  ReasoningWorkflow._analyze_query s w = (Return s', w') ->
  ReasoningWorkflowState.answer s' = ReasoningWorkflowState.answer s.
Proof.
  unfold ReasoningWorkflow._analyze_query. intros R. returned R.
  all: reflexivity.
Qed.

Lemma _retrieve_knowledge_answer (s : ReasoningWorkflowState.t) (w : World)
    s' w' :
  ReasoningWorkflow._retrieve_knowledge s w = (Return s', w') ->
  ReasoningWorkflowState.answer s' = ReasoningWorkflowState.answer s.
Proof.
  unfold ReasoningWorkflow._retrieve_knowledge. intros R. returned R.
  all: reflexivity.
Qed.

Lemma _check_contradictions_answer (s : ReasoningWorkflowState.t) (w : World)
    s' w' :
  ReasoningWorkflow._check_contradictions s w = (Return s', w') ->
  ReasoningWorkflowState.answer s' = ReasoningWorkflowState.answer s.
Proof.
  unfold ReasoningWorkflow._check_contradictions. intros R. returned R.
  all: reflexivity.
Qed.

(** C7. In a reasoning run whose contradiction check returns more than
    two flagged entries, the branch predicate answers "stop" and the run
    consists of [analyze_query], [retrieve_knowledge],
    [check_contradictions] and [finalize_reasoning], in that order and
    nothing else; it ends without an exception in a state with no answer,
    status "completed" and an end time. *)
Theorem stop_on_many_contradictions (workflow_id query : string)
    (context : Dict) (w w1 w2 w3 w4 : World) (start : string)
    (s1 s2 s3 : ReasoningWorkflowState.t) :
  clock_now w = (start, w1) ->
  ReasoningWorkflow._analyze_query
    (ReasoningWorkflow.initial_state workflow_id query context start) w1
  = (Return s1, w2) ->
  ReasoningWorkflow._retrieve_knowledge s1 w2 = (Return s2, w3) ->
  ReasoningWorkflow._check_contradictions s2 w3 = (Return s3, w4) ->
  (2 < List.length (ReasoningWorkflowState.contradictions_found s3))%nat ->
  exists r final w',
    ReasoningWorkflow.run_traced workflow_id query context w
    = (r, final, w')
    /\ ReasoningWorkflow.run workflow_id query context w = (final, w')
    /\ ReasoningWorkflow._should_continue_reasoning s3 = "stop"
    /\ StateGraph.executed r
       = [ "analyze_query"; "retrieve_knowledge"; "check_contradictions";
           "finalize_reasoning" ]
    /\ StateGraph.produced r = [s1; s2; s3; final]
    /\ StateGraph.outcome r = Return final
    /\ ReasoningWorkflowState.answer final = None
    /\ WorkflowState.status (ReasoningWorkflowState.base final) = "completed"
    /\ WorkflowState.end_time (ReasoningWorkflowState.base final) <> None.
Proof.
  intros Clock R1 R2 R3 Many.
  assert (Stop : ReasoningWorkflow._should_continue_reasoning s3 = "stop").
  { unfold ReasoningWorkflow._should_continue_reasoning.
    apply Nat.ltb_lt in Many. rewrite Many. reflexivity. }
  assert (A3 : ReasoningWorkflowState.answer s3 = None).
  { rewrite (_check_contradictions_answer _ _ _ _ R3),
      (_retrieve_knowledge_answer _ _ _ _ R2),
      (_analyze_query_answer _ _ _ _ R1). reflexivity. }
  destruct (ReasoningWorkflow._finalize_reasoning s3 w4) as [[final|e] w5]
    eqn:R4.
  2:{ unfold ReasoningWorkflow._finalize_reasoning, datetime_now, bind, ret
        in R4. destruct (clock_now w4); discriminate R4. }
  destruct (_finalize_reasoning_frame _ _ _ _ R4) as [[St En] An].
  unfold ReasoningWorkflow.run, ReasoningWorkflow.run_traced. rewrite Clock.
  unfold StateGraph.ainvoke, StateGraph.recursion_limit.
  rewrite (drive_step_return ReasoningWorkflow._build_workflow _
             "analyze_query" "retrieve_knowledge"
             ReasoningWorkflow._analyze_query _ _ _ _
             eq_refl eq_refl R1 eq_refl).
  rewrite (drive_step_return ReasoningWorkflow._build_workflow _
             "retrieve_knowledge" "check_contradictions"
             ReasoningWorkflow._retrieve_knowledge _ _ _ _
             eq_refl eq_refl R2 eq_refl).
  rewrite (drive_step_return ReasoningWorkflow._build_workflow _
             "check_contradictions" "finalize_reasoning"
             ReasoningWorkflow._check_contradictions _ _ _ _
             eq_refl eq_refl R3);
    [|rewrite successor_check_contradictions, Stop; reflexivity].
  rewrite (drive_step_return ReasoningWorkflow._build_workflow _
             "finalize_reasoning" StateGraph.END
             ReasoningWorkflow._finalize_reasoning _ _ _ _
             eq_refl eq_refl R4 eq_refl).
  rewrite drive_end.
  cbn [StateGraph.outcome StateGraph.stopped StateGraph.executed
       StateGraph.produced].
  exists {| StateGraph.executed :=
              [ "analyze_query"; "retrieve_knowledge";
                "check_contradictions"; "finalize_reasoning" ];
            StateGraph.produced := [s1; s2; s3; final];
            StateGraph.outcome := Return final |}, final, w5.
  split; [reflexivity|]. split; [reflexivity|]. split; [exact Stop|].
  split; [reflexivity|]. split; [reflexivity|]. split; [reflexivity|].
  split; [congruence|]. split; [exact St | exact En].
Qed.

End EarlyStop.

(** ** The theorems at sample inputs *)

Lemma failed_run_witness :
  exists r returned w',
    KnowledgeWorkflow.run_traced (H := sample_services false [] [])
      "wf" sample_content [] None 0%nat = (r, returned, w')
    /\ NoDup (StateGraph.executed r)
    /\ WorkflowState.status (KnowledgeIngestionState.base returned)
       = "failed"
    /\ WorkflowState.error (KnowledgeIngestionState.base returned)
       = Some "connection refused".
Proof.
  destruct (KnowledgeWorkflow.run_traced (H := sample_services false [] [])
              "wf" sample_content [] None 0%nat) as [[r returned] w'] eqn:E.
  exists r, returned, w'. split; [reflexivity|].
  destruct (proj1 (failed_run_returns_initial_state
                     (H := sample_services false [] []))
              _ _ _ _ _ _ _ _ E) as (_ & ND & F).
  split; [exact ND|].
  destruct (F "connection refused") as (start & t & _ & St & Er & _).
  - vm_compute in E. injection E as <- _ _. reflexivity.
  - split; assumption.
Defined.

Lemma detect_contradictions_witness :
  exists contradictions r,
    ContradictionAgent.find_contradictions affirming_nodes
      (graph_of denying_nodes) = Return contradictions
    /\ ContradictionAgent.detect_contradictions affirming_nodes
         (graph_of denying_nodes) = Return r
    /\ map (fun c => (ContradictionAgent.node1 c, ContradictionAgent.node2 c))
         contradictions
       = [ ("a", "e"); ("b", "e"); ("b", "f"); ("c", "e"); ("c", "g");
           ("d", "h") ]
    /\ ContradictionAnalysis.severity r = "high"
    /\ ContradictionAnalysis.has_contradiction r = true.
Proof.
  destruct (detect_contradictions_spec affirming_nodes
              (graph_of denying_nodes))
    as (cs & r & Hf & Hd & Pairs & _ & _ & _ & Sev & _ & Has & _).
  exists cs, r. split; [exact Hf|]. split; [exact Hd|].
  split; [rewrite Pairs; vm_compute; reflexivity|].
  vm_compute in Hf. injection Hf as <-.
  split; [rewrite Sev; vm_compute; reflexivity|].
  destruct (ContradictionAnalysis.has_contradiction r) eqn:B;
    [reflexivity|].
  destruct Has as [Empty _]. discriminate (Empty eq_refl).
Defined.

Lemma combine_witness :
  let vector_results := [sample_hit "a" "from the vector store" 0.9] in
  let graph_results := [sample_row "a" "from the graph store" 0.3] in
  exists r0,
    first_vector_hit "a" vector_results = Some r0
    /\ ReasoningWorkflow.lookup_combined "a"
         (ReasoningWorkflow.combine_into_dict vector_results graph_results)
       = Some (ReasoningWorkflow.node_of_vector_hit r0).
Proof.
  intros vector_results graph_results.
  destruct (combine_first_writer_wins vector_results graph_results)
    as (_ & _ & _ & _ & Kept & _).
  apply (Kept (sample_hit "a" "from the vector store" 0.9)).
  left. reflexivity.
Defined.

Lemma stop_witness :
  exists r final w',
    ReasoningWorkflow.run_traced (H := sample_services true sample_hits [])
      "wf" "Is it so?" [] 0%nat = (r, final, w')
    /\ StateGraph.executed r
       = [ "analyze_query"; "retrieve_knowledge"; "check_contradictions";
           "finalize_reasoning" ]
    /\ ReasoningWorkflowState.answer final = None
    /\ WorkflowState.status (ReasoningWorkflowState.base final) = "completed".
Proof.
  destruct (stop_on_many_contradictions
              (H := sample_services true sample_hits [])
              "wf" "Is it so?" [] 0%nat _ _ _ _ _ _ _ _
              eq_refl eq_refl eq_refl eq_refl)
    as (r & final & w' & R & _ & _ & Ex & _ & _ & An & St & _).
  - vm_compute. lia.
  - exists r, final, w'. auto.
Defined.

Lemma identify_gaps_witness :
  exists r,
    ResearchAgent.identify_gaps "Sky blue"
      [sample_node "n" "The sky is blue"] = Return r
    /\ (GapAnalysis.coverage_score r == 1)%Q.
Proof.
  destruct (identify_gaps_coverage "Sky blue"
              [sample_node "n" "The sky is blue"])
    as (r & E & _ & _ & Full & _).
  exists r. split; [exact E|]. apply Full.
  - intros Z. apply (f_equal size) in Z. vm_compute in Z. discriminate Z.
  - apply (bool_decide_unpack _). vm_compute. exact I.
Defined.

Lemma embedding_generated_witness :
  exists res w',
    IngestionAgent.process_content (H := sample_services true [] [])
      (KnowledgeWorkflow.initial_state "wf" sample_content [] None "t0")
      1%nat = (Return res, w')
    /\ KnowledgeIngestionState.embedding_generated (IngestionAgent.state res)
       = true.
Proof.
  destruct (IngestionAgent.process_content (H := sample_services true [] [])
              (KnowledgeWorkflow.initial_state "wf" sample_content [] None
                 "t0") 1%nat) as [[res|e] w'] eqn:E.
  - exists res, w'. split; [reflexivity|].
    apply (proj1 (proj2 (embedding_generated_stays_false
                           (H := sample_services true [] []))) _ _ _ _ E).
  - vm_compute in E. discriminate E.
Defined.

(** With every service working, the ingestion of valid content still
    fails: [update_graph] raises on the first created node, after the
    embeddings have been stored. *)
Example working_services_run :
  let '(r, returned, _) :=
    KnowledgeWorkflow.run_traced (H := sample_services true [] [])
      "wf" sample_content [] None 0%nat in
  StateGraph.executed r
  = [ "validate_content"; "process_content"; "check_alignment";
      "detect_contradictions"; "store_embeddings"; "update_graph" ]
  /\ StateGraph.outcome r = Raise str_index_error
  /\ WorkflowState.status (KnowledgeIngestionState.base returned) = "failed".
Proof. vm_compute. repeat split. Qed.

(** * Further properties *)

(** ** [IngestionAgent.process_content] *)

Lemma str_of_nat_inj (i j : nat) : str_of_nat i = str_of_nat j -> i = j.
Proof.
  unfold str_of_nat. intros E.
  assert (N : forall n, Nat.to_uint n <> Decimal.Nil).
  { intros n Z. pose proof (DecimalNat.Unsigned.of_to n) as O.
    rewrite Z in O. cbn in O. subst n. discriminate Z. }
  apply DecimalNat.Unsigned.to_uint_inj.
  pose proof (NilZero.usu _ (N i)) as Ui.
  pose proof (NilZero.usu _ (N j)) as Uj.
  rewrite E in Ui. congruence.
Qed.

Lemma chunk_id_inj (workflow_id : string) (i j : nat) :
  chunk_id workflow_id i = chunk_id workflow_id j -> i = j.
Proof.
  unfold chunk_id. intros E.
  apply String.app_inj in E. apply String.app_inj in E.
  apply str_of_nat_inj. exact E.
Qed.

Lemma enumerate_from_fst {A} (i : nat) (l : list A) :
  map fst (enumerate_from i l) = seq i (List.length l).
Proof.
  revert i. induction l as [|x l IH]; intros i; cbn; [reflexivity|].
  rewrite IH. reflexivity.
Qed.

Lemma enumerate_from_snd {A} (i : nat) (l : list A) :
  map snd (enumerate_from i l) = l.
Proof.
  revert i. induction l as [|x l IH]; intros i; cbn; [reflexivity|].
  rewrite IH. reflexivity.
Qed.


Lemma dict_lookup_set_ne (k k' : string) (v : PyVal) (d : Dict) :
  k <> k' -> dict_lookup k' (dict_set k v d) = dict_lookup k' d.
Proof.
  intros N. unfold dict_lookup. induction d as [|[k0 v0] d IH]; cbn.
  - destruct (String.eqb_spec k k'); [contradiction | reflexivity].
  - destruct (String.eqb_spec k0 k) as [->|N0]; cbn.
    + destruct (String.eqb_spec k k'); [contradiction | reflexivity].
    + destruct (String.eqb k0 k'); [reflexivity | exact IH].
Qed.

Section ProcessContent.
Context {World : Type} `{Services World}.

Lemma process_content_loop (state : KnowledgeIngestionState.t) :
  IngestionAgent.process_content state
  = let chunks := split_text (KnowledgeIngestionState.content state) in
    let* acc :=
      for_each (enumerate chunks)
        (process_chunk
           (WorkflowState.workflow_id (KnowledgeIngestionState.base state))
           (KnowledgeIngestionState.metadata state)
           (KnowledgeIngestionState.source state) chunks)
        ([], []) in
    ret {| IngestionAgent.nodes := fst acc;
           IngestionAgent.embeddings := snd acc;
           IngestionAgent.state :=
             KnowledgeIngestionState.with_base
               (WorkflowState.with_current_step "content_processed"
                  (KnowledgeIngestionState.base state))
               (KnowledgeIngestionState.with_embedding_generated true
                  (KnowledgeIngestionState.with_nodes_created (fst acc)
                     state)) |}.
Proof. reflexivity. Qed.

Lemma process_chunks_returned (workflow_id : string) (metadata : Dict)
    (source : option string) (chunks : list string) (l : list string)
    (i : nat) acc (w : World) acc' w' :
  for_each (enumerate_from i l)
    (process_chunk workflow_id metadata source chunks) acc w
  = (Return acc', w') ->
  fst acc' = fst acc ++ map (chunk_id workflow_id) (seq i (List.length l))
  /\ exists added,
       snd acc' = snd acc ++ added
       /\ Forall2 (tuple_for workflow_id metadata source (List.length chunks))
            added (enumerate_from i l).
Proof.
  revert i acc w. induction l as [|chunk l IH]; intros i acc w;
    cbn [enumerate_from for_each].
  - intros [= <- <-]. cbn. rewrite app_nil_r. split; [reflexivity|].
    exists []. rewrite app_nil_r. split; [reflexivity | constructor].
  - unfold bind at 1.
    destruct (process_chunk workflow_id metadata source chunks (i, chunk)
                acc w) as [[acc1|e] w1] eqn:B; [|discriminate].
    intros R. destruct (IH _ _ _ R) as (Ids & added & Tu & F).
    unfold process_chunk, bind, ret, datetime_now in B. cbn [fst snd] in B.
    destruct (encode chunk w) as [[embedding|e] w2]; [|discriminate B].
    destruct (clock_now w2) as [created w3].
    destruct (clock_now w3) as [updated w4].
    injection B as <- <-. cbn [fst snd] in Ids, Tu.
    split.
    + rewrite Ids, <- app_assoc. reflexivity.
    + eexists. rewrite Tu, <- app_assoc. split; [reflexivity|].
      constructor; [|exact F]. cbn. repeat split.
Qed.

Lemma process_content_node_ids (state : KnowledgeIngestionState.t)
    (w : World) res w' :
  IngestionAgent.process_content state w = (Return res, w') ->
  IngestionAgent.nodes res
  = map (chunk_id
           (WorkflowState.workflow_id (KnowledgeIngestionState.base state)))
        (seq 0 (List.length
                  (split_text (KnowledgeIngestionState.content state)))).
Proof.
  rewrite process_content_loop. cbn zeta. unfold bind at 1.
  destruct (for_each _ _ _ w) as [[acc|e] w1] eqn:L; [|discriminate].
  unfold ret. intros [= <- <-].
  apply process_chunks_returned in L. destruct L as [Ids _].
  exact Ids.
Qed.


End ProcessContent.


Lemma chunk_metadata_unreserved (metadata : Dict) (source : option string)
    (n i : nat) (chunk k : string) :
  reserved_key k = false ->
  dict_lookup k (chunk_metadata metadata source n i chunk)
  = dict_lookup k metadata.
Proof.
  intros R. unfold reserved_key in R.
  apply orb_false_elim in R as [R R4].
  apply orb_false_elim in R as [R R3].
  apply orb_false_elim in R as [R1 R2].
  apply String.eqb_neq in R1, R2, R3, R4.
  unfold chunk_metadata.
  rewrite !dict_lookup_set_ne by congruence. reflexivity.
Qed.




(** ** Ingestion runs *)

Section IndexedInvariant.
Context {World State : Type}.
Variable g : StateGraph.t World State.
Variable Inv : string -> State -> Prop.

(** An invariant that depends on the step about to run: if every step
    takes a state fit for it to a state fit for its successor, the state
    an invocation ends with is fit for the terminal marker. *)
Lemma drive_indexed (fuel : nat) :
  (forall cur action s w s' w' next,
     String.eqb cur StateGraph.END = false ->
     StateGraph.assoc cur (StateGraph.nodes g) = Some action ->
     Inv cur s ->
     action s w = (Return s', w') ->
     StateGraph.successor g cur s' = Return next ->
     Inv next s') ->
  forall cur s w result,
    Inv cur s ->
    StateGraph.outcome (fst (StateGraph.drive fuel g cur s w))
    = Return result ->
    Inv StateGraph.END result.
Proof.
  intros Step. induction fuel as [|fuel IH]; intros cur s w result I;
    cbn [StateGraph.drive];
    destruct (String.eqb_spec cur StateGraph.END) as [E|E].
  - subst cur. intros [= <-]. exact I.
  - discriminate.
  - subst cur. intros [= <-]. exact I.
  - apply String.eqb_neq in E.
    destruct (StateGraph.assoc cur (StateGraph.nodes g)) as [action|] eqn:N;
      [|discriminate].
    destruct (action s w) as [[s'|e] w'] eqn:R; [|discriminate].
    destruct (StateGraph.successor g cur s') as [next|e] eqn:Sx;
      [|discriminate].
    pose proof (Step _ _ _ _ _ _ _ E N I R Sx) as I'.
    specialize (IH next s' w' result I').
    destruct (StateGraph.drive fuel g next s' w') as [r w''].
    exact IH.
Qed.

Lemma drive_step_outcome (fuel : nat) (cur next : string)
    (action : State -> M World State) (s s' : State) (w w' : World) :
  String.eqb cur StateGraph.END = false ->
  StateGraph.assoc cur (StateGraph.nodes g) = Some action ->
  action s w = (Return s', w') ->
  StateGraph.successor g cur s' = Return next ->
  StateGraph.outcome (fst (StateGraph.drive (S fuel) g cur s w))
  = StateGraph.outcome (fst (StateGraph.drive fuel g next s' w')).
Proof.
  intros E N R Sx. rewrite (drive_step_return g fuel cur next action s s' w w')
    by assumption.
  destruct (StateGraph.drive fuel g next s' w') as [r w'']. reflexivity.
Qed.

End IndexedInvariant.

Section IngestionSteps.
Context {World : Type} `{Services World}.

(** What each step of the ingestion graph returns, when it returns. *)
Lemma _validate_content_eq (s : KnowledgeIngestionState.t) (w : World) :
  KnowledgeWorkflow._validate_content s w
  = (Return
       (KnowledgeWorkflow.set_current_step "validation_complete"
          (KnowledgeIngestionState.with_validation_result
             (Some (IngestionAgent.validate_content s)) s)), w).
Proof. reflexivity. Qed.

Lemma _check_alignment_eq (s : KnowledgeIngestionState.t) (w : World) :
  KnowledgeWorkflow._check_alignment s w
  = (Return
       (KnowledgeWorkflow.set_current_step "alignment_checked"
          (KnowledgeIngestionState.with_alignment_result (Some no_alignment)
             s)), w).
Proof.
  unfold KnowledgeWorkflow._check_alignment, bind, lift, ret.
  rewrite analyze_alignment_on_ids. reflexivity.
Qed.

Lemma _detect_contradictions_eq (s : KnowledgeIngestionState.t) (w : World) :
  KnowledgeWorkflow._detect_contradictions s w
  = (Return
       (KnowledgeWorkflow.set_current_step "contradictions_checked"
          (KnowledgeIngestionState.with_contradiction_result
             (Some no_contradiction) s)), w).
Proof.
  unfold KnowledgeWorkflow._detect_contradictions, bind, lift, ret.
  rewrite detect_contradictions_on_ids. reflexivity.
Qed.

Lemma _process_content_inv (s : KnowledgeIngestionState.t) (w : World)
    s' w' :
  KnowledgeWorkflow._process_content s w = (Return s', w') ->
  exists res,
    IngestionAgent.process_content s w = (Return res, w')
    /\ s' = KnowledgeWorkflow.set_current_step "content_processed"
              (KnowledgeIngestionState.with_embeddings_data
                 (Some (IngestionAgent.embeddings res))
                 (KnowledgeIngestionState.with_nodes_created
                    (IngestionAgent.nodes res) s)).
Proof.
  unfold KnowledgeWorkflow._process_content, bind, ret.
  destruct (IngestionAgent.process_content s w) as [[res|e] w1];
    [|discriminate].
  intros [= <- <-]. exists res. split; reflexivity.
Qed.

Lemma _store_embeddings_inv (s : KnowledgeIngestionState.t) (w : World)
    s' w' :
  KnowledgeWorkflow._store_embeddings s w = (Return s', w') ->
  s' = KnowledgeWorkflow.set_current_step "embeddings_stored"
         (KnowledgeIngestionState.with_embeddings_stored (Some true) s).
Proof.
  unfold KnowledgeWorkflow._store_embeddings, bind, ret.
  destruct (for_each _ _ _ w) as [[u|e] w1]; [|discriminate].
  intros [= <- <-]. reflexivity.
Qed.

Lemma _update_graph_inv (s : KnowledgeIngestionState.t) (w : World) s' w' :
  KnowledgeWorkflow._update_graph s w = (Return s', w') ->
  KnowledgeIngestionState.nodes_created s = []
  /\ s' = KnowledgeWorkflow.set_current_step "graph_updated"
            (KnowledgeIngestionState.with_edges_created
               (map (fun r => KnowledgeEdge.from_id r +:+ "->" +:+
                               KnowledgeEdge.to_id r)
                  (match KnowledgeIngestionState.alignment_result s with
                   | Some alignment =>
                       AlignmentResult.new_relationships alignment
                   | None => []
                   end))
               (KnowledgeIngestionState.with_graph_updated true s)).
Proof.
  destruct (KnowledgeIngestionState.nodes_created s) as [|n rest] eqn:N.
  - intros R. split; [reflexivity|].
    unfold KnowledgeWorkflow._update_graph in R. rewrite N in R.
    cbn [for_each] in R. unfold bind, ret in R.
    destruct (for_each _ _ _ w) as [[u|e] w1]; [|discriminate].
    injection R as <- <-. reflexivity.
  - rewrite (_update_graph_raises s w n rest N). discriminate.
Qed.

Lemma _finalize_ingestion_inv (s : KnowledgeIngestionState.t) (w : World)
    s' w' :
  KnowledgeWorkflow._finalize_ingestion s w = (Return s', w') ->
  exists end_time,
    s' = KnowledgeIngestionState.with_base
           (WorkflowState.with_current_step "completed"
              (WorkflowState.with_end_time (Some end_time)
                 (WorkflowState.with_status "completed"
                    (KnowledgeIngestionState.base s))))
           s.
Proof.
  unfold KnowledgeWorkflow._finalize_ingestion, datetime_now, bind, ret.
  destruct (clock_now w) as [t w1]. intros [= <- <-]. exists t. reflexivity.
Qed.

End IngestionSteps.

Lemma validate_content_valid (s : KnowledgeIngestionState.t) :
  ~ too_short (KnowledgeIngestionState.content s) ->
  ~ too_few_words (KnowledgeIngestionState.content s) ->
  ValidationResult.is_valid (IngestionAgent.validate_content s) = true.
Proof.
  unfold too_short, too_few_words, IngestionAgent.validate_content.
  intros L W.
  destruct (Nat.ltb_spec
              (String.length (Py.strip (KnowledgeIngestionState.content s)))
              10); [contradiction|].
  destruct (Nat.ltb_spec
              (List.length (Py.split (KnowledgeIngestionState.content s)))
              5); [contradiction|].
  reflexivity.
Qed.

Lemma nothing_found_store (s : KnowledgeIngestionState.t) :
  nothing_found s -> KnowledgeWorkflow._should_store s = "store".
Proof.
  intros (_ & _ & [C|C]); unfold KnowledgeWorkflow._should_store;
    rewrite C; reflexivity.
Qed.

Section IngestionRuns.
Context {World : Type} `{Services World}.

Lemma ingestion_steps_find_nothing :
  steps_preserve (KnowledgeWorkflow._build_workflow (World := World))
    nothing_found nothing_found.
Proof.
  intros cur action s w s' w' next NE N (E & A & C) R Sx.
  assert (G : nothing_found s' ->
              at_step nothing_found nothing_found next s').
  { intros P. unfold at_step. destruct (String.eqb next StateGraph.END);
      exact P. }
  apply G. clear G Sx next.
  rewrite ingestion_nodes in N. graph_cases N.
  - rewrite _validate_content_eq in R. injection R as <- <-.
    repeat split; assumption.
  - apply _process_content_inv in R. destruct R as (res & _ & ->).
    repeat split; assumption.
  - rewrite _check_alignment_eq in R. injection R as <- <-.
    split; [exact E|]. split; [right; reflexivity | exact C].
  - rewrite _detect_contradictions_eq in R. injection R as <- <-.
    split; [exact E|]. split; [exact A | right; reflexivity].
  - apply _store_embeddings_inv in R. subst s'.
    repeat split; assumption.
  - apply _update_graph_inv in R. destruct R as [_ ->].
    split; [|split; [exact A | exact C]].
    cbn [KnowledgeWorkflow.set_current_step
         KnowledgeIngestionState.with_base
         KnowledgeIngestionState.with_edges_created
         KnowledgeIngestionState.edges_created].
    destruct A as [-> | ->]; reflexivity.
  - apply _finalize_ingestion_inv in R. destruct R as (t & ->).
    repeat split; assumption.
Qed.

(** X4. In every ingestion run, no state lists an edge, and the
    contradiction check of every state answers "store": on the id strings
    of [nodes_created] and the empty existing graph the alignment and
    contradiction agents find nothing, so no relationship is ever written
    and the "review" branch of the graph is never taken. *)
Theorem ingestion_finds_nothing (workflow_id content : string)
    (metadata : Dict) (source : option string) (w : World) :
  Forall (fun s => KnowledgeIngestionState.edges_created s = []
                   /\ KnowledgeWorkflow._should_store s = "store")
    (ingestion_states workflow_id content metadata source w).
Proof.
  assert (F : Forall nothing_found
                (ingestion_states workflow_id content metadata source w)).
  { unfold ingestion_states, KnowledgeWorkflow.run_traced.
    destruct (clock_now w) as [start w1].
    set (initial := KnowledgeWorkflow.initial_state _ _ _ _ _).
    assert (I : nothing_found initial) by (repeat split; left; reflexivity).
    pose proof (drive_states _ _ _ StateGraph.recursion_limit
                  (well_formed_total _ _ ingestion_well_formed)
                  ingestion_steps_find_nothing
                  (StateGraph.entry_point
                     (KnowledgeWorkflow._build_workflow (World := World)))
                  initial w1 I) as D.
    cbn zeta in D. unfold StateGraph.ainvoke.
    destruct (StateGraph.drive _ _ _ initial w1) as [r w2].
    cbn [fst] in D. destruct D as (inputs & final & Eq & Fi & O).
    assert (All : Forall nothing_found (initial :: StateGraph.produced r)).
    { rewrite Eq. apply Forall_app. split; [exact Fi|].
      constructor; [|constructor].
      destruct (StateGraph.outcome r); [apply O | exact O]. }
    destruct (StateGraph.outcome r) as [result|e].
    - destruct O as [-> O]. rewrite app_comm_cons. apply Forall_app.
      split; [exact All|]. constructor; [exact O | constructor].
    - destruct (clock_now w2) as [t w3]. rewrite app_comm_cons.
      apply Forall_app. split; [exact All|].
      constructor; [|constructor]. exact I. }
  eapply List.Forall_impl; [|exact F].
  intros s N. split; [apply N | apply nothing_found_store, N].
Qed.

Lemma ingestion_rejected (workflow_id content : string) (metadata : Dict)
    (source : option string) (w : World) :
  too_short content \/ too_few_words content ->
  WorkflowState.status
    (KnowledgeIngestionState.base
       (fst (KnowledgeWorkflow.run workflow_id content metadata source w)))
  = "running".
Proof.
  intros Bad. unfold KnowledgeWorkflow.run, KnowledgeWorkflow.run_traced.
  destruct (clock_now w) as [start w1].
  set (initial := KnowledgeWorkflow.initial_state _ _ _ _ _).
  unfold StateGraph.ainvoke, StateGraph.recursion_limit.
  erewrite (drive_step_return _ _ "validate_content" StateGraph.END);
    [ | reflexivity | rewrite ingestion_nodes; reflexivity
      | apply _validate_content_eq | ].
  - rewrite drive_end. reflexivity.
  - rewrite successor_validate_content.
    unfold KnowledgeWorkflow._should_process.
    cbn [KnowledgeWorkflow.set_current_step KnowledgeIngestionState.with_base
         KnowledgeIngestionState.with_validation_result
         KnowledgeIngestionState.validation_result].
    rewrite (validate_content_invalid initial Bad). reflexivity.
Qed.

Lemma _process_content_empty (s : KnowledgeIngestionState.t) (w : World) :
  split_text (KnowledgeIngestionState.content s) = [] ->
  KnowledgeWorkflow._process_content s w
  = (Return
       (KnowledgeWorkflow.set_current_step "content_processed"
          (KnowledgeIngestionState.with_embeddings_data (Some [])
             (KnowledgeIngestionState.with_nodes_created [] s))), w).
Proof.
  intros E. unfold KnowledgeWorkflow._process_content,
    IngestionAgent.process_content. rewrite E. reflexivity.
Qed.

Lemma ingestion_run_returned (workflow_id content : string)
    (metadata : Dict) (source : option string) (w : World) start w1 result :
  clock_now w = (start, w1) ->
  StateGraph.outcome
    (fst (StateGraph.drive StateGraph.recursion_limit
            KnowledgeWorkflow._build_workflow "validate_content"
            (KnowledgeWorkflow.initial_state workflow_id content metadata
               source start) w1))
  = Return result ->
  fst (KnowledgeWorkflow.run workflow_id content metadata source w) = result.
Proof.
  intros T O. unfold KnowledgeWorkflow.run, KnowledgeWorkflow.run_traced.
  rewrite T. unfold StateGraph.ainvoke.
  change (StateGraph.entry_point KnowledgeWorkflow._build_workflow)
    with "validate_content".
  destruct (StateGraph.drive _ _ _ _ w1) as [r w2]. cbn [fst] in O.
  rewrite O. reflexivity.
Qed.

Lemma ingestion_empty_completes (workflow_id content : string)
    (metadata : Dict) (source : option string) (w : World) :
  ~ too_short content -> ~ too_few_words content ->
  split_text content = [] ->
  let result :=
    fst (KnowledgeWorkflow.run workflow_id content metadata source w) in
  WorkflowState.status (KnowledgeIngestionState.base result) = "completed"
  /\ KnowledgeIngestionState.nodes_created result = []
  /\ KnowledgeIngestionState.graph_updated result = true.
Proof.
  intros L W E. cbn zeta.
  destruct (clock_now w) as [start w1] eqn:T.
  destruct (clock_now w1) as [t w2] eqn:T1.
  pose (g := KnowledgeWorkflow._build_workflow (World := World)).
  pose (s0 := KnowledgeWorkflow.initial_state workflow_id content metadata
                source start).
  pose (s1 := KnowledgeWorkflow.set_current_step "validation_complete"
                (KnowledgeIngestionState.with_validation_result
                   (Some (IngestionAgent.validate_content s0)) s0)).
  pose (s2 := KnowledgeWorkflow.set_current_step "content_processed"
                (KnowledgeIngestionState.with_embeddings_data (Some [])
                   (KnowledgeIngestionState.with_nodes_created [] s1))).
  pose (s3 := KnowledgeWorkflow.set_current_step "alignment_checked"
                (KnowledgeIngestionState.with_alignment_result
                   (Some no_alignment) s2)).
  pose (s4 := KnowledgeWorkflow.set_current_step "contradictions_checked"
                (KnowledgeIngestionState.with_contradiction_result
                   (Some no_contradiction) s3)).
  pose (s5 := KnowledgeWorkflow.set_current_step "embeddings_stored"
                (KnowledgeIngestionState.with_embeddings_stored (Some true)
                   s4)).
  pose (s6 := KnowledgeWorkflow.set_current_step "graph_updated"
                (KnowledgeIngestionState.with_edges_created []
                   (KnowledgeIngestionState.with_graph_updated true s5))).
  pose (s7 := KnowledgeIngestionState.with_base
                (WorkflowState.with_current_step "completed"
                   (WorkflowState.with_end_time (Some t)
                      (WorkflowState.with_status "completed"
                         (KnowledgeIngestionState.base s6))))
                s6).
  assert (N : forall name action,
            StateGraph.assoc name
              [ ("validate_content", KnowledgeWorkflow._validate_content);
                ("process_content", KnowledgeWorkflow._process_content);
                ("check_alignment", KnowledgeWorkflow._check_alignment);
                ("detect_contradictions",
                 KnowledgeWorkflow._detect_contradictions);
                ("store_embeddings", KnowledgeWorkflow._store_embeddings);
                ("update_graph", KnowledgeWorkflow._update_graph);
                ("finalize_ingestion",
                 KnowledgeWorkflow._finalize_ingestion) ]
            = Some action ->
            StateGraph.assoc name (StateGraph.nodes g) = Some action).
  { intros name action A. unfold g. rewrite ingestion_nodes. exact A. }
  assert (O : StateGraph.outcome
                (fst (StateGraph.drive StateGraph.recursion_limit g
                        "validate_content" s0 w1)) = Return s7).
  { unfold StateGraph.recursion_limit.
    rewrite (drive_step_outcome g _ "validate_content" "process_content"
               KnowledgeWorkflow._validate_content s0 s1 w1 w1);
      [ | reflexivity | apply N; reflexivity | apply _validate_content_eq | ].
    2:{ unfold g. rewrite successor_validate_content.
        unfold KnowledgeWorkflow._should_process.
        replace (KnowledgeIngestionState.validation_result s1)
          with (Some (IngestionAgent.validate_content s0)) by reflexivity.
        rewrite (validate_content_valid s0 L W). reflexivity. }
    rewrite (drive_step_outcome g _ "process_content" "check_alignment"
               KnowledgeWorkflow._process_content s1 s2 w1 w1);
      [ | reflexivity | apply N; reflexivity
        | apply _process_content_empty; exact E | reflexivity ].
    rewrite (drive_step_outcome g _ "check_alignment" "detect_contradictions"
               KnowledgeWorkflow._check_alignment s2 s3 w1 w1);
      [ | reflexivity | apply N; reflexivity
        | apply _check_alignment_eq | reflexivity ].
    rewrite (drive_step_outcome g _ "detect_contradictions"
               "store_embeddings"
               KnowledgeWorkflow._detect_contradictions s3 s4 w1 w1);
      [ | reflexivity | apply N; reflexivity
        | apply _detect_contradictions_eq
        | unfold g; rewrite successor_detect_contradictions; reflexivity ].
    rewrite (drive_step_outcome g _ "store_embeddings" "update_graph"
               KnowledgeWorkflow._store_embeddings s4 s5 w1 w1);
      [ | reflexivity | apply N; reflexivity | reflexivity | reflexivity ].
    rewrite (drive_step_outcome g _ "update_graph" "finalize_ingestion"
               KnowledgeWorkflow._update_graph s5 s6 w1 w1);
      [ | reflexivity | apply N; reflexivity | reflexivity | reflexivity ].
    rewrite (drive_step_outcome g _ "finalize_ingestion" StateGraph.END
               KnowledgeWorkflow._finalize_ingestion s6 s7 w1 w2);
      [ | reflexivity | apply N; reflexivity
        | unfold KnowledgeWorkflow._finalize_ingestion, datetime_now, bind,
            ret; rewrite T1; reflexivity
        | reflexivity ].
    rewrite (drive_end g _ s7 w2). reflexivity. }
  rewrite (ingestion_run_returned workflow_id content metadata source w
             start w1 s7 T O).
  repeat split.
Qed.

Section WithChunks.
Variable content : string.
Hypothesis long_enough : ~ too_short content.
Hypothesis enough_words : ~ too_few_words content.
Hypothesis some_chunk : split_text content <> [].

Lemma with_chunks_steps cur action s w s' w' next :
  String.eqb cur StateGraph.END = false ->
  StateGraph.assoc cur
    (StateGraph.nodes (KnowledgeWorkflow._build_workflow (World := World)))
  = Some action ->
  with_chunks content cur s ->
  action s w = (Return s', w') ->
  StateGraph.successor KnowledgeWorkflow._build_workflow cur s'
  = Return next ->
  with_chunks content next s'.
Proof.
  intros NE N I R Sx. rewrite ingestion_nodes in N. graph_cases N.
  - change (KnowledgeIngestionState.content s = content) in I.
    rewrite _validate_content_eq in R. injection R as <- <-.
    rewrite successor_validate_content in Sx.
    unfold KnowledgeWorkflow._should_process in Sx.
    cbn [KnowledgeWorkflow.set_current_step
         KnowledgeIngestionState.with_base
         KnowledgeIngestionState.with_validation_result
         KnowledgeIngestionState.validation_result] in Sx.
    rewrite validate_content_valid in Sx by (rewrite I; assumption).
    injection Sx as <-. exact I.
  - change (KnowledgeIngestionState.content s = content) in I.
    apply _process_content_inv in R. destruct R as (res & P & ->).
    injection Sx as <-.
    change (IngestionAgent.nodes res <> []).
    rewrite (process_content_node_ids _ _ _ _ P), I.
    destruct (split_text content); [contradiction | discriminate].
  - change (KnowledgeIngestionState.nodes_created s <> []) in I.
    rewrite _check_alignment_eq in R. injection R as <- <-.
    injection Sx as <-. exact I.
  - change (KnowledgeIngestionState.nodes_created s <> []) in I.
    rewrite _detect_contradictions_eq in R. injection R as <- <-.
    rewrite successor_detect_contradictions in Sx.
    injection Sx as <-. exact I.
  - change (KnowledgeIngestionState.nodes_created s <> []) in I.
    apply _store_embeddings_inv in R. subst s'.
    injection Sx as <-. exact I.
  - change (KnowledgeIngestionState.nodes_created s <> []) in I.
    apply _update_graph_inv in R. destruct R as [E _]. contradiction.
  - exact (False_ind _ I).
Qed.

Lemma ingestion_chunks_fail (workflow_id : string) (metadata : Dict)
    (source : option string) (w : World) :
  let result :=
    fst (KnowledgeWorkflow.run workflow_id content metadata source w) in
  WorkflowState.status (KnowledgeIngestionState.base result) = "failed"
  /\ KnowledgeIngestionState.nodes_created result = []
  /\ KnowledgeIngestionState.graph_updated result = false.
Proof.
  unfold KnowledgeWorkflow.run, KnowledgeWorkflow.run_traced.
  destruct (clock_now w) as [start w1].
  set (initial := KnowledgeWorkflow.initial_state _ _ _ _ _).
  pose proof (drive_indexed KnowledgeWorkflow._build_workflow
                (with_chunks content) StateGraph.recursion_limit
                with_chunks_steps "validate_content" initial w1) as D.
  unfold StateGraph.ainvoke.
  change (StateGraph.entry_point KnowledgeWorkflow._build_workflow)
    with "validate_content".
  destruct (StateGraph.drive _ _ _ initial w1) as [r w2].
  cbn [fst] in D.
  destruct (StateGraph.outcome r) as [result|e].
  - exfalso. apply (D result); reflexivity.
  - destruct (clock_now w2) as [t w3]. cbn. auto.
Qed.

End WithChunks.

(** X5. How an ingestion run ends is decided by the content alone. The
    returned status is "running" exactly when the content fails
    validation; "completed" exactly when it passes and the splitter
    yields no chunk; "failed" exactly when it passes and the splitter
    yields at least one chunk, for then [_update_graph] subscripts an id
    string, unless an earlier step has raised. So a completed run has
    created no node. *)
Theorem ingestion_outcome (workflow_id content : string) (metadata : Dict)
    (source : option string) (w : World) :
  let result :=
    fst (KnowledgeWorkflow.run workflow_id content metadata source w) in
  let status :=
    WorkflowState.status (KnowledgeIngestionState.base result) in
  (status = "running" <-> too_short content \/ too_few_words content)
  /\ (status = "completed"
      <-> ~ too_short content /\ ~ too_few_words content
          /\ split_text content = [])
  /\ (status = "failed"
      <-> ~ too_short content /\ ~ too_few_words content
          /\ split_text content <> [])
  /\ (status = "completed" ->
      KnowledgeIngestionState.nodes_created result = []
      /\ KnowledgeIngestionState.graph_updated result = true).
Proof.
  intros result status. subst status result.
  assert (DS : too_short content \/ ~ too_short content).
  { unfold too_short. lia. }
  assert (DW : too_few_words content \/ ~ too_few_words content).
  { unfold too_few_words. lia. }
  assert (DC : split_text content = [] \/ split_text content <> []).
  { destruct (split_text content); [left; reflexivity | right; discriminate]. }
  destruct DS as [S|S]; [|destruct DW as [W|W]].
  1,2: pose proof (ingestion_rejected workflow_id content metadata source w)
         as R.
  - rewrite R by (left; exact S).
    repeat split; try discriminate; try tauto.
  - rewrite R by (right; exact W).
    repeat split; try discriminate; try tauto.
  - destruct DC as [C|C].
    + destruct (ingestion_empty_completes workflow_id content metadata
                  source w S W C) as (St & No & Gr).
      rewrite St. repeat split; try discriminate; try tauto.
    + destruct (ingestion_chunks_fail content S W C workflow_id metadata
                  source w) as (St & No & Gr).
      rewrite St. repeat split; try discriminate; try tauto.
Qed.

End IngestionRuns.

(** ** Ingestion with working services *)

Section WorkingServices.
Context {World : Type} `{Services World}.

Lemma for_each_total {A S} (l : list A) (body : A -> S -> M World S) :
  (forall x s w, exists s' w', body x s w = (Return s', w')) ->
  forall s w, exists s' w', for_each l body s w = (Return s', w').
Proof.
  intros T. induction l as [|x l IH]; intros s w; cbn [for_each].
  - exists s, w. reflexivity.
  - unfold bind. destruct (T x s w) as (s1 & w1 & ->). apply IH.
Qed.

Lemma drive_step_raise_outcome (g : StateGraph.t World
                                      KnowledgeIngestionState.t)
    (fuel : nat) (cur : string) action s e w w' :
  String.eqb cur StateGraph.END = false ->
  StateGraph.assoc cur (StateGraph.nodes g) = Some action ->
  action s w = (Raise e, w') ->
  StateGraph.outcome (fst (StateGraph.drive (S fuel) g cur s w)) = Raise e.
Proof.
  intros E N R. rewrite (drive_step_raise g fuel cur action s e w w' E N R).
  reflexivity.
Qed.

Lemma ingestion_run_raised (workflow_id content : string)
    (metadata : Dict) (source : option string) (w : World) start w1 e :
  clock_now w = (start, w1) ->
  StateGraph.outcome
    (fst (StateGraph.drive StateGraph.recursion_limit
            KnowledgeWorkflow._build_workflow "validate_content"
            (KnowledgeWorkflow.initial_state workflow_id content metadata
               source start) w1))
  = Raise e ->
  exists t,
    fst (KnowledgeWorkflow.run workflow_id content metadata source w)
    = KnowledgeWorkflow.mark_failed e t
        (KnowledgeWorkflow.initial_state workflow_id content metadata
           source start).
Proof.
  intros T O. unfold KnowledgeWorkflow.run, KnowledgeWorkflow.run_traced.
  rewrite T. unfold StateGraph.ainvoke.
  change (StateGraph.entry_point KnowledgeWorkflow._build_workflow)
    with "validate_content".
  destruct (StateGraph.drive _ _ _ _ w1) as [r w2]. cbn [fst] in O.
  rewrite O. destruct (clock_now w2) as [t w3]. exists t. reflexivity.
Qed.

Hypothesis encode_answers :
  forall chunk w, exists v w', encode chunk w = (Return v, w').
Hypothesis upsert_answers :
  forall node_id v metadata w,
    exists w', qdrant_upsert node_id v metadata w = (Return tt, w').

Lemma process_content_answers (s : KnowledgeIngestionState.t) (w : World) :
  exists res w', IngestionAgent.process_content s w = (Return res, w').
Proof.
  rewrite process_content_loop. cbn zeta. unfold bind at 1.
  destruct (for_each_total
              (enumerate (split_text (KnowledgeIngestionState.content s)))
              (process_chunk
                 (WorkflowState.workflow_id (KnowledgeIngestionState.base s))
                 (KnowledgeIngestionState.metadata s)
                 (KnowledgeIngestionState.source s)
                 (split_text (KnowledgeIngestionState.content s))))
    with (s := (@nil string, @nil (string * Vec * KnowledgeNode.t)))
         (w := w) as (acc & w1 & ->).
  - intros [i chunk] acc w0. unfold process_chunk, bind, ret, datetime_now.
    cbn [fst snd]. destruct (encode_answers chunk w0) as (v & w1 & ->).
    destruct (clock_now w1) as [created w2].
    destruct (clock_now w2) as [updated w3]. eexists. eexists. reflexivity.
  - eexists. eexists. reflexivity.
Qed.

Lemma _store_embeddings_answers (s : KnowledgeIngestionState.t) (w : World) :
  exists w',
    KnowledgeWorkflow._store_embeddings s w
    = (Return (KnowledgeWorkflow.set_current_step "embeddings_stored"
                 (KnowledgeIngestionState.with_embeddings_stored (Some true)
                    s)), w').
Proof.
  unfold KnowledgeWorkflow._store_embeddings, bind at 1.
  destruct (for_each_total
              (default [] (KnowledgeIngestionState.embeddings_data s))
              (fun (item : string * Vec * KnowledgeNode.t) (_ : unit) =>
                 let '(node_id, embedding, node_data) := item in
                 store_embedding node_id embedding
                   (KnowledgeNode.metadata node_data)))
    with (s := tt) (w := w) as ([] & w1 & ->).
  - intros [[node_id v] node] [] w0. unfold store_embedding, try_except.
    destruct (upsert_answers node_id v (KnowledgeNode.metadata node) w0)
      as (w1 & ->). eexists. eexists. reflexivity.
  - exists w1. reflexivity.
Qed.

(** X18. With an embedding model and a vector store that always answer,
    every ingestion of content that passes validation and that the
    splitter cuts into at least one chunk fails in [update_graph], after
    the embeddings were stored: the step subscripts an entry of
    [nodes_created], an id string, with ["id"]. The run returns status
    "failed" with the TypeError's text as error, and lists no node. *)
Theorem valid_ingestion_raises_type_error (workflow_id content : string)
    (metadata : Dict) (source : option string) (w : World) :
  ~ too_short content -> ~ too_few_words content ->
  split_text content <> [] ->
  let result :=
    fst (KnowledgeWorkflow.run workflow_id content metadata source w) in
  WorkflowState.status (KnowledgeIngestionState.base result) = "failed"
  /\ WorkflowState.error (KnowledgeIngestionState.base result)
     = Some "string indices must be integers, not 'str'"
  /\ KnowledgeIngestionState.nodes_created result = []
  /\ KnowledgeIngestionState.embeddings_stored result = None.
Proof.
  intros L W C. cbn zeta.
  destruct (clock_now w) as [start w1] eqn:T.
  pose (g := KnowledgeWorkflow._build_workflow (World := World)).
  pose (s0 := KnowledgeWorkflow.initial_state workflow_id content metadata
                source start).
  pose (s1 := KnowledgeWorkflow.set_current_step "validation_complete"
                (KnowledgeIngestionState.with_validation_result
                   (Some (IngestionAgent.validate_content s0)) s0)).
  destruct (process_content_answers s1 w1) as (res & w2 & P).
  pose (s2 := KnowledgeWorkflow.set_current_step "content_processed"
                (KnowledgeIngestionState.with_embeddings_data
                   (Some (IngestionAgent.embeddings res))
                   (KnowledgeIngestionState.with_nodes_created
                      (IngestionAgent.nodes res) s1))).
  pose (s3 := KnowledgeWorkflow.set_current_step "alignment_checked"
                (KnowledgeIngestionState.with_alignment_result
                   (Some no_alignment) s2)).
  pose (s4 := KnowledgeWorkflow.set_current_step "contradictions_checked"
                (KnowledgeIngestionState.with_contradiction_result
                   (Some no_contradiction) s3)).
  destruct (_store_embeddings_answers s4 w2) as (w3 & St).
  pose (s5 := KnowledgeWorkflow.set_current_step "embeddings_stored"
                (KnowledgeIngestionState.with_embeddings_stored (Some true)
                   s4)).
  assert (Nodes : exists n rest,
            KnowledgeIngestionState.nodes_created s5 = n :: rest).
  { change (KnowledgeIngestionState.nodes_created s5)
      with (IngestionAgent.nodes res).
    rewrite (process_content_node_ids _ _ _ _ P).
    change (KnowledgeIngestionState.content s1) with content.
    destruct (split_text content) as [|c cs]; [contradiction|].
    cbn [List.length seq map]. eexists. eexists. reflexivity. }
  destruct Nodes as (n & rest & Nodes).
  assert (N : forall name action,
            StateGraph.assoc name
              [ ("validate_content", KnowledgeWorkflow._validate_content);
                ("process_content", KnowledgeWorkflow._process_content);
                ("check_alignment", KnowledgeWorkflow._check_alignment);
                ("detect_contradictions",
                 KnowledgeWorkflow._detect_contradictions);
                ("store_embeddings", KnowledgeWorkflow._store_embeddings);
                ("update_graph", KnowledgeWorkflow._update_graph);
                ("finalize_ingestion",
                 KnowledgeWorkflow._finalize_ingestion) ]
            = Some action ->
            StateGraph.assoc name (StateGraph.nodes g) = Some action).
  { intros name action A. unfold g. rewrite ingestion_nodes. exact A. }
  assert (O : StateGraph.outcome
                (fst (StateGraph.drive StateGraph.recursion_limit g
                        "validate_content" s0 w1))
              = Raise str_index_error).
  { unfold StateGraph.recursion_limit.
    rewrite (drive_step_outcome g _ "validate_content" "process_content"
               KnowledgeWorkflow._validate_content s0 s1 w1 w1);
      [ | reflexivity | apply N; reflexivity | apply _validate_content_eq | ].
    2:{ unfold g. rewrite successor_validate_content.
        unfold KnowledgeWorkflow._should_process.
        replace (KnowledgeIngestionState.validation_result s1)
          with (Some (IngestionAgent.validate_content s0)) by reflexivity.
        rewrite (validate_content_valid s0 L W). reflexivity. }
    rewrite (drive_step_outcome g _ "process_content" "check_alignment"
               KnowledgeWorkflow._process_content s1 s2 w1 w2);
      [ | reflexivity | apply N; reflexivity
        | unfold KnowledgeWorkflow._process_content, bind, ret; rewrite P;
          reflexivity
        | reflexivity ].
    rewrite (drive_step_outcome g _ "check_alignment" "detect_contradictions"
               KnowledgeWorkflow._check_alignment s2 s3 w2 w2);
      [ | reflexivity | apply N; reflexivity
        | apply _check_alignment_eq | reflexivity ].
    rewrite (drive_step_outcome g _ "detect_contradictions"
               "store_embeddings"
               KnowledgeWorkflow._detect_contradictions s3 s4 w2 w2);
      [ | reflexivity | apply N; reflexivity
        | apply _detect_contradictions_eq
        | unfold g; rewrite successor_detect_contradictions; reflexivity ].
    rewrite (drive_step_outcome g _ "store_embeddings" "update_graph"
               KnowledgeWorkflow._store_embeddings s4 s5 w2 w3);
      [ | reflexivity | apply N; reflexivity | exact St | reflexivity ].
    apply (drive_step_raise_outcome g _ "update_graph"
             KnowledgeWorkflow._update_graph s5 str_index_error w3 w3);
      [ reflexivity | apply N; reflexivity
        | apply (_update_graph_raises s5 w3 n rest Nodes) ]. }
  destruct (ingestion_run_raised workflow_id content metadata source w
              start w1 str_index_error T O) as (t & ->).
  repeat split.
Qed.

End WorkingServices.

Lemma type_error_witness :
  let result :=
    fst (KnowledgeWorkflow.run (H := sample_services true [] [])
           "wf" sample_content [] None 0%nat) in
  WorkflowState.status (KnowledgeIngestionState.base result) = "failed"
  /\ WorkflowState.error (KnowledgeIngestionState.base result)
     = Some "string indices must be integers, not 'str'".
Proof.
  intros result.
  destruct (valid_ingestion_raises_type_error
              (H := sample_services true [] [])
              (fun chunk w => ex_intro _ [0.5%Q] (ex_intro _ w eq_refl))
              (fun node_id v metadata w => ex_intro _ w eq_refl)
              "wf" sample_content [] None 0%nat)
    as (St & Er & _).
  - vm_compute. lia.
  - vm_compute. lia.
  - discriminate.
  - split; [exact St | exact Er].
Defined.

(** ** Reasoning runs *)

Section ReasoningSteps.
Context {World : Type} `{Services World}.

(** What each step of the reasoning graph returns, when it returns. *)
Lemma _analyze_query_inv (s : ReasoningWorkflowState.t) (w : World) s' w' :
  ReasoningWorkflow._analyze_query s w = (Return s', w') ->
  exists analysis_text,
    s' = ReasoningWorkflow.set_current_step "query_analyzed"
           (ReasoningWorkflowState.with_query_analysis (Some analysis_text)
              s).
Proof.
  unfold ReasoningWorkflow._analyze_query, bind, ret.
  destruct (llm_ainvoke _ w) as [[text|e] w1]; [|discriminate].
  intros [= <- <-]. exists text. reflexivity.
Qed.

Lemma _retrieve_knowledge_inv (s : ReasoningWorkflowState.t) (w : World)
    s' w' :
  ReasoningWorkflow._retrieve_knowledge s w = (Return s', w') ->
  exists vector_results graph_results,
    s' = ReasoningWorkflow.set_current_step "knowledge_retrieved"
           (ReasoningWorkflowState.with_graph_results (Some graph_results)
              (ReasoningWorkflowState.with_vector_results
                 (Some vector_results)
                 (ReasoningWorkflowState.with_retrieved_nodes
                    (ReasoningWorkflow._combine_search_results
                       vector_results graph_results) s))).
Proof.
  unfold ReasoningWorkflow._retrieve_knowledge, bind, ret.
  destruct (encode _ w) as [[v|e] w1]; [|discriminate].
  destruct (search_similar v 10 w1) as [[vs|e] w2]; [|discriminate].
  destruct (search_nodes _ 5 w2) as [[gs|e] w3]; [|discriminate].
  intros [= <- <-]. exists vs, gs. reflexivity.
Qed.

Lemma _check_contradictions_inv (s : ReasoningWorkflowState.t) (w : World)
    s' w' :
  ReasoningWorkflow._check_contradictions s w = (Return s', w') ->
  exists r,
    ContradictionAnalysis.conflicting_nodes r
    = map (fun ne => KnowledgeNode.id (fst ne))
        (conflicting_pairs (ReasoningWorkflowState.retrieved_nodes s)
           (ReasoningWorkflowState.retrieved_nodes s))
    /\ s' = ReasoningWorkflow.set_current_step "contradictions_checked"
              (ReasoningWorkflowState.with_contradiction_analysis (Some r)
                 (ReasoningWorkflowState.with_contradictions_found
                    (ContradictionAnalysis.conflicting_nodes r) s)).
Proof.
  unfold ReasoningWorkflow._check_contradictions, bind, ret, lift.
  destruct (detect_contradictions_nodes
              (ReasoningWorkflowState.retrieved_nodes s)
              {| ExistingGraph.nodes :=
                   Some (ReasoningWorkflowState.retrieved_nodes s);
                 ExistingGraph.similar_nodes := None |}) as (r & -> & C).
  intros [= <- <-]. exists r. split; [exact C | reflexivity].
Qed.

Lemma _generate_reasoning_inv (s : ReasoningWorkflowState.t) (w : World)
    s' w' :
  ReasoningWorkflow._generate_reasoning s w = (Return s', w') ->
  exists reasoning_text,
    s' = ReasoningWorkflow.set_current_step "reasoning_generated"
           (ReasoningWorkflowState.with_reasoning_path
              (map KnowledgeNode.id
                 (firstn 3 (ReasoningWorkflowState.retrieved_nodes s)))
              (ReasoningWorkflowState.with_reasoning_text
                 (Some reasoning_text) s)).
Proof.
  unfold ReasoningWorkflow._generate_reasoning, bind, ret.
  destruct (llm_ainvoke _ w) as [[text|e] w1]; [|discriminate].
  intros [= <- <-]. exists text. reflexivity.
Qed.

Lemma _identify_gaps_inv (s : ReasoningWorkflowState.t) (w : World) s' w' :
  ReasoningWorkflow._identify_gaps s w = (Return s', w') ->
  exists gap_analysis,
    s' = ReasoningWorkflow.set_current_step "gaps_identified"
           (ReasoningWorkflowState.with_gap_analysis (Some gap_analysis) s).
Proof.
  unfold ReasoningWorkflow._identify_gaps, bind, ret, lift.
  destruct (ResearchAgent.identify_gaps _ _) as [g|e]; [|discriminate].
  intros [= <- <-]. exists g. reflexivity.
Qed.

Lemma _formulate_answer_inv (s : ReasoningWorkflowState.t) (w : World)
    s' w' :
  ReasoningWorkflow._formulate_answer s w = (Return s', w') ->
  exists answer_text confidence,
    In confidence [0.5%Q; 0.9%Q; 0.8%Q]
    /\ s' = ReasoningWorkflow.set_current_step "answer_formulated"
              (ReasoningWorkflowState.with_confidence confidence
                 (ReasoningWorkflowState.with_answer (Some answer_text) s)).
Proof.
  unfold ReasoningWorkflow._formulate_answer, bind, ret.
  destruct (llm_ainvoke _ w) as [[text|e] w1]; [|discriminate].
  intros [= <- <-]. exists text. eexists. split; [|reflexivity].
  destruct (Py.contains "low confidence" _); [left; reflexivity|].
  destruct (Py.contains "high confidence" _);
    [right; left; reflexivity | right; right; left; reflexivity].
Qed.

Lemma _finalize_reasoning_inv (s : ReasoningWorkflowState.t) (w : World)
    s' w' :
  ReasoningWorkflow._finalize_reasoning s w = (Return s', w') ->
  exists end_time,
    s' = ReasoningWorkflowState.with_base
           (WorkflowState.with_current_step "completed"
              (WorkflowState.with_end_time (Some end_time)
                 (WorkflowState.with_status "completed"
                    (ReasoningWorkflowState.base s))))
           s.
Proof.
  unfold ReasoningWorkflow._finalize_reasoning, datetime_now, bind, ret.
  destruct (clock_now w) as [t w1]. intros [= <- <-]. exists t. reflexivity.
Qed.


Lemma reasoning_at_steps cur action s w s' w' next :
  String.eqb cur StateGraph.END = false ->
  StateGraph.assoc cur
    (StateGraph.nodes (ReasoningWorkflow._build_workflow (World := World)))
  = Some action ->
  reasoning_at cur s ->
  action s w = (Return s', w') ->
  StateGraph.successor ReasoningWorkflow._build_workflow cur s'
  = Return next ->
  reasoning_at next s'.
Proof.
  intros NE N I R Sx. rewrite reasoning_nodes in N. graph_cases N.
  - change (unanswered s) in I.
    apply _analyze_query_inv in R. destruct R as (text & ->).
    injection Sx as <-. exact I.
  - change (unanswered s) in I.
    apply _retrieve_knowledge_inv in R. destruct R as (vs & gs & ->).
    injection Sx as <-. exact I.
  - change (unanswered s) in I.
    apply _check_contradictions_inv in R. destruct R as (r & C & ->).
    rewrite successor_check_contradictions in Sx.
    unfold ReasoningWorkflow._should_continue_reasoning in Sx.
    cbn [ReasoningWorkflow.set_current_step
         ReasoningWorkflowState.with_base
         ReasoningWorkflowState.with_contradiction_analysis
         ReasoningWorkflowState.with_contradictions_found
         ReasoningWorkflowState.contradictions_found] in Sx.
    destruct (Nat.ltb_spec 2
                (List.length (ContradictionAnalysis.conflicting_nodes r)))
      as [Many|Few]; injection Sx as <-.
    + split; [exact C|]. left. split; [exact I | exact Many].
    + split; [exact C|]. split; [exact Few | exact I].
  - destruct I as (C & Few & (A & P & Q)).
    apply _generate_reasoning_inv in R. destruct R as (text & ->).
    injection Sx as <-. split; [exact C|]. split; [exact Few | reflexivity].
  - destruct I as (C & Few & P).
    apply _identify_gaps_inv in R. destruct R as (g & ->).
    injection Sx as <-. split; [exact C|]. split; [exact Few | exact P].
  - destruct I as (C & Few & P).
    apply _formulate_answer_inv in R. destruct R as (text & q & Q & ->).
    injection Sx as <-. split; [exact C|]. right.
    split; [discriminate|]. split; [exact Q|]. split; [exact P | exact Few].
  - destruct I as (C & D).
    apply _finalize_reasoning_inv in R. destruct R as (t & ->).
    injection Sx as <-.
    split; [split; [reflexivity | discriminate]|].
    split; [exact C | exact D].
Qed.

(** X6. A reasoning run never returns a state that is still running:
    the status is "completed" or "failed" and the end time is set. A
    completed run lists in [contradictions_found] the first node's id of
    every conflicting pair among the retrieved nodes, and it either
    stopped with more than two of them, without an answer, with an empty
    reasoning path and confidence 0.0, or it has at most two, an answer,
    confidence 0.5, 0.9 or 0.8, and the ids of the first three retrieved
    nodes as reasoning path. *)
Theorem reasoning_outcome (workflow_id query : string) (context : Dict)
    (w : World) :
  let result := fst (ReasoningWorkflow.run workflow_id query context w) in
  let base := ReasoningWorkflowState.base result in
  let retrieved := ReasoningWorkflowState.retrieved_nodes result in
  let found := ReasoningWorkflowState.contradictions_found result in
  (WorkflowState.status base = "completed"
   \/ WorkflowState.status base = "failed")
  /\ WorkflowState.end_time base <> None
  /\ (WorkflowState.status base = "completed" ->
      found = map (fun ne => KnowledgeNode.id (fst ne))
                (conflicting_pairs retrieved retrieved)
      /\ (ReasoningWorkflowState.answer result = None
          <-> (2 < List.length found)%nat)
      /\ (ReasoningWorkflowState.answer result = None ->
          ReasoningWorkflowState.reasoning_path result = []
          /\ ReasoningWorkflowState.confidence result = 0.0%Q)
      /\ (ReasoningWorkflowState.answer result <> None ->
          ReasoningWorkflowState.reasoning_path result
          = map KnowledgeNode.id (firstn 3 retrieved)
          /\ In (ReasoningWorkflowState.confidence result)
               [0.5%Q; 0.9%Q; 0.8%Q])).
Proof.
  cbn zeta. unfold ReasoningWorkflow.run, ReasoningWorkflow.run_traced.
  destruct (clock_now w) as [start w1].
  set (initial := ReasoningWorkflow.initial_state _ _ _ _).
  pose proof (drive_indexed ReasoningWorkflow._build_workflow reasoning_at
                StateGraph.recursion_limit reasoning_at_steps
                "analyze_query" initial w1) as D.
  unfold StateGraph.ainvoke.
  change (StateGraph.entry_point ReasoningWorkflow._build_workflow)
    with "analyze_query".
  destruct (StateGraph.drive _ _ _ initial w1) as [r w2].
  cbn [fst] in D.
  destruct (StateGraph.outcome r) as [result|e].
  - destruct (D result) as ((St & En) & C & Cases);
      [repeat split | reflexivity|].
    cbn [fst]. split; [left; exact St|]. split; [exact En|]. intros _.
    split; [exact C|].
    destruct Cases as [((A & P & Q) & Many) | (A & Q & P & Few)].
    + split; [split; auto|]. split; [auto | contradiction].
    + unfold few_contradictions in Few.
      split; [split; [contradiction | lia]|].
      split; [contradiction | auto].
  - destruct (clock_now w2) as [t w3]. cbn.
    split; [right; reflexivity|]. split; [discriminate|]. discriminate.
Qed.

End ReasoningSteps.

(** ** The vector store is down *)

Lemma assoc_in {V} (k : string) (v : V) (l : list (string * V)) :
  StateGraph.assoc k l = Some v -> In (k, v) l.
Proof.
  induction l as [|[k' v'] l IH]; cbn [StateGraph.assoc]; [discriminate|].
  destruct (String.eqb_spec k' k) as [->|N].
  - intros [= ->]. left. reflexivity.
  - intros A. right. apply IH, A.
Qed.

Lemma in_assoc_nodup {V} (k : string) (v : V) (l : list (string * V)) :
  NoDup (map fst l) -> In (k, v) l -> StateGraph.assoc k l = Some v.
Proof.
  induction l as [|[k' v'] l IH]; cbn [map fst StateGraph.assoc In];
    [contradiction|].
  intros ND I. apply NoDup_cons in ND. destruct ND as [Nin ND].
  destruct I as [[= -> ->] | I].
  - rewrite String.eqb_refl. reflexivity.
  - destruct (String.eqb_spec k' k) as [->|N]; [|apply IH; assumption].
    exfalso. apply Nin. apply list_elem_of_In.
    apply in_map_iff. exists (k, v). split; [reflexivity | exact I].
Qed.

Lemma graph_only_entry (rows : list GraphHit.t) (k : string)
    (n : KnowledgeNode.t) :
  In (k, n) (fold_left ReasoningWorkflow.add_graph_hit rows []) ->
  KnowledgeNode.id n <> ""
  /\ exists g,
       In g rows
       /\ GraphNode.id (GraphHit.node g) = Some (KnowledgeNode.id n)
       /\ n = ReasoningWorkflow.node_of_graph_hit (KnowledgeNode.id n) g.
Proof.
  destruct (fold_graph_hits rows [] keyed_empty) as ([ND F] & L & _).
  intros I.
  assert (Id : KnowledgeNode.id n = k).
  { rewrite List.Forall_forall in F. apply (F (k, n) I). }
  pose proof (in_assoc_nodup _ _ _ ND I) as A.
  unfold ReasoningWorkflow.lookup_combined in L. rewrite L in A.
  cbn [StateGraph.assoc] in A. rewrite Id.
  destruct (String.eqb_spec k "") as [E|E]; [discriminate|].
  split; [exact E|].
  destruct (first_graph_hit k rows) as [g|] eqn:G; [|discriminate].
  injection A as <-. apply find_some in G. destruct G as [Ig Hg].
  exists g. split; [exact Ig|]. split; [|reflexivity].
  unfold graph_hit_has_id in Hg.
  destruct (GraphNode.id (GraphHit.node g)) as [i|]; [|discriminate].
  apply String.eqb_eq in Hg. congruence.
Qed.

Lemma graph_only_key (rows : list GraphHit.t) (g : GraphHit.t) (k : string) :
  In g rows -> GraphNode.id (GraphHit.node g) = Some k -> k <> "" ->
  In k (map fst (fold_left ReasoningWorkflow.add_graph_hit rows [])).
Proof.
  destruct (fold_graph_hits rows [] keyed_empty) as (_ & L & _).
  intros I Ik Ne. apply in_combined_keys, in_combined_assoc.
  rewrite L. cbn [ReasoningWorkflow.lookup_combined StateGraph.assoc].
  apply String.eqb_neq in Ne. rewrite Ne.
  destruct (first_graph_hit k rows) as [g0|] eqn:G; [discriminate|].
  exfalso. pose proof (find_none _ _ G g I) as X.
  unfold graph_hit_has_id in X. rewrite Ik, String.eqb_refl in X.
  discriminate.
Qed.


Section VectorStoreOutage.
Context {World : Type} `{Services World}.

Lemma for_each_app {A S} (l1 l2 : list A) (body : A -> S -> M World S)
    (s : S) (w : World) :
  for_each (l1 ++ l2) body s w
  = bind (for_each l1 body s) (for_each l2 body) w.
Proof.
  revert s w. induction l1 as [|x l1 IH]; intros s w; cbn [app for_each].
  - reflexivity.
  - unfold bind. specialize (IH).
    destruct (body x s w) as [[s1|e] w1]; [|reflexivity].
    rewrite IH. reflexivity.
Qed.


(** X7. [search_similar] answers a failed search with the empty list, so
    [_retrieve_knowledge] does not fail when the vector store is down:
    if the query can be embedded and the graph search answers, the step
    returns with no vector result, and the retrieved nodes are those of
    the graph rows alone -- one per distinct non-empty row id, in row
    order, with the row's score as confidence. *)
Theorem retrieval_survives_vector_outage (s : ReasoningWorkflowState.t)
    (w w1 w2 w3 : World) (query_embedding : Vec) (e : exn)
    (rows : list GraphHit.t) :
  encode (ReasoningWorkflowState.query s) w = (Return query_embedding, w1) ->
  qdrant_search query_embedding 10 w1 = (Raise e, w2) ->
  neo4j_fulltext (ReasoningWorkflowState.query s) 5 w2 = (Return rows, w3) ->
  exists s',
    ReasoningWorkflow._retrieve_knowledge s w = (Return s', w3)
    /\ ReasoningWorkflowState.vector_results s' = Some []
    /\ ReasoningWorkflowState.graph_results s' = Some rows
    /\ NoDup (map KnowledgeNode.id (ReasoningWorkflowState.retrieved_nodes s'))
    /\ (forall n, In n (ReasoningWorkflowState.retrieved_nodes s') ->
          KnowledgeNode.id n <> ""
          /\ exists g,
               In g rows
               /\ GraphNode.id (GraphHit.node g) = Some (KnowledgeNode.id n)
               /\ n = ReasoningWorkflow.node_of_graph_hit
                        (KnowledgeNode.id n) g)
    /\ (forall g k, In g rows ->
          GraphNode.id (GraphHit.node g) = Some k -> k <> "" ->
          In k (map KnowledgeNode.id
                  (ReasoningWorkflowState.retrieved_nodes s'))).
Proof.
  intros E Q G.
  unfold ReasoningWorkflow._retrieve_knowledge, bind, ret, search_similar,
    try_except, search_nodes.
  rewrite E. cbv beta iota. rewrite Q. unfold ret. cbv beta iota.
  rewrite G.
  eexists. split; [reflexivity|].
  cbn [ReasoningWorkflow.set_current_step ReasoningWorkflowState.with_base
       ReasoningWorkflowState.with_graph_results
       ReasoningWorkflowState.with_vector_results
       ReasoningWorkflowState.with_retrieved_nodes
       ReasoningWorkflowState.vector_results
       ReasoningWorkflowState.graph_results
       ReasoningWorkflowState.retrieved_nodes].
  split; [reflexivity|]. split; [reflexivity|].
  unfold ReasoningWorkflow._combine_search_results,
    ReasoningWorkflow.combine_into_dict. cbn [fold_left].
  destruct (fold_graph_hits rows [] keyed_empty) as (K & L & _).
  set (combined := fold_left ReasoningWorkflow.add_graph_hit rows []) in *.
  assert (Ids : map KnowledgeNode.id (map snd combined) = map fst combined).
  { destruct K as [_ F]. clear -F.
    induction F as [|kv c Hk F IH]; cbn [map]; [reflexivity|].
    rewrite Hk, IH. reflexivity. }
  split; [rewrite Ids; apply K|].
  split.
  - intros n I. apply in_map_iff in I. destruct I as ([k n'] & <- & I).
    cbn [snd]. pose proof (graph_only_entry rows k n' I) as X. exact X.
  - intros g k I Ik Ne. rewrite Ids.
    apply (graph_only_key rows g k I Ik Ne).
Qed.

(** X8. [store_embedding] raises a failed upsert again, and
    [_store_embeddings] has no handler: when the tuples before one have
    been stored and the upsert of that one raises, the step raises the
    same exception there, in the world the failed upsert left -- the
    earlier tuples stay stored and the later ones are not attempted. *)
Theorem storing_stops_at_failed_upsert (s s1 : KnowledgeIngestionState.t)
    (before after : list (string * Vec * KnowledgeNode.t))
    (node_id : string) (embedding : Vec) (node : KnowledgeNode.t)
    (w w1 w2 : World) (e : exn) :
  KnowledgeIngestionState.embeddings_data s
  = Some (before ++ (node_id, embedding, node) :: after) ->
  KnowledgeWorkflow._store_embeddings
    (KnowledgeIngestionState.with_embeddings_data (Some before) s) w
  = (Return s1, w1) ->
  qdrant_upsert node_id embedding (KnowledgeNode.metadata node) w1
  = (Raise e, w2) ->
  KnowledgeWorkflow._store_embeddings s w = (Raise e, w2).
Proof.
  intros D B U. unfold KnowledgeWorkflow._store_embeddings in *.
  rewrite D. cbn [from_option id
                  KnowledgeIngestionState.with_embeddings_data
                  KnowledgeIngestionState.embeddings_data] in *.
  unfold bind at 1. rewrite for_each_app. unfold bind at 1.
  unfold bind at 1 in B.
  destruct (for_each before _ tt w) as [[[]|e0] w0]; [|discriminate B].
  unfold ret in B. injection B as _ <-.
  cbn [for_each]. unfold bind at 1, store_embedding, try_except.
  rewrite U. reflexivity.
Qed.

End VectorStoreOutage.

Lemma retrieval_outage_witness :
  exists s',
    ReasoningWorkflow._retrieve_knowledge
      (H := sample_services false sample_hits [sample_row "g" "Graph" 0.4])
      (ReasoningWorkflow.initial_state "wf" "Is it so?" [] "t0") 0%nat
    = (Return s', 0%nat)
    /\ ReasoningWorkflowState.vector_results s' = Some []
    /\ map KnowledgeNode.id (ReasoningWorkflowState.retrieved_nodes s')
       = ["g"].
Proof.
  destruct (retrieval_survives_vector_outage
              (H := sample_services false sample_hits
                      [sample_row "g" "Graph" 0.4])
              (ReasoningWorkflow.initial_state "wf" "Is it so?" [] "t0")
              0%nat 0%nat 0%nat 0%nat [0.5%Q] "connection refused"
              [sample_row "g" "Graph" 0.4] eq_refl eq_refl eq_refl)
    as (s' & R & V & _).
  exists s'. split; [exact R|]. split; [exact V|].
  vm_compute in R. injection R as <-. reflexivity.
Defined.

Lemma storing_outage_witness :
  let item := ("wf_chunk_0", [0.5%Q], sample_node "wf_chunk_0" "Some text") in
  let s :=
    KnowledgeIngestionState.with_embeddings_data (Some [item])
      (KnowledgeWorkflow.initial_state "wf" sample_content [] None "t0") in
  KnowledgeWorkflow._store_embeddings (H := sample_services false [] []) s
    0%nat
  = (Raise "connection refused", 0%nat).
Proof.
  intros item s.
  apply (storing_stops_at_failed_upsert (H := sample_services false [] [])
           s
           (KnowledgeWorkflow.set_current_step "embeddings_stored"
              (KnowledgeIngestionState.with_embeddings_stored (Some true)
                 (KnowledgeIngestionState.with_embeddings_data (Some []) s)))
           [] [] "wf_chunk_0" [0.5%Q]
           (sample_node "wf_chunk_0" "Some text") 0%nat 0%nat 0%nat
           "connection refused");
    reflexivity.
Defined.

(** ** Ingested nodes, stored and found again *)

Lemma get_str_typed (k default : string) (d : Dict) :
  typed_entry k d ->
  VStr (get_str k default d) = dict_get k (VStr default) d.
Proof.
  unfold typed_entry, get_str, dict_get.
  intros [-> | (s & ->)]; reflexivity.
Qed.

Lemma forall2_enumerate_nth {A B} (R : A -> nat * B -> Prop) (l : list A)
    (l2 : list B) (k i : nat) (b : B) :
  Forall2 R l (enumerate_from k l2) -> nth_error l2 i = Some b ->
  exists a, In a l /\ R a ((k + i)%nat, b).
Proof.
  revert l k i. induction l2 as [|b0 l2 IH]; intros l k i F N.
  - destruct i; discriminate N.
  - cbn [enumerate_from] in F. inversion F as [|a ? l' ? Ra F']; subst.
    destruct i as [|i]; cbn [nth_error] in N.
    + injection N as <-. exists a. rewrite Nat.add_0_r.
      split; [left; reflexivity | exact Ra].
    + destruct (IH l' (S k) i F' N) as (a' & I & Ra').
      exists a'. split; [right; exact I|].
      replace (k + S i)%nat with (S k + i)%nat by lia. exact Ra'.
Qed.

Section RoundTrip.
Context {World : Type} `{Services World}.

(** What is assumed of the vector store: [payloads w] are the points it
    holds in world [w], each an id and a payload; an upsert that returns
    has put its point in place of any point of that id and left the
    others; a search returns points it holds. *)
Variable payloads : World -> list (string * Dict).

Hypothesis upsert_stores :
  forall node_id v metadata w w',
    qdrant_upsert node_id v metadata w = (Return tt, w') ->
    forall q,
      In q (payloads w')
      <-> q = (node_id, metadata) \/ (In q (payloads w) /\ fst q <> node_id).

Hypothesis search_reads :
  forall v limit w hits w',
    qdrant_search v limit w = (Return hits, w') ->
    Forall (fun h => In (VectorHit.id h, VectorHit.metadata h) (payloads w))
      hits.

Lemma process_content_tuples (state : KnowledgeIngestionState.t)
    (w : World) res w' :
  IngestionAgent.process_content state w = (Return res, w') ->
  let chunks := split_text (KnowledgeIngestionState.content state) in
  map (fun item => fst (fst item)) (IngestionAgent.embeddings res)
  = map (chunk_id
           (WorkflowState.workflow_id (KnowledgeIngestionState.base state)))
        (seq 0 (List.length chunks))
  /\ Forall2
       (tuple_for
          (WorkflowState.workflow_id (KnowledgeIngestionState.base state))
          (KnowledgeIngestionState.metadata state)
          (KnowledgeIngestionState.source state) (List.length chunks))
       (IngestionAgent.embeddings res) (enumerate chunks).
Proof.
  rewrite process_content_loop. cbn zeta. unfold bind at 1.
  destruct (for_each _ _ _ w) as [[acc|e] w1] eqn:L; [|discriminate].
  unfold ret. intros [= <- <-].
  apply process_chunks_returned in L. destruct L as (_ & added & Tu & F).
  cbn [snd app] in Tu. subst added. cbn [IngestionAgent.embeddings].
  split; [|exact F].
  set (wid := WorkflowState.workflow_id (KnowledgeIngestionState.base state))
    in *.
  rewrite <- (enumerate_from_fst 0
                (split_text (KnowledgeIngestionState.content state))).
  rewrite map_map. unfold enumerate in F.
  induction F as [|item ic items ics T F IH]; cbn [map]; [reflexivity|].
  rewrite IH. f_equal.
  destruct item as [[node_id v] node]. cbn [tuple_for fst] in T |- *.
  apply T.
Qed.

Lemma store_all_keeps (items : list (string * Vec * KnowledgeNode.t))
    (w w' : World) (k : string) :
  store_all items w = (Return tt, w') ->
  ~ In k (map (fun item => fst (fst item)) items) ->
  forall md, In (k, md) (payloads w') <-> In (k, md) (payloads w).
Proof.
  unfold store_all. revert w.
  induction items as [|[[node_id v] node] items IH]; intros w R Nk md;
    cbn [for_each] in R.
  - injection R as <-. reflexivity.
  - unfold bind at 1, store_embedding, try_except in R.
    destruct (qdrant_upsert node_id v (KnowledgeNode.metadata node) w)
      as [[[]|e] w1] eqn:U; [|discriminate R].
    cbn [map fst In] in Nk.
    rewrite (IH w1 R) by tauto.
    rewrite (upsert_stores _ _ _ _ _ U (k, md)). cbn [fst]. split.
    + intros [[= E _] | [I _]]; [exfalso; apply Nk; left; congruence | exact I].
    + intros I. right. split; [exact I|]. intros E. apply Nk. left.
      congruence.
Qed.

Lemma store_all_stores (items : list (string * Vec * KnowledgeNode.t))
    (w w' : World) :
  store_all items w = (Return tt, w') ->
  NoDup (map (fun item => fst (fst item)) items) ->
  forall item, In item items ->
    forall md,
      In (fst (fst item), md) (payloads w')
      <-> md = KnowledgeNode.metadata (snd item).
Proof.
  revert w. induction items as [|[[node_id v] node] items IH];
    intros w R ND item I md; [destruct I|].
  cbn [map fst] in ND. apply NoDup_cons in ND. destruct ND as [Nin ND].
  rewrite list_elem_of_In in Nin.
  pose proof R as R0. unfold store_all in R. cbn [for_each] in R.
  unfold bind at 1, store_embedding, try_except in R.
  destruct (qdrant_upsert node_id v (KnowledgeNode.metadata node) w)
    as [[[]|e] w1] eqn:U; [|discriminate R].
  destruct I as [<- | I].
  - cbn [fst snd].
    rewrite (store_all_keeps items w1 w' node_id R Nin md).
    rewrite (upsert_stores _ _ _ _ _ U (node_id, md)). cbn [fst]. split.
    + intros [[= E] | [_ N]]; [exact E | contradiction].
    + intros ->. left. reflexivity.
  - apply (IH w1 R ND item I md).
Qed.

(** X3. What [_process_content] produced and [_store_embeddings] stored
    comes back from a similarity search without its text. Take the
    vector store to hold what it was given, and the caller's metadata to
    have a [str] under "content" or no such entry. When a search, made
    while the store holds what the step left, finds the point of chunk
    [i], [_combine_search_results] returns for it a node with the chunk's
    id and the metadata the chunk's node was given, without embedding,
    and with [metadata.get("content", "")] of the caller's metadata as
    content: the chunk itself is stored nowhere, so without a "content"
    entry of the caller's the retrieved content is empty. *)
Theorem stored_node_read_back (s0 s1 s2 : KnowledgeIngestionState.t)
    (w0 w1 w1' w2 w3 w4 : World) (query_embedding : Vec) (limit : nat)
    (hits : list VectorHit.t) (rows : list GraphHit.t) (i : nat)
    (chunk : string) :
  KnowledgeWorkflow._process_content s0 w0 = (Return s1, w1) ->
  KnowledgeWorkflow._store_embeddings s1 w1' = (Return s2, w2) ->
  payloads w3 = payloads w2 ->
  search_similar query_embedding limit w3 = (Return hits, w4) ->
  typed_entry "content" (KnowledgeIngestionState.metadata s0) ->
  let workflow_id :=
    WorkflowState.workflow_id (KnowledgeIngestionState.base s0) in
  let metadata := KnowledgeIngestionState.metadata s0 in
  let chunks := split_text (KnowledgeIngestionState.content s0) in
  nth_error chunks i = Some chunk ->
  In (chunk_id workflow_id i) (map VectorHit.id hits) ->
  exists node,
    In node (ReasoningWorkflow._combine_search_results hits rows)
    /\ KnowledgeNode.id node = chunk_id workflow_id i
    /\ KnowledgeNode.metadata node
       = chunk_metadata metadata (KnowledgeIngestionState.source s0)
           (List.length chunks) i chunk
    /\ KnowledgeNode.embedding node = None
    /\ VStr (KnowledgeNode.content node)
       = dict_get "content" (VStr "") metadata
    /\ (dict_lookup "content" metadata = None ->
        KnowledgeNode.content node = "").
Proof.
  intros P S Same Q Typed workflow_id metadata chunks Nth Found.
  apply _process_content_inv in P. destruct P as (res & P & ->).
  destruct (process_content_tuples s0 w0 res w1 P) as [Ids Tuples].
  fold workflow_id metadata chunks in Ids, Tuples.
  (* what the step stored *)
  assert (St : store_all (IngestionAgent.embeddings res) w1' = (Return tt, w2)).
  { unfold KnowledgeWorkflow._store_embeddings, bind, ret in S.
    cbn [KnowledgeWorkflow.set_current_step
         KnowledgeIngestionState.with_base
         KnowledgeIngestionState.with_embeddings_data
         KnowledgeIngestionState.with_nodes_created
         KnowledgeIngestionState.embeddings_data from_option id] in S.
    unfold store_all.
    destruct (for_each (IngestionAgent.embeddings res) _ tt w1')
      as [[[]|e] wx]; [|discriminate S].
    injection S as _ <-. reflexivity. }
  assert (ND : NoDup (map (fun item => fst (fst item))
                        (IngestionAgent.embeddings res))).
  { rewrite Ids.
    assert (Inj eq eq (chunk_id workflow_id))
      by (intros a b; apply chunk_id_inj).
    apply (NoDup_fmap_2 (chunk_id workflow_id)), NoDup_seq. }
  destruct (forall2_enumerate_nth _ _ _ 0 i chunk Tuples Nth)
    as (item & In_item & T).
  destruct item as [[node_id v] node].
  cbn [tuple_for fst snd Nat.add] in T.
  destruct T as (Id & _ & _ & _ & Md & _).
  pose proof (store_all_stores _ _ _ St ND _ In_item) as Stored.
  cbn [fst snd] in Stored. rewrite Id, Md in Stored.
  (* the first hit with the chunk's id carries that payload *)
  set (k := chunk_id workflow_id i) in *.
  assert (Q' : exists w4',
             qdrant_search query_embedding limit w3 = (Return hits, w4')).
  { unfold search_similar, try_except in Q.
    destruct (qdrant_search query_embedding limit w3) as [[hits'|e] wx].
    - injection Q as <- _. exists wx. reflexivity.
    - injection Q as <- _. destruct Found. }
  clear Q. destruct Q' as (w4' & Q).
  destruct (first_vector_hit k hits) as [r0|] eqn:F.
  2:{ exfalso. apply in_map_iff in Found. destruct Found as (h & Eh & Ih).
      pose proof (find_none _ _ F h Ih) as X. cbn in X.
      rewrite Eh, String.eqb_refl in X. discriminate X. }
  pose proof F as F0. apply find_some in F0. destruct F0 as [I0 E0].
  apply String.eqb_eq in E0.
  pose proof (search_reads _ _ _ _ _ Q) as Reads.
  rewrite List.Forall_forall in Reads. specialize (Reads r0 I0).
  rewrite Same, E0 in Reads. apply Stored in Reads.
  (* the merge keeps the node of that hit *)
  destruct (fold_vector_hits hits [] keyed_empty) as [K1 L1].
  destruct (fold_graph_hits rows _ K1) as (_ & L2 & _).
  assert (L : ReasoningWorkflow.lookup_combined k
                (ReasoningWorkflow.combine_into_dict hits rows)
              = Some (ReasoningWorkflow.node_of_vector_hit r0)).
  { unfold ReasoningWorkflow.combine_into_dict. rewrite L2, L1, F.
    reflexivity. }
  exists (ReasoningWorkflow.node_of_vector_hit r0).
  split.
  { unfold ReasoningWorkflow._combine_search_results.
    apply in_map_iff. exists (k, ReasoningWorkflow.node_of_vector_hit r0).
    split; [reflexivity|]. apply assoc_in. exact L. }
  unfold ReasoningWorkflow.node_of_vector_hit.
  cbn [KnowledgeNode.id KnowledgeNode.metadata KnowledgeNode.embedding
       KnowledgeNode.content].
  split; [exact E0|]. split; [exact Reads|]. split; [reflexivity|].
  assert (C : get_str "content" "" (VectorHit.metadata r0)
              = get_str "content" "" metadata).
  { unfold get_str. rewrite Reads.
    rewrite chunk_metadata_unreserved by reflexivity. reflexivity. }
  rewrite C. split; [apply get_str_typed, Typed|].
  intros N. unfold get_str. rewrite N. reflexivity.
Qed.

End RoundTrip.

Lemma memory_upsert_stores (node_id : string) (v : Vec) (metadata : Dict)
    (w w' : list (string * Dict)) :
  qdrant_upsert (Services := memory_services) node_id v metadata w
  = (Return tt, w') ->
  forall q,
    In q w' <-> q = (node_id, metadata) \/ (In q w /\ fst q <> node_id).
Proof.
  cbn. intros [= <-] q. cbn [In]. rewrite filter_In. split.
  - intros [E | [I N]]; [left; congruence|]. right. split; [exact I|].
    apply negb_true_iff, String.eqb_neq in N. exact N.
  - intros [E | [I N]]; [left; congruence|]. right. split; [exact I|].
    apply negb_true_iff, String.eqb_neq. exact N.
Qed.

Lemma memory_search_reads (v : Vec) (limit : nat)
    (w : list (string * Dict)) hits w' :
  qdrant_search (Services := memory_services) v limit w = (Return hits, w') ->
  Forall (fun h => In (VectorHit.id h, VectorHit.metadata h) w) hits.
Proof.
  cbn. intros [= <- <-]. apply List.Forall_forall. intros h I.
  apply in_map_iff in I. destruct I as ([k md] & <- & I). exact I.
Qed.

Lemma stored_node_witness :
  exists node,
    In node
      (ReasoningWorkflow._combine_search_results
         [ {| VectorHit.id := "wf_chunk_0";
              VectorHit.score := 0.9;
              VectorHit.metadata :=
                chunk_metadata [("topic", VStr "weather")] None 1 0
                  sample_content |} ] [])
    /\ KnowledgeNode.id node = "wf_chunk_0"
    /\ dict_lookup "topic" (KnowledgeNode.metadata node)
       = Some (VStr "weather")
    /\ KnowledgeNode.content node = "".
Proof.
  pose (s0 := KnowledgeWorkflow.initial_state "wf" sample_content
                [("topic", VStr "weather")] None "t0").
  destruct (KnowledgeWorkflow._process_content (H := memory_services) s0 [])
    as [[s1|e] w1] eqn:P; [|vm_compute in P; discriminate P].
  destruct (KnowledgeWorkflow._store_embeddings (H := memory_services) s1 w1)
    as [[s2|e] w2] eqn:S.
  2:{ pose proof P as P'. vm_compute in P'. injection P' as <- <-.
      vm_compute in S. discriminate S. }
  assert (W2 : w2 = [("wf_chunk_0",
                      chunk_metadata [("topic", VStr "weather")] None 1 0
                        sample_content)]).
  { pose proof P as P'. vm_compute in P'. injection P' as <- <-.
    vm_compute in S. injection S as _ <-. reflexivity. }
  destruct (stored_node_read_back (H := memory_services) (fun w => w)
              memory_upsert_stores memory_search_reads
              s0 s1 s2 [] w1 w1 w2 w2 w2 [0.5%Q] 10%nat
              [ {| VectorHit.id := "wf_chunk_0";
                   VectorHit.score := 0.9;
                   VectorHit.metadata :=
                     chunk_metadata [("topic", VStr "weather")] None 1 0
                       sample_content |} ]
              [] 0%nat sample_content P S eq_refl)
    as (node & I & Id & Md & _ & _ & Empty).
  - rewrite W2. reflexivity.
  - left. reflexivity.
  - reflexivity.
  - left. reflexivity.
  - exists node. split; [exact I|]. split; [exact Id|].
    split; [rewrite Md; reflexivity|]. apply Empty. reflexivity.
Defined.

(** ** [AlignmentAgent] *)

Lemma ratio_one (a b : nat) : b <> 0%nat -> (ratio a b == 1)%Q <-> a = b.
Proof.
  intros N. unfold ratio, Qdiv, Qeq, Qmult, Qinv, inject_Z.
  cbn [Qnum Qden]. destruct b as [|b]; [congruence|].
  rewrite Nat2Z.inj_succ. unfold Z.succ.
  destruct (Z.of_nat b + 1)%Z eqn:E; try lia.
  cbn [Qnum Qden]. rewrite Pos.mul_1_l. lia.
Qed.

Lemma ratio_zero (a b : nat) : b <> 0%nat -> (ratio a b == 0)%Q <-> a = 0%nat.
Proof.
  intros N. unfold ratio, Qdiv, Qeq, Qmult, Qinv, inject_Z.
  cbn [Qnum Qden]. destruct b as [|b]; [congruence|].
  rewrite Nat2Z.inj_succ. unfold Z.succ.
  destruct (Z.of_nat b + 1)%Z eqn:E; try lia.
  cbn [Qnum Qden]. lia.
Qed.

Lemma _calculate_similarity_value (n1 n2 : KnowledgeNode.t) :
  let words1 := terms (KnowledgeNode.content n1) in
  let words2 := terms (KnowledgeNode.content n2) in
  AlignmentAgent._calculate_similarity n1 n2
  = Return (if bool_decide (words1 ∪ words2 = ∅) then 0%Q
            else ratio (size (words1 ∩ words2)) (size (words1 ∪ words2))).
Proof.
  cbn zeta. unfold AlignmentAgent._calculate_similarity, terms.
  cbn [item_content KnowledgeNode_NodeLike exc_bind].
  destruct (bool_decide _) eqn:E; [reflexivity|].
  apply truediv_ratio. apply bool_decide_eq_false in E.
  intros Z. apply size_empty_inv in Z. apply E. apply leibniz_equiv, Z.
Qed.

Lemma similarity_bounds (n1 n2 : KnowledgeNode.t) :
  exists q,
    AlignmentAgent._calculate_similarity n1 n2 = Return q
    /\ (0 <= q)%Q /\ (q <= 1)%Q.
Proof.
  eexists. split; [apply _calculate_similarity_value|]. cbn zeta.
  set (words1 := terms (KnowledgeNode.content n1)).
  set (words2 := terms (KnowledgeNode.content n2)).
  destruct (bool_decide (words1 ∪ words2 = ∅)) eqn:E.
  - split; [apply Qle_refl | discriminate].
  - apply bool_decide_eq_false in E. apply ratio_bounds.
    + intros Z. apply size_empty_inv in Z. apply E, leibniz_equiv, Z.
    + apply subseteq_size. set_solver.
Qed.

(** X9. On typed nodes [_calculate_similarity] never raises; it is
    symmetric, lies between 0 and 1, is 1 exactly when the two contents
    have the same, non-empty, set of lower-cased words, and 0 exactly
    when they share no word (two contents without words included). *)
Theorem calculate_similarity_jaccard (n1 n2 : KnowledgeNode.t) :
  let words1 := terms (KnowledgeNode.content n1) in
  let words2 := terms (KnowledgeNode.content n2) in
  exists q,
    AlignmentAgent._calculate_similarity n1 n2 = Return q
    /\ AlignmentAgent._calculate_similarity n2 n1 = Return q
    /\ (0 <= q)%Q /\ (q <= 1)%Q
    /\ ((q == 1)%Q <-> words1 = words2 /\ words1 <> ∅)
    /\ ((q == 0)%Q <-> words1 ∩ words2 = ∅).
Proof.
  intros words1 words2. eexists.
  split; [apply _calculate_similarity_value|].
  split.
  { rewrite _calculate_similarity_value. cbn zeta.
    fold words1 words2.
    rewrite (union_comm_L words2 words1), (intersection_comm_L words2 words1).
    reflexivity. }
  cbn zeta. fold words1 words2.
  destruct (bool_decide (words1 ∪ words2 = ∅)) eqn:E.
  - apply bool_decide_eq_true in E.
    assert (E1 : words1 = ∅) by set_solver.
    assert (E2 : words2 = ∅) by set_solver.
    split; [apply Qle_refl|]. split; [discriminate|].
    split.
    + split; [discriminate | intros [_ N]; contradiction].
    + split; [intros _; set_solver | reflexivity].
  - apply bool_decide_eq_false in E.
    assert (N : size (words1 ∪ words2) <> 0%nat).
    { intros Z. apply size_empty_inv in Z. apply E, leibniz_equiv, Z. }
    assert (L : (size (words1 ∩ words2) <= size (words1 ∪ words2))%nat).
    { apply subseteq_size. set_solver. }
    destruct (ratio_bounds _ _ N L) as [B0 B1].
    split; [exact B0|]. split; [exact B1|]. split.
    + rewrite (ratio_one _ _ N). split.
      * intros S.
        assert (Q : words1 ∩ words2 = words1 ∪ words2).
        { apply set_subseteq_size_eq; [set_solver | lia]. }
        split; [|intros Z; apply E; set_solver].
        apply leibniz_equiv. set_solver.
      * intros [Q _]. rewrite <- Q.
        rewrite (intersection_idemp_L words1), (union_idemp_L words1).
        reflexivity.
    + rewrite (ratio_zero _ _ N). split.
      * intros Z. apply size_empty_inv in Z. apply leibniz_equiv, Z.
      * intros Z. rewrite Z. apply size_empty.
Qed.

Lemma align_pair (n e : KnowledgeNode.t)
    (acc : list AlignmentResult.alignment * list KnowledgeEdge.t) :
  (let! sim := AlignmentAgent._calculate_similarity n e in
   if Qle_bool sim 0.7 then Return acc
   else
     let! new_node := item_id n in
     let! existing_node := item_id e in
     let! similarity := AlignmentAgent._calculate_similarity n e in
     let alignments :=
       fst acc ++
       [ {| AlignmentResult.new_node := new_node;
            AlignmentResult.existing_node := existing_node;
            AlignmentResult.similarity := similarity;
            AlignmentResult.relationship_type := "SIMILAR_TO" |} ] in
     let! from_id := item_id n in
     let! to_id := item_id e in
     let! similarity_score := AlignmentAgent._calculate_similarity n e in
     Return
       (alignments,
        snd acc ++
        [ {| KnowledgeEdge.from_id := from_id;
             KnowledgeEdge.to_id := to_id;
             KnowledgeEdge.type := "SIMILAR_TO";
             KnowledgeEdge.properties :=
               [("similarity_score", VFloat similarity_score)];
             KnowledgeEdge.confidence := 0.8 |} ]))
  = Return (fst acc ++ alignment_of (n, e), snd acc ++ relationship_of (n, e)).
Proof.
  unfold alignment_of, relationship_of, aligned. cbn [fst snd].
  rewrite _calculate_similarity_value. cbn zeta. cbn [exc_bind].
  destruct (Qle_bool _ 0.7).
  - rewrite !app_nil_r. destruct acc; reflexivity.
  - reflexivity.
Qed.

Lemma analyze_alignment_pairs (nodes : list KnowledgeNode.t)
    (existing_graph : ExistingGraph.t KnowledgeNode.t) :
  AlignmentAgent.analyze_alignment nodes existing_graph
  = Return
      {| AlignmentResult.alignments :=
           flat_map alignment_of
             (list_prod nodes (similar_of existing_graph));
         AlignmentResult.new_relationships :=
           flat_map relationship_of
             (list_prod nodes (similar_of existing_graph));
         AlignmentResult.integration_confidence := 0.85 |}.
Proof.
  unfold AlignmentAgent.analyze_alignment, similar_of.
  generalize (default [] (ExistingGraph.similar_nodes existing_graph))
    as similar_nodes. intros similar_nodes.
  assert (Inner : forall n acc,
            exc_for_each similar_nodes
              (fun similar acc =>
                 let! sim := AlignmentAgent._calculate_similarity n similar in
                 if Qle_bool sim 0.7 then Return acc
                 else
                   let! new_node := item_id n in
                   let! existing_node := item_id similar in
                   let! similarity :=
                     AlignmentAgent._calculate_similarity n similar in
                   let alignments :=
                     fst acc ++
                     [ {| AlignmentResult.new_node := new_node;
                          AlignmentResult.existing_node := existing_node;
                          AlignmentResult.similarity := similarity;
                          AlignmentResult.relationship_type :=
                            "SIMILAR_TO" |} ] in
                   let! from_id := item_id n in
                   let! to_id := item_id similar in
                   let! similarity_score :=
                     AlignmentAgent._calculate_similarity n similar in
                   Return
                     (alignments,
                      snd acc ++
                      [ {| KnowledgeEdge.from_id := from_id;
                           KnowledgeEdge.to_id := to_id;
                           KnowledgeEdge.type := "SIMILAR_TO";
                           KnowledgeEdge.properties :=
                             [("similarity_score", VFloat similarity_score)];
                           KnowledgeEdge.confidence := 0.8 |} ]))
              acc
            = Return
                (fst acc
                 ++ flat_map (fun e => alignment_of (n, e)) similar_nodes,
                 snd acc
                 ++ flat_map (fun e => relationship_of (n, e))
                      similar_nodes)).
  { intros n. induction similar_nodes as [|e similar_nodes IH]; intros acc;
      cbn [exc_for_each flat_map].
    - rewrite !app_nil_r. destruct acc; reflexivity.
    - rewrite align_pair. cbn [exc_bind]. rewrite IH. cbn [fst snd].
      rewrite <- !app_assoc. reflexivity. }
  assert (Outer : forall acc,
            exc_for_each nodes
              (fun node acc =>
                 exc_for_each similar_nodes
                   (fun similar acc =>
                      let! sim :=
                        AlignmentAgent._calculate_similarity node similar in
                      if Qle_bool sim 0.7 then Return acc
                      else
                        let! new_node := item_id node in
                        let! existing_node := item_id similar in
                        let! similarity :=
                          AlignmentAgent._calculate_similarity node similar in
                        let alignments :=
                          fst acc ++
                          [ {| AlignmentResult.new_node := new_node;
                               AlignmentResult.existing_node := existing_node;
                               AlignmentResult.similarity := similarity;
                               AlignmentResult.relationship_type :=
                                 "SIMILAR_TO" |} ] in
                        let! from_id := item_id node in
                        let! to_id := item_id similar in
                        let! similarity_score :=
                          AlignmentAgent._calculate_similarity node similar in
                        Return
                          (alignments,
                           snd acc ++
                           [ {| KnowledgeEdge.from_id := from_id;
                                KnowledgeEdge.to_id := to_id;
                                KnowledgeEdge.type := "SIMILAR_TO";
                                KnowledgeEdge.properties :=
                                  [("similarity_score",
                                    VFloat similarity_score)];
                                KnowledgeEdge.confidence := 0.8 |} ]))
                   acc)
              acc
            = Return
                (fst acc
                 ++ flat_map alignment_of (list_prod nodes similar_nodes),
                 snd acc
                 ++ flat_map relationship_of
                      (list_prod nodes similar_nodes))).
  { induction nodes as [|n nodes IH]; intros acc;
      cbn [exc_for_each list_prod].
    - cbn [flat_map]. rewrite !app_nil_r. destruct acc; reflexivity.
    - rewrite Inner. cbn [exc_bind]. rewrite IH. cbn [fst snd].
      rewrite !flat_map_app, <- !app_assoc.
      rewrite !flat_map_concat_map, !map_map, <- !flat_map_concat_map.
      reflexivity. }
  cbn [default] in Outer |- *. rewrite Outer. reflexivity.
Qed.

(** X10. On typed nodes, [analyze_alignment] never raises and reports
    one alignment and one relationship for every (new, similar) pair, in
    loop order, whose similarity is greater than 0.7: both are
    "SIMILAR_TO" and carry the ids of the pair and that similarity, the
    relationship has confidence 0.8, and the two lists have the same
    length; the integration confidence is always 0.85. A graph without
    the "similar_nodes" key, as the ingestion workflow passes it, yields
    neither. *)
Theorem analyze_alignment_typed (nodes : list KnowledgeNode.t)
    (existing_graph : ExistingGraph.t KnowledgeNode.t) :
  let pairs := list_prod nodes (similar_of existing_graph) in
  exists r,
    AlignmentAgent.analyze_alignment nodes existing_graph = Return r
    /\ AlignmentResult.integration_confidence r = 0.85%Q
    /\ AlignmentResult.alignments r = flat_map alignment_of pairs
    /\ AlignmentResult.new_relationships r = flat_map relationship_of pairs
    /\ List.length (AlignmentResult.alignments r)
       = List.length (AlignmentResult.new_relationships r)
    /\ map (fun a => (AlignmentResult.new_node a,
                      AlignmentResult.existing_node a,
                      AlignmentResult.similarity a))
         (AlignmentResult.alignments r)
       = map (fun e => (KnowledgeEdge.from_id e, KnowledgeEdge.to_id e,
                        match KnowledgeEdge.properties e with
                        | [(_, VFloat q)] => q
                        | _ => 0%Q
                        end))
           (AlignmentResult.new_relationships r)
    /\ Forall (fun a => AlignmentResult.relationship_type a = "SIMILAR_TO"
                        /\ (0.7 < AlignmentResult.similarity a)%Q
                        /\ (AlignmentResult.similarity a <= 1)%Q)
         (AlignmentResult.alignments r)
    /\ Forall (fun e => KnowledgeEdge.type e = "SIMILAR_TO"
                        /\ KnowledgeEdge.confidence e = 0.8%Q)
         (AlignmentResult.new_relationships r)
    /\ (ExistingGraph.similar_nodes existing_graph = None ->
        AlignmentResult.alignments r = []
        /\ AlignmentResult.new_relationships r = []).
Proof.
  intros pairs. eexists. split; [apply analyze_alignment_pairs|].
  cbn [AlignmentResult.alignments AlignmentResult.new_relationships
       AlignmentResult.integration_confidence].
  fold pairs. split; [reflexivity|]. split; [reflexivity|].
  split; [reflexivity|].
  assert (Per : forall ne,
            List.length (alignment_of ne) = List.length (relationship_of ne)
            /\ map (fun a => (AlignmentResult.new_node a,
                              AlignmentResult.existing_node a,
                              AlignmentResult.similarity a))
                 (alignment_of ne)
               = map (fun e => (KnowledgeEdge.from_id e,
                                KnowledgeEdge.to_id e,
                                match KnowledgeEdge.properties e with
                                | [(_, VFloat q)] => q
                                | _ => 0%Q
                                end))
                   (relationship_of ne)
            /\ Forall (fun a => AlignmentResult.relationship_type a
                                = "SIMILAR_TO"
                                /\ (0.7 < AlignmentResult.similarity a)%Q
                                /\ (AlignmentResult.similarity a <= 1)%Q)
                 (alignment_of ne)
            /\ Forall (fun e => KnowledgeEdge.type e = "SIMILAR_TO"
                                /\ KnowledgeEdge.confidence e = 0.8%Q)
                 (relationship_of ne)).
  { intros [n e]. unfold alignment_of, relationship_of, aligned.
    cbn [fst snd].
    destruct (similarity_bounds n e) as (q & -> & _ & Le1).
    destruct (Qle_bool q 0.7) eqn:T.
    - repeat split; constructor.
    - split; [reflexivity|]. split; [reflexivity|].
      split; constructor; try constructor; cbn; repeat split; try exact Le1.
      apply Qnot_le_lt. intros L. apply Qle_bool_iff in L. congruence. }
  assert (Main :
    List.length (flat_map alignment_of pairs)
    = List.length (flat_map relationship_of pairs)
    /\ map (fun a => (AlignmentResult.new_node a,
                      AlignmentResult.existing_node a,
                      AlignmentResult.similarity a))
         (flat_map alignment_of pairs)
       = map (fun e => (KnowledgeEdge.from_id e, KnowledgeEdge.to_id e,
                        match KnowledgeEdge.properties e with
                        | [(_, VFloat q)] => q
                        | _ => 0%Q
                        end))
           (flat_map relationship_of pairs)
    /\ Forall (fun a => AlignmentResult.relationship_type a = "SIMILAR_TO"
                        /\ (0.7 < AlignmentResult.similarity a)%Q
                        /\ (AlignmentResult.similarity a <= 1)%Q)
         (flat_map alignment_of pairs)
    /\ Forall (fun e => KnowledgeEdge.type e = "SIMILAR_TO"
                        /\ KnowledgeEdge.confidence e = 0.8%Q)
         (flat_map relationship_of pairs)).
  { clearbody pairs. induction pairs as [|ne pairs IH]; cbn [flat_map].
    - repeat split; constructor.
    - destruct (Per ne) as (P1 & P2 & P3 & P4).
      destruct IH as (I1 & I2 & I3 & I4).
      rewrite !length_app, !map_app.
      split; [congruence|]. split; [congruence|].
      split; apply Forall_app; auto. }
  destruct Main as (M1 & M2 & M3 & M4).
  split; [exact M1|]. split; [exact M2|]. split; [exact M3|].
  split; [exact M4|].
  intros N. unfold pairs, similar_of. rewrite N. cbn [default].
  assert (E : list_prod nodes (@nil KnowledgeNode.t) = []).
  { clear. induction nodes as [|n nodes IH]; [reflexivity | exact IH]. }
  rewrite E. split; reflexivity.
Qed.

(** ** [ContradictionAgent] *)

Lemma append_assoc_string (a b c : string) :
  (a +:+ b) +:+ c = a +:+ (b +:+ c).
Proof.
  induction a as [|x a IH]; [reflexivity|].
  rewrite !append_cons, IH. reflexivity.
Qed.

Lemma appears_in_trans (a b c : string) :
  appears_in a b -> appears_in b c -> appears_in a c.
Proof.
  intros (p & q & ->) (p' & q' & ->). exists (p' +:+ p), (q +:+ q').
  rewrite !append_assoc_string. reflexivity.
Qed.

Lemma says_nested (pos neg : string) (n : KnowledgeNode.t) :
  In (pos, neg) nested_patterns -> says neg n = true -> says pos n = true.
Proof.
  unfold says. rewrite !contains_spec. intros I A.
  apply (appears_in_trans pos neg); [|exact A].
  destruct I as [[= <- <-] | [[= <- <-] | []]].
  - exists "", " not". reflexivity.
  - exists "in", "". reflexivity.
Qed.

Lemma says_conflict (pos neg : string) (n e : KnowledgeNode.t) :
  In (pos, neg) ContradictionAgent.contradiction_patterns ->
  says pos n = true -> says neg e = true -> polarity_conflictb n e = true.
Proof.
  intros I P N. unfold polarity_conflictb. apply existsb_exists.
  exists (pos, neg). split; [exact I|]. cbn [fst snd].
  unfold says in P, N. rewrite P, N. reflexivity.
Qed.

Lemma nested_is_pattern (p : string * string) :
  In p nested_patterns -> In p ContradictionAgent.contradiction_patterns.
Proof.
  intros [<- | [<- | []]]; cbn; auto.
Qed.

Lemma filter_length_le {X} (f g : X -> bool) (l : list X) :
  (forall x, f x = true -> g x = true) ->
  (List.length (List.filter f l) <= List.length (List.filter g l))%nat.
Proof.
  intros Imp. induction l as [|x l IH]; cbn [List.filter]; [lia|].
  destruct (f x) eqn:F.
  - rewrite (Imp x F). cbn [List.length]. lia.
  - destruct (g x); cbn [List.length]; lia.
Qed.

Lemma filter_list_prod_length {X Y} (f : X -> bool) (g : Y -> bool)
    (l : list X) (m : list Y) :
  List.length
    (List.filter (fun p => f (fst p) && g (snd p)) (list_prod l m))
  = (List.length (List.filter f l) * List.length (List.filter g m))%nat.
Proof.
  induction l as [|x l IH]; cbn [list_prod List.filter]; [reflexivity|].
  rewrite List.filter_app, length_app, IH.
  assert (Row : List.length
                  (List.filter (fun p => f (fst p) && g (snd p))
                     (map (fun y => (x, y)) m))
                = if f x then List.length (List.filter g m) else 0%nat).
  { clear IH. induction m as [|y m IHm]; cbn [map List.filter fst snd].
    - destruct (f x); reflexivity.
    - destruct (f x); cbn [andb] in *; [|exact IHm].
      destruct (g y); cbn [List.length]; rewrite IHm; reflexivity. }
  rewrite Row. destruct (f x); cbn [List.length]; lia.
Qed.

Lemma conflicting_pairs_bound (pos neg : string)
    (nodes existing : list KnowledgeNode.t) :
  In (pos, neg) ContradictionAgent.contradiction_patterns ->
  (List.length (List.filter (says pos) nodes)
   * List.length (List.filter (says neg) existing)
   <= List.length (conflicting_pairs nodes existing))%nat.
Proof.
  intros I. rewrite <- filter_list_prod_length. unfold conflicting_pairs.
  apply filter_length_le. intros [n e]. cbn [fst snd]. intros B.
  apply andb_true_iff in B. destruct B as [P N].
  apply (says_conflict pos neg); assumption.
Qed.

Section SelfContradiction.
Context {World : Type} `{Services World}.

Lemma _check_contradictions_returns (state : ReasoningWorkflowState.t)
    (w : World) :
  exists state',
    ReasoningWorkflow._check_contradictions state w = (Return state', w)
    /\ ReasoningWorkflowState.contradictions_found state'
       = map (fun ne => KnowledgeNode.id (fst ne))
           (conflicting_pairs (ReasoningWorkflowState.retrieved_nodes state)
              (ReasoningWorkflowState.retrieved_nodes state)).
Proof.
  unfold ReasoningWorkflow._check_contradictions, bind, ret, lift.
  destruct (detect_contradictions_nodes
              (ReasoningWorkflowState.retrieved_nodes state)
              {| ExistingGraph.nodes :=
                   Some (ReasoningWorkflowState.retrieved_nodes state);
                 ExistingGraph.similar_nodes := None |}) as (r & -> & C).
  eexists. split; [reflexivity|]. exact C.
Qed.

(** X11. The reasoning workflow checks the retrieved nodes against
    themselves, and the negative phrases "is not" and "incorrect" contain
    their positive phrases "is" and "correct". So a node that says the
    negative phrase also says the positive one and conflicts with itself,
    and with p nodes saying the positive and q the negative phrase at
    least p * q entries are flagged, where q <= p: two retrieved nodes
    that say "is not" (or two that say "incorrect") give at least four
    and stop the reasoning. *)
Theorem negated_nodes_stop_reasoning (state : ReasoningWorkflowState.t)
    (w : World) (pos neg : string) :
  In (pos, neg) nested_patterns ->
  let retrieved := ReasoningWorkflowState.retrieved_nodes state in
  let p := List.length (List.filter (says pos) retrieved) in
  let q := List.length (List.filter (says neg) retrieved) in
  exists state',
    ReasoningWorkflow._check_contradictions state w = (Return state', w)
    /\ (forall n, says neg n = true -> polarity_conflictb n n = true)
    /\ (q <= p)%nat
    /\ (p * q
        <= List.length (ReasoningWorkflowState.contradictions_found state'))%nat
    /\ ((2 <= q)%nat ->
        ReasoningWorkflow._should_continue_reasoning state' = "stop").
Proof.
  intros I retrieved p q.
  destruct (_check_contradictions_returns state w) as (state' & R & C).
  exists state'. split; [exact R|].
  pose proof (nested_is_pattern _ I) as IP.
  assert (Self : forall n, says neg n = true -> polarity_conflictb n n = true).
  { intros n N. apply (says_conflict pos neg); [exact IP | | exact N].
    apply (says_nested pos neg); assumption. }
  split; [exact Self|].
  assert (QP : (q <= p)%nat).
  { apply filter_length_le. intros n. apply says_nested, I. }
  split; [exact QP|].
  assert (B : (p * q
               <= List.length
                    (ReasoningWorkflowState.contradictions_found state'))%nat).
  { rewrite C, length_map. apply conflicting_pairs_bound, IP. }
  split; [exact B|].
  intros Two. unfold ReasoningWorkflow._should_continue_reasoning.
  assert (L : (2 < List.length
                     (ReasoningWorkflowState.contradictions_found state'))%nat)
    by nia.
  apply Nat.ltb_lt in L. rewrite L. reflexivity.
Qed.

End SelfContradiction.

Lemma negated_nodes_witness :
  let state :=
    ReasoningWorkflowState.with_retrieved_nodes
      [ sample_node "a" "Water is not dry."; sample_node "b" "Ice is not hot." ]
      (ReasoningWorkflow.initial_state "wf" "Is water dry?" [] "t0") in
  exists state',
    ReasoningWorkflow._check_contradictions state 0%nat
    = (Return state', 0%nat)
    /\ ReasoningWorkflow._should_continue_reasoning state' = "stop".
Proof.
  intros state.
  destruct (negated_nodes_stop_reasoning state 0%nat "is" "is not"
              (or_introl eq_refl))
    as (state' & R & _ & _ & _ & Stop).
  exists state'. split; [exact R|]. apply Stop.
  apply Nat.leb_le. reflexivity.
Defined.

(** X12. The resolution suggestions of [detect_contradictions] are three
    per conflicting pair, in loop order: one naming the two node ids and
    two fixed sentences; so there are three times as many suggestions as
    entries of [conflicting_nodes], and none exactly when
    [has_contradiction] is false. *)
Theorem resolution_suggestions_per_pair (nodes : list KnowledgeNode.t)
    (existing_graph : ExistingGraph.t KnowledgeNode.t) :
  let pairs := conflicting_pairs nodes (existing_of existing_graph) in
  exists r,
    ContradictionAgent.detect_contradictions nodes existing_graph = Return r
    /\ ContradictionAnalysis.resolution_suggestions r
       = flat_map suggestions_for pairs
    /\ List.length (ContradictionAnalysis.resolution_suggestions r)
       = (3 * List.length (ContradictionAnalysis.conflicting_nodes r))%nat
    /\ (ContradictionAnalysis.resolution_suggestions r = []
        <-> ContradictionAnalysis.has_contradiction r = false).
Proof.
  intros pairs. unfold ContradictionAgent.detect_contradictions.
  rewrite find_contradictions_nodes. cbn [exc_bind].
  eexists. split; [reflexivity|].
  cbn [ContradictionAnalysis.resolution_suggestions
       ContradictionAnalysis.conflicting_nodes
       ContradictionAnalysis.has_contradiction].
  unfold all_recorded. fold (conflicting_pairs nodes
                               (existing_of existing_graph)) in pairs.
  unfold pairs, conflicting_pairs.
  generalize (list_prod nodes (existing_of existing_graph)) as l.
  intros l.
  assert (G : ContradictionAgent._generate_resolution_suggestions
                (flat_map (fun ne => recorded (fst ne) (snd ne)) l)
              = flat_map suggestions_for
                  (List.filter
                     (fun ne => polarity_conflictb (fst ne) (snd ne)) l)
              /\ List.length
                   (flat_map (fun ne => recorded (fst ne) (snd ne)) l)
                 = List.length
                     (List.filter
                        (fun ne => polarity_conflictb (fst ne) (snd ne)) l)).
  { unfold ContradictionAgent._generate_resolution_suggestions.
    induction l as [|[n e] l [IH1 IH2]]; cbn [flat_map List.filter fst snd];
      [split; reflexivity|].
    destruct (polarity_conflictb n e) eqn:P.
    - destruct (recorded_shape n e P) as (c & -> & I1 & I2 & _).
      cbn [app flat_map List.length]. rewrite IH1, IH2.
      unfold suggestions_for at 1. cbn [fst snd]. rewrite I1, I2.
      split; reflexivity.
    - rewrite recorded_conflict, P. cbn [app]. split; assumption. }
  destruct G as [G1 G2]. rewrite G1. split; [reflexivity|].
  rewrite length_map, G2.
  set (found := List.filter _ l).
  assert (Len : List.length (flat_map suggestions_for found)
                = (3 * List.length found)%nat).
  { induction found as [|ne found IH]; cbn [flat_map List.length app];
      [reflexivity|].
    unfold suggestions_for at 1. cbn [app List.length]. rewrite IH. lia. }
  split; [exact Len|].
  destruct found as [|ne found]; cbn [flat_map List.length Nat.ltb Nat.leb].
  - split; reflexivity.
  - split; discriminate.
Qed.

(** ** [ResearchAgent] *)

Lemma ratio_lt_one (a b : nat) :
  b <> 0%nat -> (ratio a b < 1)%Q <-> (a < b)%nat.
Proof.
  intros N. unfold ratio, Qdiv, Qlt, Qmult, Qinv, inject_Z.
  cbn [Qnum Qden]. destruct b as [|b]; [congruence|].
  rewrite Nat2Z.inj_succ. unfold Z.succ.
  destruct (Z.of_nat b + 1)%Z eqn:E; try lia.
  cbn [Qnum Qden]. rewrite Pos.mul_1_l. lia.
Qed.

Lemma _identify_conceptual_gaps_types (query : string)
    (nodes : list KnowledgeNode.t) :
  map Gap.type (ResearchAgent._identify_conceptual_gaps query nodes)
  = if existsb shallow nodes then ["depth_gap"] else [].
Proof.
  unfold ResearchAgent._identify_conceptual_gaps. fold shallow.
  induction nodes as [|n nodes IH]; cbn [List.filter existsb map];
    [reflexivity|].
  destruct (shallow n); cbn [orb map]; [reflexivity | exact IH].
Qed.

(** X13. [identify_gaps] reports at most two gaps, a terminology gap
    before a depth gap: the terminology gap exactly when some query term
    occurs in no retrieved node, which is exactly when the coverage
    score is below 1; the depth gap exactly when some retrieved node has
    fewer than 50 words. It makes one research suggestion per gap, and
    never the one for a recency gap. Without retrieved nodes there is no
    depth gap. *)
Theorem identify_gaps_gaps (query : string)
    (retrieved : list KnowledgeNode.t) :
  exists r,
    ResearchAgent.identify_gaps query retrieved = Return r
    /\ map Gap.type (GapAnalysis.gaps r)
       = (if bool_decide (terms query ⊆ node_terms retrieved) then []
          else ["terminology_gap"])
         ++ (if existsb shallow retrieved then ["depth_gap"] else [])
    /\ ((GapAnalysis.coverage_score r < 1)%Q
        <-> In "terminology_gap" (map Gap.type (GapAnalysis.gaps r)))
    /\ (Exists (fun n => (List.length (Py.split (KnowledgeNode.content n))
                          < 50)%nat) retrieved
        <-> In "depth_gap" (map Gap.type (GapAnalysis.gaps r)))
    /\ List.length (GapAnalysis.research_suggestions r)
       = List.length (GapAnalysis.gaps r)
    /\ (List.length (GapAnalysis.gaps r) <= 2)%nat
    /\ ~ In "Update outdated information" (GapAnalysis.research_suggestions r)
    /\ (retrieved = [] ->
        map Gap.type (GapAnalysis.gaps r)
        = if bool_decide (terms query = ∅) then [] else ["terminology_gap"]).
Proof.
  unfold ResearchAgent.identify_gaps. fold (terms query).
  rewrite covered_by_spec.
  set (query_terms := terms query).
  set (covered := query_terms ∩ node_terms retrieved).
  pose proof (_identify_conceptual_gaps_types query retrieved) as D.
  assert (Ex : Exists (fun n => (List.length
                                   (Py.split (KnowledgeNode.content n))
                                 < 50)%nat) retrieved
               <-> existsb shallow retrieved = true).
  { rewrite List.Exists_exists, existsb_exists.
    split; intros (n & I & S); exists n; (split; [exact I|]);
      unfold shallow in *; apply Nat.ltb_lt; exact S. }
  assert (Cov : exists coverage_score,
            (if bool_decide (query_terms = ∅) then Return 1.0%Q
             else truediv (size covered) (size query_terms))
            = Return coverage_score
            /\ ((coverage_score < 1)%Q
                <-> ~ query_terms ⊆ node_terms retrieved)).
  { destruct (decide (query_terms = ∅)) as [E|N].
    - rewrite (bool_decide_eq_true_2 _ E). eexists.
      split; [reflexivity|]. split.
      + intros L. exfalso. revert L. unfold Qlt. cbn. lia.
      + intros S. exfalso. apply S. rewrite E. set_solver.
    - rewrite (bool_decide_eq_false_2 _ N).
      assert (Sz : size query_terms <> 0%nat).
      { intros Z. apply N, leibniz_equiv, size_empty_iff, Z. }
      rewrite (truediv_ratio _ _ Sz). eexists. split; [reflexivity|].
      rewrite (ratio_lt_one _ _ Sz). split.
      + intros L S.
        assert (C : covered = query_terms) by (unfold covered; set_solver).
        rewrite C in L. lia.
      + intros S.
        assert (Le : (size covered <= size query_terms)%nat).
        { apply subseteq_size. unfold covered. set_solver. }
        destruct (Nat.eq_dec (size covered) (size query_terms)) as [Q|Q];
          [|lia].
        exfalso. apply S.
        assert (C : covered = query_terms).
        { apply set_subseteq_size_eq; [unfold covered; set_solver | lia]. }
        unfold covered in C. set_solver. }
  destruct Cov as (coverage_score & -> & CovLt). cbn [exc_bind].
  eexists. split; [reflexivity|].
  cbn [GapAnalysis.gaps GapAnalysis.coverage_score
       GapAnalysis.research_suggestions].
  assert (M : bool_decide (query_terms ∖ covered = ∅)
              = bool_decide (query_terms ⊆ node_terms retrieved)).
  { apply bool_decide_ext. unfold covered. clearbody query_terms.
    generalize (node_terms retrieved) as nt. intros nt. clear.
    split.
    - intros E x I. destruct (decide (x ∈ nt)) as [J|J]; [exact J|].
      exfalso. apply (not_elem_of_empty (C := gset string) x).
      rewrite <- E. set_solver.
    - intros S. apply leibniz_equiv. set_solver. }
  rewrite M.
  set (conceptual := ResearchAgent._identify_conceptual_gaps query retrieved)
    in *.
  assert (Shape : conceptual = []
                  \/ exists g, conceptual = [g] /\ Gap.type g = "depth_gap").
  { unfold conceptual, ResearchAgent._identify_conceptual_gaps.
    destruct (map KnowledgeNode.id _); [left; reflexivity|].
    right. eexists. split; reflexivity. }
  destruct (bool_decide (query_terms ⊆ node_terms retrieved)) eqn:T;
    [apply bool_decide_eq_true in T | apply bool_decide_eq_false in T];
    cbn [app map].
  - rewrite D.
    destruct (existsb shallow retrieved) eqn:S;
      destruct Shape as [C | (g & C & Tg)]; rewrite C in D |- *;
      try discriminate D; cbn [map] in D |- *.
    + unfold ResearchAgent._generate_research_suggestions. cbn [flat_map].
      rewrite Tg. cbn [String.eqb Ascii.eqb Bool.eqb app List.length In].
      split; [reflexivity|].
      split; [split; [intros L; apply CovLt in L; contradiction
                     | intros [X|[]]; discriminate X]|].
      split; [split; [auto | intros _; apply Ex; reflexivity]|].
      split; [reflexivity|]. split; [lia|].
      split; [intros [X|[]]; discriminate X|].
      intros ->. discriminate S.
    + cbn [flat_map List.length In
           ResearchAgent._generate_research_suggestions].
      split; [reflexivity|].
      split; [split; [intros L; apply CovLt in L; contradiction
                     | intros []]|].
      split; [split; [intros X; apply Ex in X; discriminate X | intros []]|].
      split; [reflexivity|]. split; [lia|]. split; [intros []|].
      intros ->. rewrite bool_decide_eq_true_2; [reflexivity|].
      apply leibniz_equiv. unfold node_terms in T. cbn in T. set_solver.
  - rewrite D.
    destruct (existsb shallow retrieved) eqn:S;
      destruct Shape as [C | (g & C & Tg)]; rewrite C in D |- *;
      try discriminate D; cbn [map] in D |- *.
    + unfold ResearchAgent._generate_research_suggestions.
      cbn [flat_map Gap.type]. rewrite Tg.
      cbn [String.eqb Ascii.eqb Bool.eqb app List.length In].
      split; [reflexivity|].
      split; [split; [auto | intros _; apply CovLt; exact T]|].
      split; [split; [auto | intros _; apply Ex; reflexivity]|].
      split; [reflexivity|]. split; [lia|].
      split; [intros [X|[X|[]]]; discriminate X|].
      intros ->. discriminate S.
    + unfold ResearchAgent._generate_research_suggestions.
      cbn [flat_map Gap.type String.eqb Ascii.eqb Bool.eqb app List.length
           In].
      split; [reflexivity|].
      split; [split; [auto | intros _; apply CovLt; exact T]|].
      split; [split; [intros X; apply Ex in X; discriminate X
                     | intros [X|[]]; discriminate X]|].
      split; [reflexivity|]. split; [lia|].
      split; [intros [X|[]]; discriminate X|].
      intros ->. rewrite bool_decide_eq_false_2; [reflexivity|].
      intros E. apply T. rewrite E. set_solver.
Qed.

(** ** [IngestionAgent.validate_content], once more *)





(** ** Reasoning with services that answer *)

Section Progress.
Context {World State : Type}.
Variable g : StateGraph.t World State.
Variable rank : string -> nat.


End Progress.


Section ReasoningCompletes.
Context {World : Type} `{Services World}.

Hypothesis encode_answers :
  forall text w, exists v w', encode text w = (Return v, w').
Hypothesis llm_answers :
  forall prompt w, exists text w', llm_ainvoke prompt w = (Return text, w').
Hypothesis fulltext_answers :
  forall query limit w,
    exists rows w', neo4j_fulltext query limit w = (Return rows, w').



End ReasoningCompletes.


(** ** The reasoning prompt *)




Section Prompt.
Context {World : Type} `{Services World}.


End Prompt.

(** ** Reasoning over ingested nodes *)

Lemma read_back_content (n : KnowledgeNode.t) :
  read_back n -> KnowledgeNode.content n = "".
Proof.
  intros (workflow_id & metadata & source & k & item & ic & score
          & T & C & ->).
  destruct item as [[node_id embedding] node]. destruct ic as [i chunk].
  cbn [tuple_for fst snd] in T. destruct T as (_ & _ & _ & _ & Md & _).
  unfold ReasoningWorkflow.node_of_vector_hit, hit_of_stored.
  cbn [KnowledgeNode.content VectorHit.metadata snd]. unfold get_str.
  rewrite Md, chunk_metadata_unreserved by reflexivity. rewrite C.
  reflexivity.
Qed.

Lemma contentless_no_conflict (nodes existing : list KnowledgeNode.t) :
  Forall (fun n => KnowledgeNode.content n = "") nodes ->
  conflicting_pairs nodes existing = [].
Proof.
  intros F. unfold conflicting_pairs.
  induction F as [|n nodes Hn F IH]; cbn [list_prod]; [reflexivity|].
  rewrite List.filter_app, IH, app_nil_r. clear IH.
  induction existing as [|e existing IHe]; cbn [map List.filter fst snd];
    [reflexivity|].
  assert (P : polarity_conflictb n e = false).
  { unfold polarity_conflictb. rewrite Hn. reflexivity. }
  rewrite P. exact IHe.
Qed.

Lemma contentless_terms (retrieved : list KnowledgeNode.t) :
  Forall (fun n => KnowledgeNode.content n = "") retrieved ->
  node_terms retrieved = ∅.
Proof.
  intros F. unfold node_terms.
  induction F as [|n l Hn F IH]; cbn [map]; [reflexivity|].
  rewrite union_list_cons, IH, Hn.
  change (terms "") with (∅ : gset string).
  apply leibniz_equiv. set_solver.
Qed.

(** X21. The nodes an ingestion produced and a similarity search reads
    back have no text (unless the caller's metadata had a "content"
    entry), so on a retrieved list of such nodes the reasoning workflow
    flags no contradiction and continues; [identify_gaps] covers no query
    term -- coverage 0.0 and a terminology gap whenever the query has a
    term -- and reports a depth gap whenever anything was retrieved. *)
Theorem reasoning_over_read_back_nodes (query : string)
    (retrieved : list KnowledgeNode.t) :
  Forall read_back retrieved ->
  Forall (fun n => KnowledgeNode.content n = "") retrieved
  /\ (exists r,
        ContradictionAgent.detect_contradictions retrieved
          (graph_of retrieved) = Return r
        /\ ContradictionAnalysis.has_contradiction r = false
        /\ ContradictionAnalysis.conflicting_nodes r = [])
  /\ (forall (World : Type) (state : ReasoningWorkflowState.t) (w : World),
        ReasoningWorkflowState.retrieved_nodes state = retrieved ->
        exists state',
          ReasoningWorkflow._check_contradictions state w
          = (Return state', w)
          /\ ReasoningWorkflowState.contradictions_found state' = []
          /\ ReasoningWorkflow._should_continue_reasoning state'
             = "continue")
  /\ (exists g,
        ResearchAgent.identify_gaps query retrieved = Return g
        /\ (terms query <> ∅ -> (GapAnalysis.coverage_score g == 0)%Q)
        /\ map Gap.type (GapAnalysis.gaps g)
           = (if bool_decide (terms query = ∅) then []
              else ["terminology_gap"])
             ++ (match retrieved with [] => [] | _ => ["depth_gap"] end)).
Proof.
  intros RB.
  assert (F : Forall (fun n => KnowledgeNode.content n = "") retrieved).
  { eapply List.Forall_impl; [|exact RB]. apply read_back_content. }
  split; [exact F|].
  pose proof (contentless_no_conflict retrieved retrieved F) as NC.
  split.
  { destruct (detect_contradictions_nodes retrieved (graph_of retrieved))
      as (r & R & C).
    exists r. split; [exact R|].
    change (existing_of (graph_of retrieved)) with retrieved in C.
    rewrite NC in C. cbn [map] in C. split; [|exact C].
    unfold ContradictionAgent.detect_contradictions in R.
    rewrite find_contradictions_nodes in R. cbn [exc_bind] in R.
    injection R as <-.
    cbn [ContradictionAnalysis.has_contradiction
         ContradictionAnalysis.conflicting_nodes] in *.
    destruct (all_recorded retrieved (existing_of (graph_of retrieved)));
      [reflexivity | discriminate C]. }
  split.
  { intros World state w E.
    destruct (_check_contradictions_returns state w) as (state' & R & C).
    exists state'. split; [exact R|]. rewrite E, NC in C. cbn [map] in C.
    split; [exact C|].
    unfold ReasoningWorkflow._should_continue_reasoning. rewrite C.
    reflexivity. }
  unfold ResearchAgent.identify_gaps. fold (terms query).
  rewrite covered_by_spec, (contentless_terms retrieved F).
  set (query_terms := terms query).
  assert (Cv : query_terms ∩ ∅ = (∅ : gset string)).
  { clearbody query_terms. apply leibniz_equiv. set_solver. }
  rewrite Cv.
  assert (Mi : query_terms ∖ ∅ = query_terms).
  { clearbody query_terms. apply leibniz_equiv. set_solver. }
  rewrite Mi.
  assert (Sh : map Gap.type
                 (ResearchAgent._identify_conceptual_gaps query retrieved)
               = match retrieved with [] => [] | _ => ["depth_gap"] end).
  { rewrite _identify_conceptual_gaps_types.
    destruct F as [|n l Hn F]; [reflexivity|].
    cbn [existsb]. unfold shallow at 1. rewrite Hn. reflexivity. }
  destruct (decide (query_terms = ∅)) as [E|N].
  - rewrite (bool_decide_eq_true_2 _ E). cbn [exc_bind].
    eexists. split; [reflexivity|].
    cbn [GapAnalysis.coverage_score GapAnalysis.gaps app].
    split; [intros X; contradiction | exact Sh].
  - rewrite (bool_decide_eq_false_2 _ N).
    assert (Sz : size query_terms <> 0%nat).
    { intros Z. apply N, leibniz_equiv, size_empty_iff, Z. }
    rewrite (truediv_ratio _ _ Sz). cbn [exc_bind].
    eexists. split; [reflexivity|].
    cbn [GapAnalysis.coverage_score GapAnalysis.gaps].
    split; [intros _; rewrite size_empty; apply ratio_none|].
    rewrite map_app, Sh. reflexivity.
Qed.

Lemma read_back_witness :
  let node :=
    {| KnowledgeNode.id := chunk_id "wf" 0;
       KnowledgeNode.content := "The sky is not blue.";
       KnowledgeNode.embedding := Some [0.5%Q];
       KnowledgeNode.metadata :=
         chunk_metadata [] None 1 0 "The sky is not blue.";
       KnowledgeNode.confidence := 0.8;
       KnowledgeNode.created_at := "t1";
       KnowledgeNode.updated_at := "t2" |} in
  let found :=
    ReasoningWorkflow.node_of_vector_hit (hit_of_stored node 0.9) in
  exists g,
    ResearchAgent.identify_gaps "Is the sky blue?" [found; found; found]
    = Return g
    /\ map Gap.type (GapAnalysis.gaps g) = ["terminology_gap"; "depth_gap"].
Proof.
  intros node found.
  assert (RB : read_back found).
  { exists "wf", [], None, 1%nat, (chunk_id "wf" 0, [0.5%Q], node),
      (0%nat, "The sky is not blue."), 0.9%Q.
    split; [cbn; repeat split|]. split; reflexivity. }
  destruct (reasoning_over_read_back_nodes "Is the sky blue?"
              [found; found; found])
    as (_ & _ & _ & g & G & _ & T).
  - repeat constructor; exact RB.
  - exists g. split; [exact G|]. rewrite T.
    rewrite bool_decide_eq_false_2; [reflexivity|].
    intros E. apply (f_equal size) in E. vm_compute in E. discriminate E.
Defined.

(** ** Words and trimmed length *)

Lemma split_from_count (s tok : string) :
  (2 * List.length (Py.split_from tok s)
   <= String.length s + (if String.eqb tok "" then 1 else 2))%nat.
Proof.
  revert tok. induction s as [|c s IH]; intros tok;
    cbn [Py.split_from String.length].
  - destruct tok; cbn; lia.
  - destruct (Py.is_space c).
    + destruct tok as [|t tok].
      * specialize (IH ""). cbn [String.eqb] in IH |- *. lia.
      * specialize (IH ""). cbn [String.eqb List.length] in IH |- *. lia.
    + specialize (IH (tok +:+ String c EmptyString)).
      assert (N : String.eqb (tok +:+ String c EmptyString) "" = false).
      { destruct tok; reflexivity. }
      rewrite N in IH. destruct (String.eqb tok ""); lia.
Qed.

Lemma split_from_leading (a : list ascii) (s : string) :
  Forall (fun c => Py.is_space c = true) a ->
  Py.split_from "" (string_of_list_ascii a +:+ s) = Py.split_from "" s.
Proof.
  intros F. induction F as [|c a Hc F IH]; [reflexivity|].
  cbn [string_of_list_ascii]. rewrite append_cons.
  cbn [Py.split_from]. rewrite Hc. exact IH.
Qed.

Lemma split_from_blank (b : list ascii) (tok : string) :
  Forall (fun c => Py.is_space c = true) b ->
  Py.split_from tok (string_of_list_ascii b) = Py.split_from tok "".
Proof.
  intros F. revert tok. induction F as [|c b Hc F IH]; intros tok;
    [reflexivity|].
  cbn [string_of_list_ascii Py.split_from]. rewrite Hc.
  destruct tok as [|t tok]; rewrite IH; reflexivity.
Qed.

Lemma split_from_trailing (s : string) (b : list ascii) (tok : string) :
  Forall (fun c => Py.is_space c = true) b ->
  Py.split_from tok (s +:+ string_of_list_ascii b) = Py.split_from tok s.
Proof.
  intros F. revert tok. induction s as [|c s IH]; intros tok.
  - rewrite append_nil. apply split_from_blank, F.
  - rewrite append_cons. cbn [Py.split_from].
    destruct (Py.is_space c); [destruct tok|]; rewrite ?IH; reflexivity.
Qed.

Lemma lstrip_chars_split (l : list ascii) :
  exists a,
    l = a ++ Py.lstrip_chars l
    /\ Forall (fun c => Py.is_space c = true) a.
Proof.
  induction l as [|c l (a & E & F)]; cbn [Py.lstrip_chars].
  - exists []. split; [reflexivity | constructor].
  - destruct (Py.is_space c) eqn:S.
    + exists (c :: a). split; [cbn [app]; congruence|].
      constructor; assumption.
    + exists []. split; [reflexivity | constructor].
Qed.

Lemma string_of_list_ascii_app (a b : list ascii) :
  string_of_list_ascii (a ++ b)
  = string_of_list_ascii a +:+ string_of_list_ascii b.
Proof.
  induction a as [|c a IH]; [reflexivity|].
  cbn [app string_of_list_ascii]. rewrite append_cons, IH. reflexivity.
Qed.

(** [split] does not see the whitespace [strip] removes. *)
Lemma split_strip (s : string) : Py.split (Py.strip s) = Py.split s.
Proof.
  unfold Py.split, Py.strip.
  destruct (lstrip_chars_split (list_ascii_of_string s)) as (a & Ea & Fa).
  set (l1 := Py.lstrip_chars (list_ascii_of_string s)) in *.
  destruct (lstrip_chars_split (rev l1)) as (b & Eb & Fb).
  set (l2 := Py.lstrip_chars (rev l1)) in *.
  assert (E1 : l1 = rev l2 ++ rev b).
  { rewrite <- (rev_involutive l1), Eb, rev_app_distr. reflexivity. }
  rewrite <- (string_of_list_ascii_of_string s) at 1.
  rewrite Ea, E1, !string_of_list_ascii_app.
  rewrite split_from_leading by exact Fa.
  rewrite split_from_trailing; [reflexivity|].
  apply List.Forall_forall. intros c I. apply in_rev in I.
  rewrite List.Forall_forall in Fb. apply Fb, I.
Qed.

Lemma words_and_trimmed_length (s : string) :
  (2 * List.length (Py.split s) <= String.length (Py.strip s) + 1)%nat.
Proof.
  rewrite <- split_strip. unfold Py.split.
  exact (split_from_count (Py.strip s) "").
Qed.

(** X22. The two tests of [validate_content] are not independent: n
    words take at least 2n - 1 characters of the trimmed content, so
    content with six or more words is never too short, and "Content too
    short" is the only issue only for content of exactly five words in
    exactly nine trimmed characters, such as "a b c d e". *)
Theorem too_short_alone (state : KnowledgeIngestionState.t) :
  let content := KnowledgeIngestionState.content state in
  let r := IngestionAgent.validate_content state in
  (2 * List.length (Py.split content)
   <= String.length (Py.strip content) + 1)%nat
  /\ ((6 <= List.length (Py.split content))%nat ->
      ~ In "Content too short" (ValidationResult.issues r))
  /\ (ValidationResult.issues r = ["Content too short"] ->
      List.length (Py.split content) = 5%nat
      /\ String.length (Py.strip content) = 9%nat).
Proof.
  intros content r. subst r.
  pose proof (words_and_trimmed_length content) as W.
  split; [exact W|].
  unfold IngestionAgent.validate_content. fold content.
  destruct (Nat.ltb_spec (String.length (Py.strip content)) 10) as [S|S];
  destruct (Nat.ltb_spec (List.length (Py.split content)) 5) as [F|F];
  cbn [ValidationResult.issues app].
  - split; [intros; lia | discriminate].
  - split; [intros; lia | intros _; lia].
  - split; [intros; lia | discriminate].
  - split; [intros _ [] | discriminate].
Qed.

Lemma too_short_alone_witness :
  let state := KnowledgeWorkflow.initial_state "wf" "a b c d e" [] None "t0" in
  List.length (Py.split (KnowledgeIngestionState.content state)) = 5%nat
  /\ String.length (Py.strip (KnowledgeIngestionState.content state)) = 9%nat.
Proof.
  intros state.
  apply (proj2 (proj2 (too_short_alone state))). reflexivity.
Defined.

(** ** [CurriculumAgent] *)

Lemma level_cases (c : CurriculumAgent.Concept) :
  (at_level 0 c = String.eqb (CurriculumAgent.difficulty_of c) "beginner")
  /\ (at_level 1 c
      = String.eqb (CurriculumAgent.difficulty_of c) "intermediate")
  /\ (at_level 2 c
      = String.eqb (CurriculumAgent.difficulty_of c) "advanced")
  /\ (recognised c = at_level 0 c || at_level 1 c || at_level 2 c)
  /\ (forall k, at_level k c = true -> level c = Some k)
  /\ (forall k, level c = Some k -> (k <= 2)%nat).
Proof.
  unfold at_level, recognised, level.
  destruct (String.eqb_spec (CurriculumAgent.difficulty_of c) "beginner")
    as [E|E]; [rewrite ?E; cbn|].
  { repeat split; try reflexivity.
    - intros k K. destruct k as [|[|[|k]]];
        first [discriminate K | reflexivity].
    - intros k [= <-]. lia. }
  destruct (String.eqb_spec (CurriculumAgent.difficulty_of c) "intermediate")
    as [E1|E1]; [rewrite ?E1; cbn|].
  { repeat split; try reflexivity.
    - intros k K. destruct k as [|[|[|k]]];
        first [discriminate K | reflexivity].
    - intros k [= <-]. lia. }
  destruct (String.eqb_spec (CurriculumAgent.difficulty_of c) "advanced")
    as [E2|E2]; [rewrite ?E2; cbn|].
  { repeat split; try reflexivity.
    - intros k K. destruct k as [|[|[|k]]];
        first [discriminate K | reflexivity].
    - intros k [= <-]. lia. }
  repeat split; try reflexivity; try discriminate.
Qed.

Lemma _build_learning_path_levels (concepts : list CurriculumAgent.Concept)
    (relationships : list Dict) :
  CurriculumAgent._build_learning_path concepts relationships
  = List.filter (at_level 0) concepts
    ++ List.filter (at_level 1) concepts
    ++ List.filter (at_level 2) concepts.
Proof.
  unfold CurriculumAgent._build_learning_path. cbn [app].
  rewrite <- app_assoc. f_equal; [|f_equal];
    apply List.filter_ext; intros c;
    destruct (level_cases c) as (L0 & L1 & L2 & _); congruence.
Qed.


Lemma permutation_by_level (l : list CurriculumAgent.Concept) :
  Permutation
    (List.filter (at_level 0) l ++ List.filter (at_level 1) l
     ++ List.filter (at_level 2) l)
    (List.filter recognised l).
Proof.
  induction l as [|c l IH]; cbn [List.filter]; [constructor|].
  destruct (level_cases c) as (_ & _ & _ & R & Lv & _). rewrite R.
  destruct (at_level 0 c) eqn:A0.
  { pose proof (Lv _ A0) as L. unfold at_level in *. rewrite L in *.
    cbn [Nat.eqb orb app]. constructor. exact IH. }
  destruct (at_level 1 c) eqn:A1.
  { pose proof (Lv _ A1) as L. unfold at_level in *. rewrite L in *.
    cbn [Nat.eqb orb app].
    etransitivity; [|constructor; exact IH].
    symmetry. apply Permutation_middle. }
  destruct (at_level 2 c) eqn:A2.
  { pose proof (Lv _ A2) as L. unfold at_level in *. rewrite L in *.
    cbn [Nat.eqb orb app].
    etransitivity; [|constructor; exact IH].
    rewrite !app_assoc. symmetry. apply Permutation_middle. }
  cbn [orb]. exact IH.
Qed.



Lemma getitem_middle {A} (pre : list A) (p : A) (l : list A) :
  CurriculumAgent.getitem (pre ++ p :: l) (List.length pre) = Return p.
Proof.
  unfold CurriculumAgent.getitem.
  rewrite nth_error_app2 by lia. rewrite Nat.sub_diag. reflexivity.
Qed.

(** The loop of [_identify_prerequisites] from the concept after [p]
    on, [pre] being the concepts before [p]. *)
Lemma prerequisites_loop (full pre : list CurriculumAgent.Concept)
    (p : CurriculumAgent.Concept) (l : list CurriculumAgent.Concept)
    (acc : list string) :
  full = pre ++ p :: l ->
  exc_for_each (enumerate_from (S (List.length pre)) l)
    (fun ic prerequisites =>
       let i := fst ic in
       let concept := snd ic in
       if (0 <? i)%nat
       then
         let! prev_concept := CurriculumAgent.getitem full (i - 1) in
         let! concept_name := CurriculumAgent.getitem_name concept in
         let! prev_name := CurriculumAgent.getitem_name prev_concept in
         Return (prerequisites ++
                 [concept_name +:+ " requires understanding of " +:+
                  prev_name])
       else Return prerequisites)
    acc
  = match l with
    | [] => Return acc
    | _ :: _ =>
        if existsb lacks_name (p :: l) then Raise "'name'"
        else Return (acc ++ sentences_from p l)
    end.
Proof.
  revert pre p acc. induction l as [|c l IH]; intros pre p acc F;
    [reflexivity|].
  cbn [enumerate_from exc_for_each fst snd].
  rewrite (proj2 (Nat.ltb_lt 0 (S (List.length pre)))) by lia.
  replace (S (List.length pre) - 1)%nat with (List.length pre) by lia.
  assert (G : CurriculumAgent.getitem full (List.length pre) = Return p)
    by (rewrite F; apply getitem_middle).
  rewrite G. cbn [exc_bind].
  cbn [existsb]. unfold CurriculumAgent.getitem_name at 1 2.
  unfold lacks_name at 1 2.
  destruct (CurriculumAgent.name c) as [cn|] eqn:Nc; cbn [exc_bind];
    [|rewrite orb_true_r; reflexivity].
  destruct (CurriculumAgent.name p) as [pn|] eqn:Np; cbn [exc_bind orb];
    [|reflexivity].
  specialize (IH (pre ++ [p]) c
                (acc ++ [cn +:+ " requires understanding of " +:+ pn])).
  rewrite length_app in IH. cbn [List.length] in IH.
  replace (List.length pre + 1)%nat with (S (List.length pre)) in IH by lia.
  rewrite IH by (rewrite F, <- app_assoc; reflexivity).
  assert (Lc : lacks_name c = false) by (unfold lacks_name; rewrite Nc;
                                         reflexivity).
  assert (Sn : sentences_from p (c :: l)
               = (cn +:+ " requires understanding of " +:+ pn)
                 :: sentences_from c l).
  { cbn [sentences_from]. unfold name_or_empty. rewrite Nc, Np.
    reflexivity. }
  rewrite Sn. cbn [existsb]. rewrite Lc. cbn [orb].
  destruct l as [|d l]; cbn [sentences_from existsb].
  - reflexivity.
  - destruct (lacks_name d || existsb lacks_name l); [reflexivity|].
    rewrite <- app_assoc. reflexivity.
Qed.

Lemma prerequisites_closed_form (path : list CurriculumAgent.Concept) :
  CurriculumAgent._identify_prerequisites path
  = if (2 <=? List.length path)%nat && existsb lacks_name path
    then Raise "'name'"
    else Return (sentences path).
Proof.
  unfold CurriculumAgent._identify_prerequisites, enumerate.
  destruct path as [|p l]; [reflexivity|].
  cbn [enumerate_from exc_for_each fst snd exc_bind].
  rewrite Nat.ltb_irrefl.
  etransitivity;
    [exact (prerequisites_loop (p :: l) [] p l [] eq_refl)|].
  destruct l as [|c l]; reflexivity.
Qed.

Lemma sentences_length (path : list CurriculumAgent.Concept) :
  List.length (sentences path) = (List.length path - 1)%nat.
Proof.
  destruct path as [|p l]; [reflexivity|]. cbn [sentences List.length].
  replace (S (List.length l) - 1)%nat with (List.length l) by lia.
  revert p.
  induction l as [|c l IH]; intros p; cbn [sentences_from List.length];
    [reflexivity|]. rewrite IH. reflexivity.
Qed.

(** X15. [_identify_prerequisites] makes one sentence per concept of the
    path after the first, "{name} requires understanding of {previous
    name}", in path order; it raises [KeyError('name')] exactly when the
    path has at least two concepts and one of them has no name. A path of
    one nameless concept, which is never subscripted, yields no sentence
    and no error. *)
Theorem identify_prerequisites_spec (path : list CurriculumAgent.Concept) :
  CurriculumAgent._identify_prerequisites path
  = (if (2 <=? List.length path)%nat && existsb lacks_name path
     then Raise "'name'"
     else Return (sentences path))
  /\ List.length (sentences path) = (List.length path - 1)%nat
  /\ (forall c, CurriculumAgent._identify_prerequisites [c] = Return []).
Proof.
  split; [apply prerequisites_closed_form|].
  split; [apply sentences_length|]. intros c. reflexivity.
Qed.

(** X16. [generate_curriculum] puts the pieces together: it raises
    exactly when at least two of the concepts have a known difficulty and
    one of those has no name -- a nameless concept of unknown difficulty
    is dropped before it is read. When it returns, the path is the sorted
    one, the difficulty progression lists only the three known
    difficulties, there is one prerequisite less than concepts on the
    path, and the estimate is two hours per concept, given in hours below
    twelve concepts and in whole days, rounded down, from twelve on.
    Knowledge without a "concepts" key gives the empty curriculum. *)
Theorem generate_curriculum_spec (topic : string)
    (existing_knowledge : CurriculumAgent.Knowledge) :
  let concepts := default [] (CurriculumAgent.concepts existing_knowledge) in
  let path := List.filter (at_level 0) concepts
              ++ List.filter (at_level 1) concepts
              ++ List.filter (at_level 2) concepts in
  let n := List.length path in
  (CurriculumAgent.generate_curriculum topic existing_knowledge
   = Raise "'name'"
   <-> (2 <= n)%nat
       /\ Exists (fun c => recognised c = true
                           /\ CurriculumAgent.name c = None) concepts)
  /\ (forall r,
        CurriculumAgent.generate_curriculum topic existing_knowledge
        = Return r ->
        CurriculumAgent.topic r = topic
        /\ CurriculumAgent.learning_path r = path
        /\ CurriculumAgent.prerequisites r = sentences path
        /\ List.length (CurriculumAgent.prerequisites r) = (n - 1)%nat
        /\ CurriculumAgent.difficulty_progression r
           = repeat "beginner" (List.length (List.filter (at_level 0) concepts))
             ++ repeat "intermediate"
                  (List.length (List.filter (at_level 1) concepts))
             ++ repeat "advanced"
                  (List.length (List.filter (at_level 2) concepts))
        /\ CurriculumAgent.estimated_time r
           = (if (n <? 12)%nat then str_of_nat (2 * n) +:+ " hours"
              else str_of_nat (n / 12) +:+ " days"))
  /\ (CurriculumAgent.concepts existing_knowledge = None ->
      CurriculumAgent.generate_curriculum topic existing_knowledge
      = Return {| CurriculumAgent.topic := topic;
                  CurriculumAgent.learning_path := [];
                  CurriculumAgent.prerequisites := [];
                  CurriculumAgent.difficulty_progression := [];
                  CurriculumAgent.estimated_time := "0 hours" |}).
Proof.
  intros concepts path n.
  unfold CurriculumAgent.generate_curriculum. fold concepts.
  rewrite !_build_learning_path_levels. fold path.
  pose proof (prerequisites_closed_form path) as P.
  pose proof (sentences_length path) as Len.
  rewrite P. fold n.
  assert (Lack : existsb lacks_name path = true
                 <-> Exists (fun c => recognised c = true
                                      /\ CurriculumAgent.name c = None)
                       concepts).
  { rewrite existsb_exists, List.Exists_exists.
    assert (InP : forall c, In c path
                            <-> In c concepts /\ recognised c = true).
    { intros c. rewrite <- filter_In. split; intros I.
      - apply (Permutation_in _ (permutation_by_level concepts)), I.
      - apply (Permutation_in _ (Permutation_sym
                                   (permutation_by_level concepts))), I. }
    split.
    - intros (c & I & L). apply InP in I. destruct I as [I R].
      exists c. split; [exact I|]. split; [exact R|].
      unfold lacks_name in L. destruct (CurriculumAgent.name c);
        [discriminate | reflexivity].
    - intros (c & I & R & N). exists c. split; [apply InP; auto|].
      unfold lacks_name. rewrite N. reflexivity. }
  split; [|split].
  - destruct (Nat.leb_spec 2 n) as [L|L]; cbn [andb].
    + destruct (existsb lacks_name path) eqn:X; cbn [exc_bind].
      * split; [intros _; split; [exact L | apply Lack; reflexivity]
               | reflexivity].
      * split; [discriminate|]. intros [_ E]. apply Lack in E. discriminate.
    + cbn [exc_bind]. split; [discriminate | intros [L2 _]; lia].
  - intros r R.
    destruct ((2 <=? n)%nat && existsb lacks_name path); cbn [exc_bind] in R;
      [discriminate|].
    injection R as <-.
    cbn [CurriculumAgent.topic CurriculumAgent.learning_path
         CurriculumAgent.prerequisites CurriculumAgent.difficulty_progression
         CurriculumAgent.estimated_time].
    split; [reflexivity|]. split; [reflexivity|]. split; [reflexivity|].
    split; [exact Len|]. split.
    + unfold CurriculumAgent._calculate_difficulty_progression, path.
      rewrite !map_app.
      assert (Rep : forall k d (cs : list CurriculumAgent.Concept),
                (forall c, at_level k c = true ->
                           CurriculumAgent.difficulty_of c = d) ->
                map CurriculumAgent.difficulty_of
                  (List.filter (at_level k) cs)
                = repeat d (List.length (List.filter (at_level k) cs))).
      { intros k d cs Hd. induction cs as [|c l IH]; cbn [List.filter];
          [reflexivity|].
        destruct (at_level k c) eqn:A; [|exact IH].
        cbn [map List.length repeat]. rewrite IH, (Hd c A). reflexivity. }
      rewrite (Rep 0%nat "beginner"), (Rep 1%nat "intermediate"),
        (Rep 2%nat "advanced"); [reflexivity| | |];
        intros c A; destruct (level_cases c) as (L0 & L1 & L2 & _);
        apply String.eqb_eq; congruence.
    + unfold CurriculumAgent._estimate_completion_time. fold n.
      replace (n * 2)%nat with (2 * n)%nat by lia.
      destruct (Nat.ltb_spec (2 * n) 24), (Nat.ltb_spec n 12); try lia;
        [reflexivity|].
      f_equal. f_equal.
      replace 24%nat with (2 * 12)%nat by reflexivity.
      rewrite Nat.Div0.div_mul_cancel_l by lia. reflexivity.
  - intros N. clear P Len Lack. subst n path concepts. rewrite N.
    reflexivity.
Qed.
